(** * Authorization and credential subsystem of the compliance REST backend

    A shallow embedding of [src/middleware/auth.js], [src/apis/auth-api.js],
    [src/services/UserService.js] and [src/models/UserCredential.js].

    The relational store is a record of finite maps keyed by primary key,
    the ORM calls are functions over it, a transaction is a working copy
    that only [commit] publishes, and every handler is a function from the
    request and the store to a response and the new store. *)

From Stdlib Require Import ZArith.
From stdpp Require Import base option list strings gmap fin_maps.

(** ** JavaScript values and objects *)

(** The values that occur in token payloads and request fields. *)
Inductive jsval :=
| JUndefined
| JNull
| JNum (n : Z)
| JStr (s : string).

Global Instance jsval_eq_dec : EqDecision jsval.
Proof. solve_decision. Defined.

(** JavaScript truthiness ([!v] is [negb (truthy v)]). *)
Definition truthy (v : jsval) : bool :=
  match v with
  | JUndefined | JNull => false
  | JNum n => negb (n =? 0)%Z
  | JStr s => negb (String.eqb s "")
  end.

(** A request-body field: [None] is an absent (undefined) field. *)
Definition truthy_str (o : option string) : bool :=
  match o with
  | Some s => negb (String.eqb s "")
  | None => false
  end.

(** [a || b] on strings. *)
Definition or_str (a : option string) (b : string) : string :=
  match a with
  | Some s => if String.eqb s "" then b else s
  | None => b
  end.

(** [s.length]: the number of UTF-16 code units of a string, which is held
    here as the bytes of its UTF-8 form.  A byte [10xxxxxx] continues a
    character and adds nothing; a lead byte [11110xxx] starts a character
    outside the basic plane, which takes two units; every other lead byte
    starts a character of one unit. *)
Fixpoint js_length (s : string) : nat :=
  match s with
  | EmptyString => 0
  | String a s' =>
      let n := Ascii.nat_of_ascii a in
      ((if (128 <=? n) && (n <? 192) then 0
        else if 240 <=? n then 2 else 1) + js_length s')%nat
  end.

(** A plain object: its own properties in insertion order. *)
Definition jsobject := list (string * jsval).

Fixpoint get (o : jsobject) (k : string) : jsval :=
  match o with
  | [] => JUndefined
  | (k', v) :: o' => if String.eqb k' k then v else get o' k
  end.

Fixpoint set (o : jsobject) (k : string) (v : jsval) : jsobject :=
  match o with
  | [] => [(k, v)]
  | (k', v') :: o' =>
      if String.eqb k' k then (k', v) :: o' else (k', v') :: set o' k v
  end.

Definition keys (o : jsobject) : list string := map fst o.

(** [JSON.parse(JSON.stringify(o))] on a flat object: properties whose value
    is [undefined] are dropped. *)
Definition json_roundtrip (o : jsobject) : jsobject :=
  filter (λ kv, kv.2 ≠ JUndefined) o.

(** ** Errors *)

(** A thrown [Error]: its [name] and [message]. *)
Record Exn := mkExn { exn_name : string; exn_message : string }.

Definition Error (msg : string) : Exn := mkExn "Error" msg.

(** ** Configuration ([config.jwt]) *)

Record Config := {
  jwt_secret : string;
  (** [config.jwt.expiresIn], in seconds ('1h' is 3600). *)
  jwt_expiresIn : Z
}.

(** ** Tokens (the [jsonwebtoken] library) *)

(** A signed token: the serialized payload, the secret that signed it, and
    the [iat] and [exp] claims the library adds.  The library also copies
    [iat] and [exp] into the decoded object; no handler reads them, so the
    decoded object here is the payload alone. *)
Record Token := {
  payload : jsobject;
  signed_with : string;
  iat : Z;
  exp : Z
}.

Definition jwt_sign (p : jsobject) (secret : string) (expiresIn now : Z) : Token :=
  {| payload := json_roundtrip p;
     signed_with := secret;
     iat := now;
     exp := (now + expiresIn)%Z |}.

(** One space-separated piece of an [Authorization] header: the compact
    encoding of a token, or any other text. *)
Inductive RawToken :=
| Garbage (s : string)
| Jwt (t : Token).

Definition raw_truthy (r : RawToken) : bool :=
  match r with
  | Garbage s => negb (String.eqb s "")
  | Jwt _ => true
  end.

(** [jwt.verify(token, secret)]: the signature is checked first, then the
    expiry ([now >= exp] is expired). *)
Definition jwt_verify (r : RawToken) (secret : string) (now : Z) : Exn + jsobject :=
  match r with
  | Garbage _ => inl (mkExn "JsonWebTokenError" "jwt malformed")
  | Jwt t =>
      if negb (String.eqb (signed_with t) secret)
      then inl (mkExn "JsonWebTokenError" "invalid signature")
      else if (exp t <=? now)%Z
      then inl (mkExn "TokenExpiredError" "jwt expired")
      else inr (payload t)
  end.

(** ** Rows of the relational store *)

(** A loaded model instance is a pair of its primary key and its row. *)
Definition pk {R : Type} (inst : Z * R) : Z := inst.1.
Definition row {R : Type} (inst : Z * R) : R := inst.2.

Module User.
(** [models/User.js]; the columns the authorization subsystem reads. *)
Record t := {
  email : string;
  firstName : string;
  lastName : string;
  isActive : bool;
  isDeleted : bool;
  roleId : option Z
}.
End User.

Module UserCredential.
(** [models/UserCredential.js]. *)
Record t := {
  userId : Z;
  authType : string;
  loginName : string;
  passwordHash : option string;
  passwordSalt : option string;
  lastPasswordChange : option Z;
  passwordExpired : bool;
  openIdProvider : option string;
  openIdSubject : option string;
  isActive : bool;
  isDeleted : bool
}.
End UserCredential.

Module Role.
Record t := { name : string }.
End Role.

Module Permission.
(** [models/Permission.js]. *)
Record t := { code : string; featureId : Z; permissionActionId : option Z }.
End Permission.

Record Store := {
  users : gmap Z User.t;
  credentials : gmap Z UserCredential.t;
  roles : gmap Z Role.t;
  permissions : gmap Z Permission.t;
  (** The join table [RolePermissions]: pairs (RoleID, PermissionID). *)
  rolePermissions : list (Z * Z)
}.

Definition with_users (s : Store) (u : gmap Z User.t) : Store :=
  {| users := u; credentials := credentials s; roles := roles s;
     permissions := permissions s; rolePermissions := rolePermissions s |}.

Definition with_credentials (s : Store) (c : gmap Z UserCredential.t) : Store :=
  {| users := users s; credentials := c; roles := roles s;
     permissions := permissions s; rolePermissions := rolePermissions s |}.

(** ** External collaborators *)

(** The primitives the code calls but does not implement: [bcryptjs], the
    [isEmail] validator of the ORM, and the integer input routine of the
    database server (used when a URL parameter or a string is compared with
    an integer column). *)
Class Platform := {
  bcrypt_hash : string → string → string;
  bcrypt_compare : string → string → bool;
  isEmail : string → bool;
  pg_int4in : string → option Z
}.

(** ** The ORM *)

Section Orm.
Context {R : Type}.

(** [Model.findOne({ where })]: a row that satisfies the where clause, or
    none.  The query is a [LIMIT 1] without [ORDER BY], so which of several
    matching rows the database returns is not determined by the table's
    contents; the scan here takes them in the order of [map_to_list].  The
    properties below state which row is found only where at most one row
    can match (a primary key, a unique index, or a hypothesis that says
    so); the others do not depend on which of the matching rows it is. *)
Definition findOne (P : Z * R → bool) (m : gmap Z R) : option (Z * R) :=
  List.find P (map_to_list m).

(** [Model.findByPk(id)]. *)
Definition findByPk (k : Z) (m : gmap Z R) : option (Z * R) :=
  (λ r, (k, r)) <$> m !! k.

(** [Model.count({ where })]. *)
Definition count (P : Z * R → bool) (m : gmap Z R) : nat :=
  size (filter (λ kv, P kv = true) m).

(** The key an [autoIncrement] primary key takes on insert: a key no row
    of the table has.  The database draws it from a sequence, which also
    advances on inserts that fail or are rolled back; the key after the
    largest one present is taken here, and the general properties below
    state the key of a new row only as a free one. *)
Definition next_id (m : gmap Z R) : Z :=
  (1 + foldr Z.max 0 (map_to_list m).*1)%Z.
End Orm.

(** Binding a JavaScript value to an integer column in a where clause:
    [undefined] makes the query builder throw, [null] becomes [IS NULL]
    (no row of a NOT NULL column), a string goes through the server's
    integer input routine. *)
Definition where_int `{Platform} (v : jsval) : Exn + option Z :=
  match v with
  | JUndefined => inl (Error "WHERE parameter has invalid undefined value")
  | JNull => inr None
  | JNum n => inr (Some n)
  | JStr s =>
      match pg_int4in s with
      | Some n => inr (Some n)
      | None => inl (mkExn "SequelizeDatabaseError" "invalid input syntax for type integer")
      end
  end.

(** Binding a request field to a string column. *)
Definition where_str (o : option string) : Exn + string :=
  match o with
  | Some s => inr s
  | None => inl (Error "WHERE parameter has invalid undefined value")
  end.

Definition eqb_opt_str (a : option string) (b : string) : bool :=
  match a with
  | Some s => String.eqb s b
  | None => false
  end.

(** *** [User] *)

Record UserDraft := {
  d_email : option string;
  d_firstName : option string;
  d_lastName : option string;
  d_roleId : option Z
}.

(** [User.create({ ..., isActive: true, isDeleted: false })]: the
    [allowNull: false] and [isEmail] validations, then the insert under the
    unique constraint on [Email]. *)
Definition User_create `{Platform} (d : UserDraft) (m : gmap Z User.t)
  : Exn + ((Z * User.t) * gmap Z User.t) :=
  match d_email d, d_firstName d, d_lastName d with
  | Some e, Some f, Some l =>
      if negb (isEmail e)
      then inl (mkExn "SequelizeValidationError" "Validation isEmail on email failed")
      else
        match findOne (λ u, String.eqb (User.email (row u)) e) m with
        | Some _ => inl (mkExn "SequelizeUniqueConstraintError" "Validation error")
        | None =>
            let r := {| User.email := e; User.firstName := f; User.lastName := l;
                        User.isActive := true; User.isDeleted := false;
                        User.roleId := d_roleId d |} in
            let k := next_id m in
            inr ((k, r), <[k := r]> m)
        end
  | _, _, _ => inl (mkExn "SequelizeValidationError" "notNull Violation")
  end.

(** [user.update({ firstName, lastName })]. *)
Definition User_update_names (u : Z * User.t) (f l : string) (m : gmap Z User.t)
  : (Z * User.t) * gmap Z User.t :=
  let r := {| User.email := User.email (row u); User.firstName := f;
              User.lastName := l; User.isActive := User.isActive (row u);
              User.isDeleted := User.isDeleted (row u);
              User.roleId := User.roleId (row u) |} in
  ((pk u, r), <[pk u := r]> m).

(** *** [UserCredential] *)

Import UserCredential.

(** The [beforeValidate] hook of the model. *)
Definition beforeValidate (c : UserCredential.t) : Exn + unit :=
  if String.eqb (authType c) "password" then
    if negb (truthy_str (passwordHash c)) || truthy_str (openIdProvider c)
    then inl (Error "Password auth type requires password hash and no OpenID provider")
    else inr ()
  else if String.eqb (authType c) "openid" then
    if negb (truthy_str (openIdProvider c)) || truthy_str (passwordHash c)
    then inl (Error "OpenID auth type requires provider and no password hash")
    else inr ()
  else inr ().

(** The attribute validator [isIn: [['password', 'openid']]]. *)
Definition validate_authType (c : UserCredential.t) : Exn + unit :=
  if String.eqb (authType c) "password" || String.eqb (authType c) "openid"
  then inr ()
  else inl (mkExn "SequelizeValidationError" "Validation isIn on authType failed").

(** The two unique indexes of the table: (OpenIDProvider, OpenIDSubject)
    where both are non-null, and (LoginName, AuthType). *)
Definition same_openid (c : UserCredential.t) (kv : Z * UserCredential.t) : bool :=
  match openIdProvider c, openIdSubject c with
  | Some p, Some s =>
      eqb_opt_str (openIdProvider (row kv)) p && eqb_opt_str (openIdSubject (row kv)) s
  | _, _ => false
  end.

Definition same_login (c : UserCredential.t) (kv : Z * UserCredential.t) : bool :=
  String.eqb (loginName (row kv)) (loginName c)
  && String.eqb (authType (row kv)) (authType c).

(** [UserCredential.create(values)]: hook, validation, insert. *)
Definition UserCredential_create (c : UserCredential.t) (m : gmap Z UserCredential.t)
  : Exn + ((Z * UserCredential.t) * gmap Z UserCredential.t) :=
  match beforeValidate c with
  | inl e => inl e
  | inr _ =>
      match validate_authType c with
      | inl e => inl e
      | inr _ =>
          match findOne (same_openid c) m, findOne (same_login c) m with
          | None, None =>
              let k := next_id m in
              inr ((k, c), <[k := c]> m)
          | _, _ => inl (mkExn "SequelizeUniqueConstraintError" "Validation error")
          end
      end
  end.

(** [credential.update(values)], for the updates the handlers make: the
    hook runs on the instance with the new values, then the row is written.
    None of these updates touches an indexed or validated column. *)
Definition UserCredential_update (k : Z) (c' : UserCredential.t)
    (m : gmap Z UserCredential.t) : Exn + gmap Z UserCredential.t :=
  match beforeValidate c' with
  | inl e => inl e
  | inr _ => inr (<[k := c']> m)
  end.

(** ** Transactions *)

Inductive TxEnd := Commit | Rollback.

(** A transaction: its working copy of the store, and how it ended. *)
Record Transaction := {
  work : Store;
  finished : option TxEnd
}.

(** [sequelize.transaction()]. *)
Definition transaction (db : Store) : Transaction :=
  {| work := db; finished := None |}.

Definition tx_put (t : Transaction) (s : Store) : Transaction :=
  {| work := s; finished := finished t |}.

(** [transaction.rollback()]: throws on a finished transaction. *)
Definition rollback (t : Transaction) : Exn + Transaction :=
  match finished t with
  | Some _ => inl (Error "Transaction cannot be rolled back because it has been finished")
  | None => inr {| work := work t; finished := Some Rollback |}
  end.

(** [transaction.commit()]: publishes the working copy. *)
Definition commit (t : Transaction) : Exn + (Transaction * Store) :=
  match finished t with
  | Some _ => inl (Error "Transaction cannot be committed because it has been finished")
  | None => inr ({| work := work t; finished := Some Commit |}, work t)
  end.

(** ** Requests and responses *)

(** A permission instance as the Guard's query loads it
    ([attributes: ['code']], join table excluded). *)
Record PermissionRecord := { code : string }.

(** The role included in the user record: [attributes: ['id', 'name']] and
    its permissions. *)
Record RoleRecord := {
  role_id : Z;
  role_name : string;
  role_permissions : list PermissionRecord
}.

(** The user instance the Guard attaches as [req.userRecord]. *)
Record UserRecord := {
  instance : Z * User.t;
  role : option RoleRecord;
  (** The [userId] property the Guard may add to the instance. *)
  userId_prop : option Z
}.

Record Request := {
  (** [req.headers['authorization'].split(' ')], when the header is there. *)
  authorization : option (list RawToken);
  (** [req.user]: the decoded token. *)
  req_user : option jsobject;
  (** [req.userRecord]. *)
  userRecord : option UserRecord;
  (** [req.permissions]: the permission codes of the user's role. *)
  req_permissions : list string
}.

Definition incoming (h : option (list RawToken)) : Request :=
  {| authorization := h; req_user := None; userRecord := None;
     req_permissions := [] |}.

(** What a middleware does with a request: hand it on, or answer it. *)
Inductive Outcome :=
| Next (req : Request)
| Respond (status : nat) (message : string).

(** An element of a JavaScript array that holds strings or permission
    instances. *)
Inductive element :=
| EStr (s : string)
| EObj (p : PermissionRecord).

(** [SameValueZero(e, s)] for a string [s]: an object is never the same
    value as a string. *)
Definition same_value_zero (e : element) (s : string) : bool :=
  match e with
  | EStr s' => String.eqb s' s
  | EObj _ => false
  end.

(** [arr.includes(s)]. *)
Definition includes (arr : list element) (s : string) : bool :=
  existsb (λ e, same_value_zero e s) arr.

(** [authHeader && authHeader.split(' ')[1]], and whether it is truthy. *)
Definition bearer (req : Request) : option RawToken :=
  match authorization req with
  | Some pieces =>
      match pieces !! 1%nat with
      | Some r => if raw_truthy r then Some r else None
      | None => None
      end
  | None => None
  end.

(** ** [middleware/auth.js] *)

Module Middleware.

(** [authenticateToken]: signature and expiry only. *)
Definition authenticateToken (cfg : Config) (now : Z) (req : Request) : Outcome :=
  match bearer req with
  | None => Respond 401 "Authentication token required"
  | Some token =>
      match jwt_verify token (jwt_secret cfg) now with
      | inl _ => Respond 403 "Invalid or expired token"
      | inr decoded =>
          Next {| authorization := authorization req; req_user := Some decoded;
                  userRecord := userRecord req;
                  req_permissions := req_permissions req |}
      end
  end.

(** The permissions of a role through the join table. *)
Definition role_permissions_of (db : Store) (rid : Z) : list PermissionRecord :=
  omap (λ rp : Z * Z,
          if (rp.1 =? rid)%Z
          then (λ p, {| code := Permission.code p |}) <$> permissions db !! rp.2
          else None)
       (rolePermissions db).

(** The [include] of the Guard's query: the user's role, when it has one,
    with the role's permissions. *)
Definition load_role (db : Store) (u : User.t) : option RoleRecord :=
  match User.roleId u with
  | Some rid =>
      (λ r, {| role_id := rid; role_name := Role.name r;
               role_permissions := role_permissions_of db rid |})
      <$> roles db !! rid
  | None => None
  end.

(** [User.findOne({ where: { id, isActive: true, isDeleted: false },
    include: role with permissions })]. *)
Definition find_live_user `{Platform} (db : Store) (id : jsval)
  : Exn + option UserRecord :=
  match where_int id with
  | inl e => inl e
  | inr None => inr None
  | inr (Some k) =>
      match users db !! k with
      | Some u =>
          if User.isActive u && negb (User.isDeleted u)
          then inr (Some {| instance := (k, u); role := load_role db u;
                            userId_prop := None |})
          else inr None
      | None => inr None
      end
  end.

(** The [catch] of the Guard, by the name of the error. *)
Definition authGuard_catch (err : Exn) : Outcome :=
  if String.eqb (exn_name err) "JsonWebTokenError" then Respond 403 "Invalid token"
  else if String.eqb (exn_name err) "TokenExpiredError" then Respond 403 "Token expired"
  else Respond 500 "Internal server error during authentication".

(** [authGuard].  The 403 sent when [userId] is missing also carries the
    serialized token, which the message here leaves out. *)
Definition authGuard `{Platform} (cfg : Config) (now : Z) (db : Store)
    (req : Request) : Outcome :=
  match bearer req with
  | None => Respond 401 "Authentication token required"
  | Some token =>
      match jwt_verify token (jwt_secret cfg) now with
      | inl err => authGuard_catch err
      | inr decoded =>
          match find_live_user db (get decoded "userId") with
          | inl err => authGuard_catch err
          | inr None => Respond 403 "User not found or inactive"
          | inr (Some user) =>
              let '(req_user', user') :=
                if negb (truthy (get decoded "userId"))
                then (set decoded "userId" (get decoded "id"),
                      {| instance := instance user; role := role user;
                         userId_prop := Some (pk (instance user)) |})
                else (decoded, user) in
              if negb (truthy (get req_user' "userId"))
              then Respond 403 "User.userId not provided. "
              else
                Next {| authorization := authorization req;
                        req_user := Some req_user';
                        userRecord := Some user';
                        req_permissions :=
                          match role user' with
                          | Some r => map code (role_permissions r)
                          | None => []
                          end |}
          end
      end
  end.

(** [requirePermissions(...permissions)]. *)
Definition requirePermissions (required : list string) (req : Request) : Outcome :=
  match userRecord req with
  | None => Respond 401 "Authentication required with full user record"
  | Some ur =>
      match role ur with
      | None => Respond 401 "Authentication required with full user record"
      | Some r =>
          let userPermissions := map EObj (role_permissions r) in
          let hasAllPermissions :=
            forallb (λ permission, includes userPermissions permission) required in
          if negb hasAllPermissions
          then Respond 403 "You do not have the required permissions to access this resource"
          else Next req
      end
  end.

End Middleware.

(** ** Handlers as computations over a database connection *)

(** The connection a handler holds: the committed store, and the working
    copy of the transaction it opened. *)
Record Conn := {
  committed : Store;
  tx : Transaction
}.

(** A computation that may throw and that threads the connection. *)
Definition Run (A : Type) : Type := Conn → (Exn + A) * Conn.

Global Instance Run_ret : MRet Run := λ A x c, (inr x, c).
Global Instance Run_bind : MBind Run := λ A B f m c,
  match m c with
  | (inr x, c') => f x c'
  | (inl e, c') => (inl e, c')
  end.

Definition throw {A} (e : Exn) : Run A := λ c, (inl e, c).

(** [try { m } catch (err) { h err }]. *)
Definition try_catch {A} (m : Run A) (h : Exn → Run A) : Run A := λ c,
  match m c with
  | (inr x, c') => (inr x, c')
  | (inl e, c') => h e c'
  end.

(** A value or an exception computed without the store. *)
Definition lift {A} (r : Exn + A) : Run A := λ c, (r, c).

(** A read with [{ transaction }]: it sees the working copy. *)
Definition tx_read {A} (q : Store → A) : Run A := λ c, (inr (q (work (tx c))), c).

(** A write with [{ transaction }]: it changes the working copy only. *)
Definition tx_write {A} (q : Store → Exn + (A * Store)) : Run A := λ c,
  match q (work (tx c)) with
  | inl e => (inl e, c)
  | inr (x, s) => (inr x, {| committed := committed c; tx := tx_put (tx c) s |})
  end.

(** A read without a transaction: it sees the committed store. *)
Definition db_read {A} (q : Store → A) : Run A := λ c, (inr (q (committed c)), c).

(** A write without a transaction: committed at once. *)
Definition db_write {A} (q : Store → Exn + (A * Store)) : Run A := λ c,
  match q (committed c) with
  | inl e => (inl e, c)
  | inr (x, s) => (inr x, {| committed := s; tx := tx c |})
  end.

Definition tx_rollback : Run unit := λ c,
  match rollback (tx c) with
  | inl e => (inl e, c)
  | inr t => (inr (), {| committed := committed c; tx := t |})
  end.

Definition tx_commit : Run unit := λ c,
  match commit (tx c) with
  | inl e => (inl e, c)
  | inr (t, s) => (inr (), {| committed := s; tx := t |})
  end.

(** Running a handler on the store.  The transaction object is the one the
    handler opens with [sequelize.transaction()]; a handler that opens none
    never touches it. *)
Definition run {A} (m : Run A) (db : Store) : (Exn + A) * Store :=
  let '(r, c) := m {| committed := db; tx := transaction db |} in
  (r, committed c).

(** ** Responses *)

(** The JSON body of a response. *)
Record Body := {
  message : string;
  (** The [token] of an authentication response. *)
  token : option Token;
  (** The user the [user] summary of the body describes. *)
  user : option (Z * User.t);
  (** The [permissions] of the summary. *)
  body_permissions : list element
}.

Record Response := {
  status : nat;
  body : Body
}.

Definition say (msg : string) : Body :=
  {| message := msg; token := None; user := None; body_permissions := [] |}.

(** [res.status(st).json({ message: msg })]. *)
Definition json (st : nat) (msg : string) : Response :=
  {| status := st; body := say msg |}.

(** ** Helpers shared by the service and the router *)

(** [bcrypt.compare(password, hash)]: throws on a null hash. *)
Definition compare_hash `{Platform} (password : string) (hash : option string)
  : Exn + bool :=
  match hash with
  | Some h => inr (bcrypt_compare password h)
  | None => inl (Error "Illegal arguments: string, object")
  end.

Definition live (c : UserCredential.t) : bool :=
  UserCredential.isActive c && negb (UserCredential.isDeleted c).

Definition live_user (u : User.t) : bool :=
  User.isActive u && negb (User.isDeleted u).

(** An integer column against a bound value. *)
Definition col_is (w : option Z) (k : Z) : bool :=
  match w with
  | Some n => (k =? n)%Z
  | None => false
  end.

Definition password_credential_where (w : option Z) (c : Z * UserCredential.t) : bool :=
  col_is w (UserCredential.userId (row c))
  && String.eqb (UserCredential.authType (row c)) "password"
  && live (row c).

(** [credential.update({ passwordHash, passwordSalt, lastPasswordChange,
    passwordExpired: false })]. *)
Definition set_password (c : UserCredential.t) (hash salt : string) (now : Z)
  : UserCredential.t :=
  {| UserCredential.userId := UserCredential.userId c;
     UserCredential.authType := UserCredential.authType c;
     UserCredential.loginName := UserCredential.loginName c;
     UserCredential.passwordHash := Some hash;
     UserCredential.passwordSalt := Some salt;
     UserCredential.lastPasswordChange := Some now;
     UserCredential.passwordExpired := false;
     UserCredential.openIdProvider := UserCredential.openIdProvider c;
     UserCredential.openIdSubject := UserCredential.openIdSubject c;
     UserCredential.isActive := UserCredential.isActive c;
     UserCredential.isDeleted := UserCredential.isDeleted c |}.

Definition update_credential (k : Z) (c' : UserCredential.t) (s : Store)
  : Exn + (unit * Store) :=
  match UserCredential_update k c' (credentials s) with
  | inl e => inl e
  | inr m => inr ((), with_credentials s m)
  end.

(** ** [services/UserService.js] *)

Module UserService.

Record RegisterArgs := {
  email : option string;
  password : option string;
  firstName : option string;
  lastName : option string;
  loginName : option string;
  roleId : option Z
}.

(** [hashPassword(password)] with the salt [bcrypt.genSalt(10)] drew. *)
Definition hashPassword `{Platform} (password : option string) (salt : string)
  : Exn + (string * string) :=
  match password with
  | Some p => inr (bcrypt_hash p salt, salt)
  | None => inl (Error "Illegal arguments: undefined, string")
  end.

Definition num_or_null (o : option Z) : jsval :=
  match o with
  | Some n => JNum n
  | None => JNull
  end.

(** [generateToken(user, credential)] of the service. *)
Definition generateToken (cfg : Config) (now : Z) (user : Z * User.t)
    (credential : Z * UserCredential.t) : Token :=
  jwt_sign [("userId", JNum (pk user));
            ("roleId", num_or_null (User.roleId (row user)));
            ("credentialId", JNum (pk credential))]
           (jwt_secret cfg) (jwt_expiresIn cfg) now.

(** [roleId || 1]. *)
Definition role_or_default (o : option Z) : Z :=
  match o with
  | Some n => if (n =? 0)%Z then 1%Z else n
  | None => 1%Z
  end.

Definition find_user_by_email (e : string) (s : Store) : option (Z * User.t) :=
  findOne (λ u, String.eqb (User.email (row u)) e) (users s).

Definition find_password_login (l : string) (s : Store)
  : option (Z * UserCredential.t) :=
  findOne (λ c, String.eqb (UserCredential.loginName (row c)) l
                && String.eqb (UserCredential.authType (row c)) "password")
          (credentials s).

Definition create_user `{Platform} (d : UserDraft) (s : Store)
  : Exn + ((Z * User.t) * Store) :=
  match User_create d (users s) with
  | inl e => inl e
  | inr (u, m) => inr (u, with_users s m)
  end.

Definition create_credential (c : UserCredential.t) (s : Store)
  : Exn + ((Z * UserCredential.t) * Store) :=
  match UserCredential_create c (credentials s) with
  | inl e => inl e
  | inr (k, m) => inr (k, with_credentials s m)
  end.

(** The [try] block of [registerUser]. *)
Definition registerUser_try `{Platform} (cfg : Config) (now : Z) (salt : string)
    (a : RegisterArgs) : Run Body :=
  e ← lift (where_str (email a));
  found ← tx_read (find_user_by_email e);
  existingUser ←
    match found with
    | Some u => mret u
    | None =>
        tx_write (create_user
          {| d_email := email a; d_firstName := firstName a;
             d_lastName := lastName a;
             d_roleId := Some (role_or_default (roleId a)) |})
    end;
  l ← lift (where_str (loginName a));
  existingCredential ← tx_read (find_password_login l);
  match existingCredential with
  | Some _ => tx_rollback ;; throw (Error "Login name already in use")
  | None =>
      hs ← lift (hashPassword (password a) salt);
      credential ← tx_write (create_credential
        {| UserCredential.userId := pk existingUser;
           UserCredential.authType := "password";
           UserCredential.loginName := l;
           UserCredential.passwordHash := Some hs.1;
           UserCredential.passwordSalt := Some hs.2;
           UserCredential.lastPasswordChange := Some now;
           UserCredential.passwordExpired := false;
           UserCredential.openIdProvider := None;
           UserCredential.openIdSubject := None;
           UserCredential.isActive := true;
           UserCredential.isDeleted := false |});
      tx_commit ;;
      mret {| message := "User registered successfully";
              token := Some (generateToken cfg now existingUser credential);
              user := Some existingUser;
              body_permissions := [] |}
  end.

(** [registerUser]: on any error, roll back and rethrow. *)
Definition registerUser `{Platform} (cfg : Config) (now : Z) (salt : string)
    (a : RegisterArgs) : Run Body :=
  try_catch (registerUser_try cfg now salt a)
            (λ err, tx_rollback ;; throw err).

(** The where clause of [changePassword]: the live password credential of
    that user, whose user (inner join) is live too. *)
Definition changePassword_where (db : Store) (w : option Z)
    (c : Z * UserCredential.t) : bool :=
  password_credential_where w c
  && match users db !! UserCredential.userId (row c) with
     | Some u => live_user u
     | None => false
     end.

(** The [try] block of [changePassword]. *)
Definition changePassword_try `{Platform} (now : Z) (salt : string) (userId : jsval)
    (currentPassword newPassword : option string) : Run Body :=
  w ← lift (where_int userId);
  credential ← tx_read (λ db, findOne (changePassword_where db w) (credentials db));
  match credential with
  | None => tx_rollback ;; throw (Error "User not found or inactive")
  | Some credential =>
      cur ← lift (where_str currentPassword);
      isPasswordValid ←
        lift (compare_hash cur (UserCredential.passwordHash (row credential)));
      if negb isPasswordValid
      then tx_rollback ;; throw (Error "Current password is incorrect")
      else
        hs ← lift (hashPassword newPassword salt);
        tx_write (update_credential (pk credential)
                    (set_password (row credential) hs.1 hs.2 now)) ;;
        tx_commit ;;
        mret (say "Password changed successfully")
  end.

(** [changePassword(userId, currentPassword, newPassword)]: on any error,
    roll back and rethrow. *)
Definition changePassword `{Platform} (now : Z) (salt : string) (userId : jsval)
    (currentPassword newPassword : option string) : Run Body :=
  try_catch (changePassword_try now salt userId currentPassword newPassword)
            (λ err, tx_rollback ;; throw err).

End UserService.

(** ** [apis/auth-api.js] *)

(** [s.includes(needle)] on strings. *)
Fixpoint str_includes (s needle : string) : bool :=
  if String.prefix needle s then true
  else match s with
       | EmptyString => false
       | String _ s' => str_includes s' needle
       end.

Module AuthApi.

(** [models/User.js] declares no [avatarId] attribute (the avatar table
    holds the foreign key), so the property is undefined on every user
    instance. *)
Definition avatarId (user : Z * User.t) : jsval := JUndefined.

(** [generateToken(user, credential)] of the router. *)
Definition generateToken (cfg : Config) (now : Z) (user : Z * User.t)
    (credential : Z * UserCredential.t) : Token :=
  jwt_sign [("userId", JNum (pk user));
            ("email", JStr (User.email (row user)));
            ("loginName", JStr (UserCredential.loginName (row credential)));
            ("authType", JStr (UserCredential.authType (row credential)));
            ("roleId", UserService.num_or_null (User.roleId (row user)));
            ("avatarId", avatarId user)]
           (jwt_secret cfg) (jwt_expiresIn cfg) now.

(** [hashPassword(password)] with the salt [bcrypt.genSalt(10)] drew. *)
Definition hashPassword `{Platform} (password salt : string) : string * string :=
  (bcrypt_hash password salt, salt).

(** [authenticateToken] of the router: the same as the middleware's. *)
Definition authenticateToken := Middleware.authenticateToken.

(** [Role.findByPk(roleId, { include: permissions })]: the permissions of
    the role, or nothing when there is no such role. *)
Definition role_with_permissions (db : Store) (rid : option Z)
  : option (list PermissionRecord) :=
  match rid with
  | Some k =>
      (λ _, Middleware.role_permissions_of db k) <$> roles db !! k
  | None => None
  end.

(** *** POST /login *)

(** The where clause of the login query: the password credential of that
    login name, live, whose user (inner join) is live too. *)
Definition login_where (db : Store) (l : string) (c : Z * UserCredential.t) : bool :=
  String.eqb (UserCredential.loginName (row c)) l
  && String.eqb (UserCredential.authType (row c)) "password"
  && live (row c)
  && match users db !! UserCredential.userId (row c) with
     | Some u => live_user u
     | None => false
     end.

(** The login query: the first matching credential with its user. *)
Definition login_query (db : Store) (l : string)
  : option ((Z * UserCredential.t) * (Z * User.t)) :=
  match findOne (login_where db l) (credentials db) with
  | Some c =>
      (λ u, (c, (UserCredential.userId (row c), u)))
      <$> users db !! UserCredential.userId (row c)
  | None => None
  end.

Definition login_try `{Platform} (cfg : Config) (now : Z) (l p : string)
  : Run Response :=
  found ← db_read (λ db, login_query db l);
  match found with
  | None => mret (json 401 "Invalid login credentials")
  | Some (credential, cuser) =>
      if UserCredential.passwordExpired (row credential)
      then mret (json 401 "Password has expired. Please reset your password.")
      else
        isPasswordValid ← lift (compare_hash p (UserCredential.passwordHash (row credential)));
        if negb isPasswordValid
        then mret (json 401 "Invalid login credentials")
        else
          roleWithPermissions ←
            db_read (λ db, role_with_permissions db (User.roleId (row cuser)));
          let permissions :=
            match roleWithPermissions with
            | Some ps => map (λ p, EStr (code p)) ps
            | None => []
            end in
          mret {| status := 200;
                  body := {| message := "Login successful";
                             token := Some (generateToken cfg now cuser credential);
                             user := Some cuser;
                             body_permissions := permissions |} |}
  end.

Definition post_login `{Platform} (cfg : Config) (now : Z)
    (loginName password : option string) : Run Response :=
  match loginName, password with
  | Some l, Some p =>
      if negb (truthy_str loginName) || negb (truthy_str password)
      then mret (json 400 "Login name and password are required")
      else try_catch (login_try cfg now l p)
                     (λ err, mret (json 500 "Login failed"))
  | _, _ => mret (json 400 "Login name and password are required")
  end.

(** *** POST /register *)

Definition post_register `{Platform} (cfg : Config) (now : Z) (salt : string)
    (a : UserService.RegisterArgs) : Run Response :=
  if negb (truthy_str (UserService.email a))
     || negb (truthy_str (UserService.password a))
     || negb (truthy_str (UserService.firstName a))
     || negb (truthy_str (UserService.lastName a))
     || negb (truthy_str (UserService.loginName a))
  then mret (json 400 "Email, password, first name, last name, and login name are required")
  else
    try_catch
      (result ← UserService.registerUser cfg now salt a;
       mret {| status := 201; body := result |})
      (λ err,
         let statusCode :=
           if str_includes (exn_message err) "already in use" then 409 else 500 in
         mret (json statusCode
                    (if String.eqb (exn_message err) ""
                     then "Registration failed" else exn_message err))).

(** *** POST /openid *)

Record OpenIdArgs := {
  provider : option string;
  subject : option string;
  email : option string;
  firstName : option string;
  lastName : option string;
  loginName : option string
}.

Definition openid_where (p s : string) (c : Z * UserCredential.t) : bool :=
  eqb_opt_str (UserCredential.openIdProvider (row c)) p
  && eqb_opt_str (UserCredential.openIdSubject (row c)) s
  && live (row c).

Definition update_names (u : Z * User.t) (f l : string) (s : Store)
  : Exn + ((Z * User.t) * Store) :=
  let '(u', m) := User_update_names u f l (users s) in
  inr (u', with_users s m).

Definition null_deref {A} : Run A :=
  throw (mkExn "TypeError" "Cannot read properties of null").

(** The credential of the (provider, subject) pair and its user: found,
    or created. *)
Definition openid_find_or_create `{Platform} (p s e l : string) (a : OpenIdArgs)
  : Run (option (Z * User.t) * (Z * UserCredential.t)) :=
  credential ← tx_read (λ db, findOne (openid_where p s) (credentials db));
  match credential with
  | Some credential =>
      user ← tx_read (λ db, findByPk (UserCredential.userId (row credential)) (users db));
      if truthy_str (firstName a) || truthy_str (lastName a)
      then
        match user with
        | None => null_deref
        | Some user =>
            user' ← tx_write (update_names user
                       (or_str (firstName a) (User.firstName (row user)))
                       (or_str (lastName a) (User.lastName (row user))));
            mret (Some user', credential)
        end
      else mret (user, credential)
  | None =>
      found ← tx_read (UserService.find_user_by_email e);
      user ←
        match found with
        | Some u => mret u
        | None =>
            tx_write (UserService.create_user
              {| d_email := Some e;
                 d_firstName := Some (or_str (firstName a) "");
                 d_lastName := Some (or_str (lastName a) "");
                 d_roleId := Some 1%Z |})
        end;
      credential ← tx_write (UserService.create_credential
        {| UserCredential.userId := pk user;
           UserCredential.authType := "openid";
           UserCredential.loginName := l;
           UserCredential.passwordHash := None;
           UserCredential.passwordSalt := None;
           UserCredential.lastPasswordChange := None;
           UserCredential.passwordExpired := false;
           UserCredential.openIdProvider := Some p;
           UserCredential.openIdSubject := Some s;
           UserCredential.isActive := true;
           UserCredential.isDeleted := false |});
      mret (Some user, credential)
  end.

(** The [try] block of the handler.  Besides the response it returns the
    credential the request was authenticated with. *)
Definition openid_try `{Platform} (cfg : Config) (now : Z) (p s e l : string)
    (a : OpenIdArgs) : Run (Response * (Z * UserCredential.t)) :=
  uc ← openid_find_or_create p s e l a;
  tx_commit ;;
  match uc.1 with
  | None => null_deref
  | Some user =>
      roleWithPermissions ←
        db_read (λ db, role_with_permissions db (User.roleId (row user)));
      let permissions :=
        match roleWithPermissions with
        | Some ps => map EObj ps
        | None => []
        end in
      mret ({| status := 200;
               body := {| message := "OpenID authentication successful";
                          token := Some (generateToken cfg now user uc.2);
                          user := Some user;
                          body_permissions := permissions |} |},
            uc.2)
  end.

(** The handler: the response, and the credential used when there is one.
    An exception that leaves it is an unhandled rejection. *)
Definition post_openid `{Platform} (cfg : Config) (now : Z) (a : OpenIdArgs)
  : Run (Response * option (Z * UserCredential.t)) :=
  match provider a, subject a, email a, loginName a with
  | Some p, Some s, Some e, Some l =>
      if negb (truthy_str (provider a)) || negb (truthy_str (subject a))
         || negb (truthy_str (email a)) || negb (truthy_str (loginName a))
      then mret (json 400 "Provider, subject, email, and login name are required", None)
      else
        try_catch
          (rc ← openid_try cfg now p s e l a; mret (rc.1, Some rc.2))
          (λ err, tx_rollback ;; mret (json 500 "Authentication failed", None))
  | _, _, _, _ =>
      mret (json 400 "Provider, subject, email, and login name are required", None)
  end.

(** *** POST /change-password *)

Definition change_password_try `{Platform} (now : Z) (salt : string)
    (userId : jsval) (currentPassword newPassword : string) : Run Response :=
  w ← lift (where_int userId);
  credential ← db_read (λ db, findOne (password_credential_where w) (credentials db));
  match credential with
  | None => mret (json 400 "No password credential found for this user")
  | Some credential =>
      isPasswordValid ←
        lift (compare_hash currentPassword (UserCredential.passwordHash (row credential)));
      if negb isPasswordValid
      then mret (json 400 "Current password is incorrect")
      else
        let hs := hashPassword newPassword salt in
        db_write (update_credential (pk credential)
                    (set_password (row credential) hs.1 hs.2 now)) ;;
        mret (json 200 "Password changed successfully")
  end.

Definition decoded_userId (req : Request) : jsval :=
  match req_user req with
  | Some u => get u "userId"
  | None => JUndefined
  end.

Definition post_change_password `{Platform} (cfg : Config) (now : Z) (salt : string)
    (req : Request) (currentPassword newPassword : option string) : Run Response :=
  match authenticateToken cfg now req with
  | Respond st msg => mret (json st msg)
  | Next req =>
      let userId := decoded_userId req in
      match currentPassword, newPassword with
      | Some cur, Some new =>
          if negb (truthy_str currentPassword) || negb (truthy_str newPassword)
          then mret (json 400 "Current password and new password are required")
          else if (js_length new <? 8)%nat
          then mret (json 400 "Password must be at least 8 characters long")
          else try_catch (change_password_try now salt userId cur new)
                         (λ err, mret (json 500 "Password change failed"))
      | _, _ => mret (json 400 "Current password and new password are required")
      end
  end.

(** *** POST /reset-password-request *)

Definition generic_reset_message : string :=
  "If an account with that email exists, a password reset link has been sent.".

(** The handler: the response, and the reset token handed to the mailer
    when one was signed.  [mail_ok] tells whether the mailer succeeds. *)
Definition post_reset_password_request (cfg : Config) (now : Z) (mail_ok : bool)
    (email : option string) : Run (Response * option Token) :=
  match email with
  | Some e =>
      if negb (truthy_str email)
      then mret (json 400 "Email is required", None)
      else
        user ← db_read (UserService.find_user_by_email e);
        match user with
        | None => mret (json 200 generic_reset_message, None)
        | Some user =>
            let resetToken :=
              jwt_sign [("userId", JNum (pk user));
                        ("email", JStr (User.email (row user)))]
                       (jwt_secret cfg) 3600 now in
            if mail_ok
            then mret (json 200 generic_reset_message, Some resetToken)
            else mret (json 500 "Failed to send password reset email", Some resetToken)
        end
  | None => mret (json 400 "Email is required", None)
  end.

(** *** POST /reset-password-confirm *)

Definition reset_confirm_try `{Platform} (cfg : Config) (now : Z) (salt : string)
    (resetToken : RawToken) (newPassword : string) : Run Response :=
  decoded ← lift (jwt_verify resetToken (jwt_secret cfg) now);
  w ← lift (where_int (get decoded "userId"));
  credential ← db_read (λ db, findOne (password_credential_where w) (credentials db));
  match credential with
  | None => mret (json 404 "Invalid reset token")
  | Some credential =>
      let hs := hashPassword newPassword salt in
      db_write (update_credential (pk credential)
                  (set_password (row credential) hs.1 hs.2 now)) ;;
      mret (json 200 "Password reset successful")
  end.

Definition post_reset_password_confirm `{Platform} (cfg : Config) (now : Z)
    (salt : string) (resetToken : option RawToken) (newPassword : option string)
  : Run Response :=
  match resetToken, newPassword with
  | Some tok, Some new =>
      if negb (raw_truthy tok) || negb (truthy_str newPassword)
      then mret (json 400 "Reset token and new password are required")
      else if (js_length new <? 8)%nat
      then mret (json 400 "Password must be at least 8 characters long")
      else
        try_catch (reset_confirm_try cfg now salt tok new)
          (λ err,
             if String.eqb (exn_name err) "JsonWebTokenError"
                || String.eqb (exn_name err) "TokenExpiredError"
             then mret (json 401 "Invalid or expired reset token")
             else mret (json 500 "Password reset failed"))
  | _, _ => mret (json 400 "Reset token and new password are required")
  end.

(** *** DELETE /credentials/:id *)

(** The where clause of the lookup: that id, owned by the token's user,
    live. *)
Definition own_credential_where (wid wuser : option Z) (c : Z * UserCredential.t)
  : bool :=
  col_is wid (pk c)
  && col_is wuser (UserCredential.userId (row c))
  && live (row c).

Definition live_credentials_of (wuser : option Z) (c : Z * UserCredential.t) : bool :=
  col_is wuser (UserCredential.userId (row c)) && live (row c).

(** [credential.update({ isActive: false, isDeleted: true })]. *)
Definition soft_deleted (c : UserCredential.t) : UserCredential.t :=
  {| UserCredential.userId := UserCredential.userId c;
     UserCredential.authType := UserCredential.authType c;
     UserCredential.loginName := UserCredential.loginName c;
     UserCredential.passwordHash := UserCredential.passwordHash c;
     UserCredential.passwordSalt := UserCredential.passwordSalt c;
     UserCredential.lastPasswordChange := UserCredential.lastPasswordChange c;
     UserCredential.passwordExpired := UserCredential.passwordExpired c;
     UserCredential.openIdProvider := UserCredential.openIdProvider c;
     UserCredential.openIdSubject := UserCredential.openIdSubject c;
     UserCredential.isActive := false;
     UserCredential.isDeleted := true |}.

Definition delete_credential_try `{Platform} (credentialId : string) (userId : jsval)
  : Run Response :=
  wid ← lift (where_int (JStr credentialId));
  wuser ← lift (where_int userId);
  credential ← db_read (λ db, findOne (own_credential_where wid wuser) (credentials db));
  match credential with
  | None => mret (json 404 "Credential not found")
  | Some credential =>
      credentialCount ← db_read (λ db, count (live_credentials_of wuser) (credentials db));
      if (credentialCount <=? 1)%nat
      then mret (json 400 "Cannot delete the only credential for this user")
      else
        db_write (update_credential (pk credential) (soft_deleted (row credential))) ;;
        mret (json 200 "Credential deleted successfully")
  end.

Definition delete_credential `{Platform} (cfg : Config) (now : Z) (req : Request)
    (credentialId : string) : Run Response :=
  match authenticateToken cfg now req with
  | Respond st msg => mret (json st msg)
  | Next req =>
      try_catch (delete_credential_try credentialId (decoded_userId req))
                (λ err, mret (json 500 "Failed to delete credential"))
  end.

End AuthApi.

(** ** What the Guard does with a well-signed token that names a user *)

(** The request the Guard hands on for the user [u] of key [uid]. *)
Definition guarded (db : Store) (h : list RawToken) (decoded : jsobject)
    (uid : Z) (u : User.t) : Request :=
  {| authorization := Some h;
     req_user := Some decoded;
     userRecord := Some {| instance := (uid, u);
                           role := Middleware.load_role db u;
                           userId_prop := None |};
     req_permissions :=
       match Middleware.load_role db u with
       | Some r => map code (role_permissions r)
       | None => []
       end |}.

(** The outcome for a decoded token whose [userId] is the number [uid]:
    the user must be there, active and not deleted, and [uid] must not be
    zero. *)
Definition guard_outcome (db : Store) (h : list RawToken) (decoded : jsobject)
    (uid : Z) : Outcome :=
  match users db !! uid with
  | Some u =>
      if live_user u
      then if (uid =? 0)%Z
           then Respond 403 "User.userId not provided. "
           else Next (guarded db h decoded uid u)
      else Respond 403 "User not found or inactive"
  | None => Respond 403 "User not found or inactive"
  end.


(** ** Outcomes of registration *)

(** The credential [registerUser] writes for the user [uid]. *)
Definition registered_credential `{Platform} (now : Z) (salt : string) (uid : Z)
    (l p : string) : UserCredential.t :=
  {| UserCredential.userId := uid;
     UserCredential.authType := "password";
     UserCredential.loginName := l;
     UserCredential.passwordHash := Some (bcrypt_hash p salt);
     UserCredential.passwordSalt := Some salt;
     UserCredential.lastPasswordChange := Some now;
     UserCredential.passwordExpired := false;
     UserCredential.openIdProvider := None;
     UserCredential.openIdSubject := None;
     UserCredential.isActive := true;
     UserCredential.isDeleted := false |}.

(** All or nothing: an error leaves the store as it was; a result comes
    with a user that is in the store (the one with that email, or a new
    one) and a new password credential of that user, both committed. *)
Definition register_outcome `{Platform} (cfg : Config) (now : Z) (salt : string)
    (a : UserService.RegisterArgs) (db : Store) (r : Exn + Body) (db' : Store) : Prop :=
  match r with
  | inl _ => db' = db
  | inr b =>
      ∃ user cred us l p,
        UserService.loginName a = Some l ∧ UserService.password a = Some p
        ∧ (us = users db
           ∨ users db !! pk user = None ∧ us = <[pk user := row user]> (users db))
        ∧ us !! pk user = Some (row user)
        ∧ credentials db !! pk cred = None
        ∧ row cred = registered_credential now salt (pk user) l p
        ∧ beforeValidate (row cred) = inr ()
        ∧ db' = with_credentials (with_users db us)
                  (<[pk cred := row cred]> (credentials db))
        ∧ b = {| message := "User registered successfully";
                 token := Some (UserService.generateToken cfg now user cred);
                 user := Some user; body_permissions := [] |}
  end.

(** The same for the route: every answer but 201 leaves the store as it
    was. *)
Definition register_route_outcome `{Platform} (cfg : Config) (now : Z) (salt : string)
    (a : UserService.RegisterArgs) (db : Store) (r : Exn + Response) (db' : Store)
  : Prop :=
  match r with
  | inl _ => False
  | inr resp =>
      if (status resp =? 201)%nat
      then register_outcome cfg now salt a db (inr (body resp)) db'
      else db' = db
  end.

(** ** Outcomes of the OpenID route *)

(** The credential the OpenID route writes for the user [uid]. *)
Definition openid_credential (uid : Z) (l p s : string) : UserCredential.t :=
  {| UserCredential.userId := uid;
     UserCredential.authType := "openid";
     UserCredential.loginName := l;
     UserCredential.passwordHash := None;
     UserCredential.passwordSalt := None;
     UserCredential.lastPasswordChange := None;
     UserCredential.passwordExpired := false;
     UserCredential.openIdProvider := Some p;
     UserCredential.openIdSubject := Some s;
     UserCredential.isActive := true;
     UserCredential.isDeleted := false |}.

(** What a successful call leaves: the credential of the pair, found as it
    was or newly inserted, and its user, both in the store. *)
Definition openid_success `{Platform} (cfg : Config) (now : Z) (a : AuthApi.OpenIdArgs)
    (db : Store) (resp : Response) (cred : Z * UserCredential.t) (db' : Store) : Prop :=
  ∃ p s l usr,
    AuthApi.provider a = Some p ∧ AuthApi.subject a = Some s
    ∧ AuthApi.loginName a = Some l
    ∧ truthy_str (Some p) = true ∧ truthy_str (Some s) = true
    ∧ status resp = 200
    ∧ token (body resp) = Some (AuthApi.generateToken cfg now usr cred)
    ∧ user (body resp) = Some usr
    ∧ users db' !! pk usr = Some (row usr)
    ∧ UserCredential.userId (row cred) = pk usr
    ∧ AuthApi.openid_where p s cred = true
    ∧ (findOne (AuthApi.openid_where p s) (credentials db) = Some cred
       ∧ credentials db' = credentials db
       ∨ findOne (AuthApi.openid_where p s) (credentials db) = None
         ∧ credentials db !! pk cred = None
         ∧ row cred = openid_credential (pk usr) l p s
         ∧ beforeValidate (row cred) = inr ()
         ∧ credentials db' = <[pk cred := row cred]> (credentials db)).

Definition openid_outcome `{Platform} (cfg : Config) (now : Z) (a : AuthApi.OpenIdArgs)
    (db : Store) (r : Exn + (Response * option (Z * UserCredential.t))) (db' : Store)
  : Prop :=
  match r with
  | inl _ => db' = db
  | inr (resp, None) => db' = db ∧ token (body resp) = None
  | inr (resp, Some cred) => openid_success cfg now a db resp cred db'
  end.

(** ** The three ways to a session token *)

Inductive AuthFlow :=
| ViaLogin (loginName password : option string)
| ViaRegister (salt : string) (a : UserService.RegisterArgs)
| ViaOpenId (a : AuthApi.OpenIdArgs).

Definition authenticate `{Platform} (cfg : Config) (now : Z) (f : AuthFlow)
  : Run Response :=
  match f with
  | ViaLogin l p => AuthApi.post_login cfg now l p
  | ViaRegister salt a => AuthApi.post_register cfg now salt a
  | ViaOpenId a => rc ← AuthApi.post_openid cfg now a; mret rc.1
  end.

(** The claims of the router's [generateToken]: five of them from the user
    and the credential, and no claim outside the six names. *)
Definition session_claims (u : Z * User.t) (c : Z * UserCredential.t)
    (p : jsobject) : Prop :=
  get p "userId" = JNum (pk u)
  ∧ get p "email" = JStr (User.email (row u))
  ∧ get p "loginName" = JStr (UserCredential.loginName (row c))
  ∧ get p "authType" = JStr (UserCredential.authType (row c))
  ∧ get p "roleId" = UserService.num_or_null (User.roleId (row u))
  ∧ keys p ⊆ ["userId"; "email"; "loginName"; "authType"; "roleId"; "avatarId"].

(** The claims of the service's [generateToken]. *)
Definition register_claims (u : Z * User.t) (c : Z * UserCredential.t)
    (p : jsobject) : Prop :=
  p = [("userId", JNum (pk u));
       ("roleId", UserService.num_or_null (User.roleId (row u)));
       ("credentialId", JNum (pk c))].

(** ** A concrete platform and store for the examples *)

Module Demo.

Definition digit (a : Ascii.ascii) : option Z :=
  let n := Z.of_nat (Ascii.nat_of_ascii a) in
  if ((48 <=? n) && (n <=? 57))%Z then Some (n - 48)%Z else None.

Fixpoint digits (s : string) (acc : Z) : option Z :=
  match s with
  | EmptyString => Some acc
  | String a s' =>
      match digit a with
      | Some d => digits s' (10 * acc + d)%Z
      | None => None
      end
  end.

(** A stand-in for the primitives: the hash of [p] is ["h:" ++ p]
    whatever the salt, an address has an [@], an integer is a row of
    decimal digits. *)
Definition platform : Platform := {|
  bcrypt_hash p salt := "h:" +:+ p;
  bcrypt_compare p h := String.eqb h ("h:" +:+ p);
  isEmail s := str_includes s "@";
  pg_int4in s := match s with EmptyString => None | _ => digits s 0 end
|}.

#[local] Existing Instance platform.

Definition cfg : Config := {| jwt_secret := "test-secret-key"; jwt_expiresIn := 3600 |}.

Definition empty : Store :=
  {| users := ∅; credentials := ∅; roles := ∅; permissions := ∅;
     rolePermissions := [] |}.

(** Role 2 ("Auditor") holds the permission [LIST_PROFILES]. *)
Definition seeded : Store :=
  {| users := ∅; credentials := ∅;
     roles := {[ 1%Z := {| Role.name := "Admin" |};
                 2%Z := {| Role.name := "Auditor" |} ]};
     permissions := {[ 7%Z := {| Permission.code := "LIST_PROFILES";
                                 Permission.featureId := 1;
                                 Permission.permissionActionId := None |} ]};
     rolePermissions := [(2%Z, 7%Z)] |}.

Definition alice : UserService.RegisterArgs :=
  {| UserService.email := Some "a@x.com";
     UserService.password := Some "pw12345678";
     UserService.firstName := Some "A";
     UserService.lastName := Some "B";
     UserService.loginName := Some "a";
     UserService.roleId := Some 2%Z |}.

(** The store after Alice registered at time 100. *)
Definition registered : Store :=
  (run (AuthApi.post_register cfg 100 "salt" alice) seeded).2.

Definition bearer_of (t : Token) : Request :=
  incoming (Some [Garbage "Bearer"; Jwt t]).

(** The token Alice gets when she logs in at time 200. *)
Definition alice_session : option Token :=
  match (run (AuthApi.post_login cfg 200 (Some "a") (Some "pw12345678"))
             registered).1 with
  | inr resp => token (body resp)
  | inl _ => None
  end.

(** The reset token mailed to Alice when she asks for one at time 300. *)
Definition alice_reset : option Token :=
  match (run (AuthApi.post_reset_password_request cfg 300 true (Some "a@x.com"))
             registered).1 with
  | inr (_, sent) => sent
  | inl _ => None
  end.

Definition bob : AuthApi.OpenIdArgs :=
  {| AuthApi.provider := Some "google";
     AuthApi.subject := Some "sub-1";
     AuthApi.email := Some "b@x.com";
     AuthApi.firstName := Some "Bob";
     AuthApi.lastName := None;
     AuthApi.loginName := Some "bob" |}.

(** Bob's first OpenID call, at time 500, on the seeded store. *)
Definition bob_response : Response :=
  match (run (AuthApi.post_openid cfg 500 bob) seeded).1 with
  | inr (resp, _) => resp
  | inl _ => json 0 ""
  end.

Definition bob_credential : Z * UserCredential.t :=
  (1%Z, openid_credential 1 "bob" "google" "sub-1").

Definition after_bob : Store :=
  (run (AuthApi.post_openid cfg 500 bob) seeded).2.

Definition alice_user : User.t :=
  {| User.email := "a@x.com"; User.firstName := "A"; User.lastName := "B";
     User.isActive := true; User.isDeleted := false; User.roleId := Some 2%Z |}.

Definition alice_credential : UserCredential.t :=
  registered_credential 100 "salt" 1 "a" "pw12345678".

(** The answer to Alice's registration. *)
Definition alice_registration : Response :=
  match (run (AuthApi.post_register cfg 100 "salt" alice) seeded).1 with
  | inr resp => resp
  | inl _ => json 0 ""
  end.

Definition alice_register_token : Token :=
  {| payload := [("userId", JNum 1); ("roleId", JNum 2); ("credentialId", JNum 1)];
     signed_with := "test-secret-key"; iat := 100; exp := 3700 |}.

(** The answer to Alice's login at time 200. *)
Definition alice_login : Response :=
  match (run (AuthApi.post_login cfg 200 (Some "a") (Some "pw12345678"))
             registered).1 with
  | inr resp => resp
  | inl _ => json 0 ""
  end.

Definition alice_session_token : Token :=
  {| payload := [("userId", JNum 1); ("email", JStr "a@x.com");
                 ("loginName", JStr "a"); ("authType", JStr "password");
                 ("roleId", JNum 2)];
     signed_with := "test-secret-key"; iat := 200; exp := 3800 |}.

Definition alice_reset_token : Token :=
  {| payload := [("userId", JNum 1); ("email", JStr "a@x.com")];
     signed_with := "test-secret-key"; iat := 300; exp := 3900 |}.

(** Alice links an OpenID identity at time 500: her second credential. *)
Definition alice_openid : AuthApi.OpenIdArgs :=
  {| AuthApi.provider := Some "google";
     AuthApi.subject := Some "sub-a";
     AuthApi.email := Some "a@x.com";
     AuthApi.firstName := None;
     AuthApi.lastName := None;
     AuthApi.loginName := Some "alice-g" |}.

Definition linked : Store :=
  (run (AuthApi.post_openid cfg 500 alice_openid) registered).2.

Definition alice_openid_credential : UserCredential.t :=
  openid_credential 1 "alice-g" "google" "sub-a".

(** Bob joins through OpenID at time 600: user 2, credential 3. *)
Definition crowded : Store :=
  (run (AuthApi.post_openid cfg 600 bob) linked).2.

Definition bob_credential_row : UserCredential.t :=
  openid_credential 2 "bob" "google" "sub-1".

(** Alice, deactivated after her token was issued. *)
Definition alice_deactivated : gmap Z User.t :=
  {[ 1%Z := {| User.email := "a@x.com"; User.firstName := "A";
               User.lastName := "B"; User.isActive := false;
               User.isDeleted := true; User.roleId := Some 2%Z |} ]}.

(** Carol asks for Alice's login name, at time 900. *)
Definition carol : UserService.RegisterArgs :=
  {| UserService.email := Some "c@x.com";
     UserService.password := Some "carolcarol";
     UserService.firstName := Some "C";
     UserService.lastName := Some "D";
     UserService.loginName := Some "a";
     UserService.roleId := None |}.

End Demo.

(** ** Constraints of the credentials table *)

(** The unique index on (LoginName, AuthType). *)
Definition unique_login (m : gmap Z UserCredential.t) : Prop :=
  ∀ k1 c1 k2 c2,
    m !! k1 = Some c1 → m !! k2 = Some c2 →
    UserCredential.loginName c1 = UserCredential.loginName c2 →
    UserCredential.authType c1 = UserCredential.authType c2 →
    k1 = k2.

(** The answer to a login that found the credential [(k, c)] of the user
    [u], whose stored hash is [h]. *)
Definition login_answer `{Platform} (cfg : Config) (now : Z) (db : Store)
    (k : Z) (c : UserCredential.t) (u : User.t) (h p : string) : Response :=
  if UserCredential.passwordExpired c
  then json 401 "Password has expired. Please reset your password."
  else if bcrypt_compare p h
  then
    let cuser := (UserCredential.userId c, u) in
    {| status := 200;
       body := {| message := "Login successful";
                  token := Some (AuthApi.generateToken cfg now cuser (k, c));
                  user := Some cuser;
                  body_permissions :=
                    match AuthApi.role_with_permissions db (User.roleId u) with
                    | Some ps => map (λ p, EStr (code p)) ps
                    | None => []
                    end |} |}
  else json 401 "Invalid login credentials".

(** ** The credential invariant and the calls that may change the store *)

(** Mutual exclusivity of the two kinds of credential. *)
Definition mutual_exclusive (c : UserCredential.t) : Prop :=
  (UserCredential.authType c = "password" →
     truthy_str (UserCredential.passwordHash c) = true
     ∧ UserCredential.openIdProvider c = None)
  ∧ (UserCredential.authType c = "openid" →
       truthy_str (UserCredential.openIdProvider c) = true
       ∧ truthy_str (UserCredential.openIdSubject c) = true
       ∧ UserCredential.passwordHash c = None).

Definition store_ok (db : Store) : Prop :=
  map_Forall (λ _ c, mutual_exclusive c) (credentials db).

(** Every entry point of the subsystem, with its inputs.  [CallRegisterUser]
    and [CallChangePasswordService] are the service called directly. *)
Inductive Call :=
| CallLogin (now : Z) (loginName password : option string)
| CallRegister (now : Z) (salt : string) (a : UserService.RegisterArgs)
| CallRegisterUser (now : Z) (salt : string) (a : UserService.RegisterArgs)
| CallOpenId (now : Z) (a : AuthApi.OpenIdArgs)
| CallChangePasswordService (now : Z) (salt : string) (userId : jsval)
    (currentPassword newPassword : option string)
| CallChangePassword (now : Z) (salt : string) (req : Request)
    (currentPassword newPassword : option string)
| CallResetRequest (now : Z) (mail_ok : bool) (email : option string)
| CallResetConfirm (now : Z) (salt : string) (resetToken : option RawToken)
    (newPassword : option string)
| CallDeleteCredential (now : Z) (req : Request) (credentialId : string).

(** The store a call leaves. *)
Definition exec `{Platform} (cfg : Config) (db : Store) (c : Call) : Store :=
  match c with
  | CallLogin now l p => (run (AuthApi.post_login cfg now l p) db).2
  | CallRegister now salt a => (run (AuthApi.post_register cfg now salt a) db).2
  | CallRegisterUser now salt a => (run (UserService.registerUser cfg now salt a) db).2
  | CallOpenId now a => (run (AuthApi.post_openid cfg now a) db).2
  | CallChangePasswordService now salt userId cur new =>
      (run (UserService.changePassword now salt userId cur new) db).2
  | CallChangePassword now salt req cur new =>
      (run (AuthApi.post_change_password cfg now salt req cur new) db).2
  | CallResetRequest now mail_ok email =>
      (run (AuthApi.post_reset_password_request cfg now mail_ok email) db).2
  | CallResetConfirm now salt tok new =>
      (run (AuthApi.post_reset_password_confirm cfg now salt tok new) db).2
  | CallDeleteCredential now req id =>
      (run (AuthApi.delete_credential cfg now req id) db).2
  end.

(** The user a request is authenticated as on the routes behind
    [authenticateToken]: the [userId] of its verified token, as the where
    clauses bind it. *)
Definition authenticated_as `{Platform} (cfg : Config) (now : Z) (req : Request)
  : option Z :=
  match AuthApi.authenticateToken cfg now req with
  | Next req' =>
      match where_int (AuthApi.decoded_userId req') with
      | inr w => w
      | inl _ => None
      end
  | Respond _ _ => None
  end.

(** A write of one credential row: the store with the row at [k] replaced
    by [c']. *)
Definition rewritten (db : Store) (k : Z) (c' : UserCredential.t) : Store :=
  with_credentials db (<[k := c']> (credentials db)).

(** A password change leaves the store as it was, or rewrites the hash of
    one password credential, the rewritten row having passed the hook. *)
Definition password_rewrite (db db' : Store) : Prop :=
  db' = db
  ∨ ∃ k c h s t,
      credentials db !! k = Some c
      ∧ UserCredential.authType c = "password"
      ∧ beforeValidate (set_password c h s t) = inr ()
      ∧ db' = rewritten db k (set_password c h s t).

(** ** The other gates of [middleware/auth.js] *)

Module Gates.

(** [roles.includes(userRole)] for a list of role ids: only a number is the
    same value as a number. *)
Definition includes_role (roles : list Z) (userRole : jsval) : bool :=
  match userRole with
  | JNum n => existsb (Z.eqb n) roles
  | _ => false
  end.

(** [authorizeRoles(...roles)]. *)
Definition authorizeRoles (roles : list Z) (req : Request) : Outcome :=
  match req_user req with
  | None => Respond 401 "Authentication required"
  | Some u =>
      let userRole := get u "roleId" in
      if negb (includes_role roles userRole)
      then Respond 403 "Insufficient permissions to access this resource"
      else Next req
  end.

(** [a === b]. *)
Definition strict_eq (a b : jsval) : bool :=
  match a, b with
  | JUndefined, JUndefined => true
  | JNull, JNull => true
  | JNum m, JNum n => (m =? n)%Z
  | JStr s, JStr t => String.eqb s t
  | _, _ => false
  end.

(** [ownerGuard(getResourceOwnerId)]; the resolver reads the request and
    may throw. *)
Definition ownerGuard (getResourceOwnerId : Request → Exn + jsval) (req : Request)
  : Outcome :=
  match req_user req with
  | None => Respond 401 "Authentication required"
  | Some u =>
      match getResourceOwnerId req with
      | inl _ => Respond 500 "Error determining resource ownership"
      | inr ownerId =>
          if strict_eq (get u "userId") ownerId || strict_eq (get u "roleId") (JNum 1)
          then Next req
          else Respond 403 "You do not have permission to access this resource"
      end
  end.

(** The resolver of the profile routes ([apis/profile-api.js],
    [GET] and [PUT /:email]): the id of the user with that address that is
    not deleted, or [null].  [email] is the route parameter after
    [decodeURIComponent(req.params.email.toLowerCase())]. *)
Definition profile_owner (db : Store) (email : string) (req : Request) : Exn + jsval :=
  match findOne (λ u, String.eqb (User.email (row u)) email
                      && negb (User.isDeleted (row u))) (users db) with
  | Some user => inr (JNum (pk user))
  | None => inr JNull
  end.

End Gates.

(** ** The read routes of [apis/auth-api.js] *)

Module AuthApiReads.

(** [User.findByPk(id)] on a JavaScript value: [undefined] and [null] give
    [null] without a query. *)
Definition find_user_by_pk `{Platform} (db : Store) (id : jsval)
  : Exn + option (Z * User.t) :=
  match id with
  | JUndefined | JNull => inr None
  | _ =>
      match where_int id with
      | inl e => inl e
      | inr None => inr None
      | inr (Some k) => inr (findByPk k (users db))
      end
  end.

(** GET /me: the user the token names, with no check of its flags.  The
    body is the user itself. *)
Definition get_me `{Platform} (cfg : Config) (now : Z) (req : Request) : Run Response :=
  match AuthApi.authenticateToken cfg now req with
  | Respond st msg => mret (json st msg)
  | Next req =>
      try_catch
        (user ← (λ c, (find_user_by_pk (committed c) (AuthApi.decoded_userId req), c));
         match user with
         | None => mret (json 404 "User not found")
         | Some u =>
             mret {| status := 200;
                     body := {| message := ""; token := None; user := Some u;
                                body_permissions := [] |} |}
         end)
        (λ err, mret (json 500 "Failed to get user information"))
  end.

(** A credential as GET /credentials shows it: the selected attributes
    ([createdAt] left out, as in the row). *)
Record CredentialView := {
  v_id : Z;
  v_authType : string;
  v_loginName : string;
  v_openIdProvider : option string;
  v_lastPasswordChange : option Z;
  v_passwordExpired : bool
}.

Definition view (c : Z * UserCredential.t) : CredentialView :=
  {| v_id := pk c;
     v_authType := UserCredential.authType (row c);
     v_loginName := UserCredential.loginName (row c);
     v_openIdProvider := UserCredential.openIdProvider (row c);
     v_lastPasswordChange := UserCredential.lastPasswordChange (row c);
     v_passwordExpired := UserCredential.passwordExpired (row c) |}.

(** [Model.findAll({ where })]. *)
Definition findAll {R} (P : Z * R → bool) (m : gmap Z R) : list (Z * R) :=
  List.filter P (map_to_list m).

(** The answer of GET /credentials: an error response, or the list. *)
Inductive CredentialsAnswer :=
| Failed (r : Response)
| Listed (l : list CredentialView).

(** GET /credentials: the live credentials of the token's user. *)
Definition get_credentials `{Platform} (cfg : Config) (now : Z) (req : Request)
  : Run CredentialsAnswer :=
  match AuthApi.authenticateToken cfg now req with
  | Respond st msg => mret (Failed (json st msg))
  | Next req =>
      try_catch
        (wuser ← lift (where_int (AuthApi.decoded_userId req));
         credentials ←
           db_read (λ db, findAll (AuthApi.live_credentials_of wuser) (credentials db));
         mret (Listed (map view credentials)))
        (λ err, mret (Failed (json 500 "Failed to get credentials")))
  end.

End AuthApiReads.

(** ** Notions the properties of the gates and routes are stated with *)

(** The decoded token as the Guard leaves it in [req.user]. *)
Definition guard_user (decoded : jsobject) : jsobject :=
  if truthy (get decoded "userId") then decoded
  else set decoded "userId" (get decoded "id").

(** The unique index on the address of a user. *)
Definition unique_email (m : gmap Z User.t) : Prop :=
  ∀ k1 u1 k2 u2,
    m !! k1 = Some u1 → m !! k2 = Some u2 → User.email u1 = User.email u2 → k1 = k2.

(** The user row a registration writes for a new address. *)
Definition registered_user (a : UserService.RegisterArgs) (e f la : string) : User.t :=
  {| User.email := e; User.firstName := f; User.lastName := la;
     User.isActive := true; User.isDeleted := false;
     User.roleId := Some (UserService.role_or_default (UserService.roleId a)) |}.

(** The columns of a credential no call rewrites. *)
Definition same_binding (c c' : UserCredential.t) : Prop :=
  UserCredential.userId c' = UserCredential.userId c
  ∧ UserCredential.authType c' = UserCredential.authType c
  ∧ UserCredential.loginName c' = UserCredential.loginName c
  ∧ UserCredential.openIdProvider c' = UserCredential.openIdProvider c
  ∧ UserCredential.openIdSubject c' = UserCredential.openIdSubject c.

(** The columns of a user no call rewrites. *)
Definition same_account (u u' : User.t) : Prop :=
  User.email u' = User.email u
  ∧ User.isActive u' = User.isActive u
  ∧ User.isDeleted u' = User.isDeleted u
  ∧ User.roleId u' = User.roleId u.

(** [db'] has every row of [db], bound as it was, and the same roles and
    permissions. *)
Definition extends (db db' : Store) : Prop :=
  (∀ k c, credentials db !! k = Some c →
          ∃ c', credentials db' !! k = Some c' ∧ same_binding c c')
  ∧ (∀ k u, users db !! k = Some u →
            ∃ u', users db' !! k = Some u' ∧ same_account u u')
  ∧ roles db' = roles db
  ∧ permissions db' = permissions db
  ∧ rolePermissions db' = rolePermissions db.

(** [c], under the key [k], is the one password credential of the user
    [uid] that is active and not deleted. *)
Definition sole_password_credential (m : gmap Z UserCredential.t) (uid k : Z)
    (c : UserCredential.t) : Prop :=
  m !! k = Some c
  ∧ UserCredential.userId c = uid
  ∧ UserCredential.authType c = "password"
  ∧ live c = true
  ∧ ∀ k' c', m !! k' = Some c' →
             UserCredential.userId c' = uid →
             UserCredential.authType c' = "password" →
             live c' = true → k' = k.

(** [c'] is [c] with a new password: hash, salt and date replaced, the
    expired flag cleared, every other column as it was. *)
Definition password_replaced (c c' : UserCredential.t) (hash salt : string) (now : Z)
  : Prop :=
  UserCredential.passwordHash c' = Some hash
  ∧ UserCredential.passwordSalt c' = Some salt
  ∧ UserCredential.lastPasswordChange c' = Some now
  ∧ UserCredential.passwordExpired c' = false
  ∧ same_binding c c'
  ∧ UserCredential.isActive c' = UserCredential.isActive c
  ∧ UserCredential.isDeleted c' = UserCredential.isDeleted c.

(** The credential a flow authenticates with, in the store [db] before the
    call: for login, a live password credential with the login name of the
    request whose hash verifies the password of the request; for register,
    a credential that was not there, made of the login name and password of
    the request; for OpenID, a live credential that holds the (provider,
    subject) pair of the request. *)
Definition credential_of_flow `{Platform} (now : Z) (f : AuthFlow) (db : Store)
    (c : Z * UserCredential.t) : Prop :=
  match f with
  | ViaLogin l p =>
      credentials db !! pk c = Some (row c)
      ∧ l = Some (UserCredential.loginName (row c))
      ∧ UserCredential.authType (row c) = "password"
      ∧ live (row c) = true
      ∧ ∃ p' h, p = Some p'
                ∧ UserCredential.passwordHash (row c) = Some h
                ∧ bcrypt_compare p' h = true
  | ViaRegister salt a =>
      credentials db !! pk c = None
      ∧ ∃ l p, UserService.loginName a = Some l
               ∧ UserService.password a = Some p
               ∧ row c = registered_credential now salt
                           (UserCredential.userId (row c)) l p
  | ViaOpenId a =>
      UserCredential.openIdProvider (row c) = AuthApi.provider a
      ∧ UserCredential.openIdSubject (row c) = AuthApi.subject a
      ∧ live (row c) = true
  end.

(** ** More of the concrete store *)

Module Scenes.

#[local] Existing Instance Demo.platform.

(** The request the Guard hands on for Alice's session token. *)
Definition alice_guarded : Request :=
  guarded Demo.registered [Garbage "Bearer"; Jwt Demo.alice_session_token]
    (payload Demo.alice_session_token) 1 Demo.alice_user.

(** Alice's request after [authenticateToken]. *)
Definition alice_authenticated : Request :=
  {| authorization := Some [Garbage "Bearer"; Jwt Demo.alice_session_token];
     req_user := Some (payload Demo.alice_session_token);
     userRecord := None; req_permissions := [] |}.

(** Root registers without a role at time 150: user 2, role 1. *)
Definition root : UserService.RegisterArgs :=
  {| UserService.email := Some "r@x.com";
     UserService.password := Some "rootrootroot";
     UserService.firstName := Some "R";
     UserService.lastName := Some "T";
     UserService.loginName := Some "root";
     UserService.roleId := None |}.

Definition with_root : Store :=
  (run (AuthApi.post_register Demo.cfg 150 "salt" root) Demo.registered).2.

Definition root_user : User.t := registered_user root "r@x.com" "R" "T".

(** The token Root gets when logging in at time 250. *)
Definition root_session_token : Token :=
  {| payload := [("userId", JNum 2); ("email", JStr "r@x.com");
                 ("loginName", JStr "root"); ("authType", JStr "password");
                 ("roleId", JNum 1)];
     signed_with := "test-secret-key"; iat := 250; exp := 3850 |}.

Definition root_guarded : Request :=
  guarded with_root [Garbage "Bearer"; Jwt root_session_token]
    (payload root_session_token) 2 root_user.

(** Alice's OpenID credential, deleted at time 700. *)
Definition unlinked : Store :=
  rewritten Demo.linked 2 (AuthApi.soft_deleted Demo.alice_openid_credential).

(** Dan registers with Alice's address and a login name of his own. *)
Definition dan : UserService.RegisterArgs :=
  {| UserService.email := Some "a@x.com";
     UserService.password := Some "dandandan";
     UserService.firstName := Some "D";
     UserService.lastName := Some "N";
     UserService.loginName := Some "dan";
     UserService.roleId := Some 1%Z |}.

(** An OpenID call for a new pair, with Alice's address. *)
Definition eve : AuthApi.OpenIdArgs :=
  {| AuthApi.provider := Some "github";
     AuthApi.subject := Some "sub-e";
     AuthApi.email := Some "a@x.com";
     AuthApi.firstName := None;
     AuthApi.lastName := None;
     AuthApi.loginName := Some "eve" |}.

(** The store of [Demo.linked] with Alice deactivated and deleted. *)
Definition linked_deactivated : Store :=
  with_users Demo.linked Demo.alice_deactivated.

(** Alice's password credential, marked expired. *)
Definition alice_expired : UserCredential.t :=
  {| UserCredential.userId := 1;
     UserCredential.authType := "password";
     UserCredential.loginName := "a";
     UserCredential.passwordHash := Some "h:pw12345678";
     UserCredential.passwordSalt := Some "salt";
     UserCredential.lastPasswordChange := Some 100%Z;
     UserCredential.passwordExpired := true;
     UserCredential.openIdProvider := None;
     UserCredential.openIdSubject := None;
     UserCredential.isActive := true;
     UserCredential.isDeleted := false |}.

Definition expired : Store := rewritten Demo.registered 1 alice_expired.

(** A password of five two-byte characters (U+00E9 five times): ten bytes,
    five code units. *)
Definition e_acute : string :=
  String (Ascii.ascii_of_nat 195) (String (Ascii.ascii_of_nat 169) EmptyString).

Definition five_letters : string :=
  e_acute +:+ e_acute +:+ e_acute +:+ e_acute +:+ e_acute.

(** Alice's row in that store. *)
Definition alice_gone : User.t :=
  {| User.email := "a@x.com"; User.firstName := "A"; User.lastName := "B";
     User.isActive := false; User.isDeleted := true; User.roleId := Some 2%Z |}.

End Scenes.

(** * Properties *)

(** ** The ORM *)

Section OrmFacts.
Context {R : Type}.
Implicit Types (m : gmap Z R) (P : Z * R → bool).

Lemma findOne_Some P m kv :
  findOne P m = Some kv → m !! kv.1 = Some kv.2 ∧ P kv = true.
Proof.
  unfold findOne. intros Hf. apply find_some in Hf as [Hin HP].
  split; [|done]. apply elem_of_map_to_list. destruct kv.
  by apply list_elem_of_In.
Qed.

Lemma findOne_None P m :
  findOne P m = None ↔ ∀ k v, m !! k = Some v → P (k, v) = false.
Proof.
  unfold findOne. split.
  - intros Hf k v Hkv. eapply find_none in Hf; [done|].
    apply list_elem_of_In. by apply elem_of_map_to_list.
  - intros Hall. destruct (List.find P (map_to_list m)) as [[k v]|] eqn:Hf; [|done].
    apply find_some in Hf as [Hin HP].
    apply list_elem_of_In, elem_of_map_to_list in Hin.
    rewrite (Hall _ _ Hin) in HP. done.
Qed.

(** A where clause at most one row satisfies finds that row. *)
Lemma findOne_unique P m k v :
  m !! k = Some v → P (k, v) = true →
  (∀ k' v', m !! k' = Some v' → P (k', v') = true → k' = k) →
  findOne P m = Some (k, v).
Proof.
  intros Hkv HP Huniq.
  destruct (findOne P m) as [[k' v']|] eqn:Hf.
  - apply findOne_Some in Hf as [Hm HP']. simpl in *.
    assert (k' = k) as -> by eauto. congruence.
  - rewrite findOne_None in Hf. rewrite (Hf _ _ Hkv) in HP. done.
Qed.

Lemma foldr_max_ge (l : list Z) k : k ∈ l → (k ≤ foldr Z.max 0 l)%Z.
Proof.
  induction l as [|x l IH]; [by intros ?%elem_of_nil|].
  intros [->|Hin]%elem_of_cons; simpl; [lia|]. specialize (IH Hin). lia.
Qed.

(** The key of an insert is free. *)
Lemma next_id_fresh m : m !! next_id m = None.
Proof.
  destruct (m !! next_id m) as [v|] eqn:Hl; [|done].
  apply elem_of_map_to_list in Hl.
  assert (next_id m ∈ (map_to_list m).*1) as Hin.
  { apply list_elem_of_fmap. by exists (next_id m, v). }
  apply foldr_max_ge in Hin. unfold next_id in Hin. lia.
Qed.


End OrmFacts.

(** ** The permission gate *)

(** An array of permission instances includes no string. *)
Lemma includes_records (ps : list PermissionRecord) (s : string) :
  includes (map EObj ps) s = false.
Proof. unfold includes. induction ps as [|p ps IH]; simpl; auto. Qed.

(** After the Guard, the gate answers 403 to every non-empty requirement,
    whatever the role holds. *)
Lemma requirePermissions_nonempty (req : Request) ur r c cs :
  userRecord req = Some ur → role ur = Some r →
  Middleware.requirePermissions (c :: cs) req
  = Respond 403 "You do not have the required permissions to access this resource".
Proof.
  intros Hur Hr. unfold Middleware.requirePermissions.
  rewrite Hur, Hr. simpl. by rewrite includes_records.
Qed.

(** The empty requirement passes. *)
Lemma requirePermissions_empty (req : Request) ur r :
  userRecord req = Some ur → role ur = Some r →
  Middleware.requirePermissions [] req = Next req.
Proof.
  intros Hur Hr. unfold Middleware.requirePermissions. by rewrite Hur, Hr.
Qed.

(** ** The Guard and reset tokens *)

Lemma get_set (o : jsobject) k v : get (set o k v) k = v.
Proof.
  induction o as [|[k' v'] o IH]; simpl.
  - by rewrite String.eqb_refl.
  - destruct (String.eqb k' k) eqn:Hk; simpl; by rewrite Hk.
Qed.

(** The Guard on a well-signed, unexpired token whose [userId] is a number
    and that has no truthy [id] claim. *)
Lemma authGuard_numeric_userId `{Platform} cfg now db scheme tok uid :
  String.eqb (signed_with tok) (jwt_secret cfg) = true →
  (now < exp tok)%Z →
  get (payload tok) "userId" = JNum uid →
  truthy (get (payload tok) "id") = false →
  Middleware.authGuard cfg now db (incoming (Some [scheme; Jwt tok]))
  = guard_outcome db [scheme; Jwt tok] (payload tok) uid.
Proof.
  intros Hsig Hexp Hid Hnoid.
  unfold Middleware.authGuard, guard_outcome, bearer, jwt_verify. simpl.
  rewrite Hsig. simpl.
  destruct (Z.leb_spec (exp tok) now) as [?|_]; [lia|].
  unfold Middleware.find_live_user. rewrite Hid. simpl.
  destruct (users db !! uid) as [u|]; [|done].
  unfold live_user.
  destruct (User.isActive u && negb (User.isDeleted u)); [|done].
  destruct (Z.eqb_spec uid 0) as [->|Hne]; simpl.
  - by rewrite get_set, Hnoid.
  - rewrite Hid. simpl. by destruct (Z.eqb_spec uid 0).
Qed.

Ltac unfold_run :=
  unfold run, mbind, Run_bind, mret, Run_ret, db_read, db_write, tx_read,
    tx_write, lift, throw, try_catch, tx_commit, tx_rollback in *.

(** What the reset-password request signs: [{ userId, email }] of the user
    with that address, under the session secret, for one hour. *)
Lemma reset_request_token cfg now mail_ok email db resp tok db' :
  run (AuthApi.post_reset_password_request cfg now mail_ok email) db
  = (inr (resp, Some tok), db') →
  ∃ uid u0,
    users db !! uid = Some u0
    ∧ tok = {| payload := [("userId", JNum uid); ("email", JStr (User.email u0))];
               signed_with := jwt_secret cfg; iat := now; exp := (now + 3600)%Z |}.
Proof.
  unfold AuthApi.post_reset_password_request. intros Hrun.
  destruct email as [e|]; [|by unfold_run].
  destruct (negb (truthy_str (Some e))); [by unfold_run|].
  unfold_run. simpl in Hrun.
  destruct (UserService.find_user_by_email e db) as [[uid u0]|] eqn:Hf; [|done].
  apply findOne_Some in Hf as [Hu _]. simpl in Hu.
  exists uid, u0. split; [done|].
  destruct mail_ok; simpl in Hrun; by simplify_eq.
Qed.

(** C2, as amended: the Guard does not tell a reset token from a session
    token.  A token signed by the reset-password request, presented as a
    bearer token before its hour is over, gets the outcome any token naming
    that user gets: the request goes on when the user is in the live store,
    active and not deleted (and its id is not zero), and is answered 403
    otherwise. *)
Theorem reset_token_guard_outcome `{Platform} cfg now mail_ok email db resp tok db'
    now' live_db scheme :
  run (AuthApi.post_reset_password_request cfg now mail_ok email) db
  = (inr (resp, Some tok), db') →
  (now' < now + 3600)%Z →
  ∃ uid u0,
    users db !! uid = Some u0
    ∧ payload tok = [("userId", JNum uid); ("email", JStr (User.email u0))]
    ∧ Middleware.authGuard cfg now' live_db (incoming (Some [scheme; Jwt tok]))
      = guard_outcome live_db [scheme; Jwt tok] (payload tok) uid.
Proof.
  intros Hrun Hnow.
  destruct (reset_request_token _ _ _ _ _ _ _ _ Hrun) as (uid & u0 & Hu & ->).
  exists uid, u0. split; [done|]. split; [done|].
  apply authGuard_numeric_userId; simpl; try done.
  apply String.eqb_refl.
Qed.

(** ** Registration *)

Lemma User_create_Some `{Platform} d m u m' :
  User_create d m = inr (u, m') →
  m !! pk u = None ∧ m' = <[pk u := row u]> m
  ∧ User.isActive (row u) = true ∧ User.isDeleted (row u) = false.
Proof.
  unfold User_create. intros Hc.
  destruct (d_email d), (d_firstName d), (d_lastName d); try done.
  destruct (negb _); [done|]. destruct (findOne _ _); [done|].
  simplify_eq. simpl. split; [apply next_id_fresh|done].
Qed.

Lemma UserCredential_create_Some c m kc m' :
  UserCredential_create c m = inr (kc, m') →
  m !! pk kc = None ∧ row kc = c ∧ m' = <[pk kc := c]> m
  ∧ beforeValidate c = inr ()
  ∧ findOne (same_openid c) m = None ∧ findOne (same_login c) m = None.
Proof.
  unfold UserCredential_create. intros Hc.
  destruct (beforeValidate c) as [|[]]; [done|].
  destruct (validate_authType c); [done|].
  destruct (findOne (same_openid c) m); [done|].
  destruct (findOne (same_login c) m); [done|].
  simplify_eq. simpl. split; [apply next_id_fresh|done].
Qed.

Lemma create_user_Some `{Platform} d s u s' :
  UserService.create_user d s = inr (u, s') →
  users s !! pk u = None ∧ s' = with_users s (<[pk u := row u]> (users s)).
Proof.
  unfold UserService.create_user. intros Hc.
  destruct (User_create d (users s)) as [|[u' m]] eqn:Hu; [done|].
  simplify_eq. apply User_create_Some in Hu as (? & -> & _). done.
Qed.

Lemma create_credential_Some c s kc s' :
  UserService.create_credential c s = inr (kc, s') →
  credentials s !! pk kc = None ∧ row kc = c
  ∧ s' = with_credentials s (<[pk kc := c]> (credentials s))
  ∧ beforeValidate c = inr ()
  ∧ findOne (same_openid c) (credentials s) = None
  ∧ findOne (same_login c) (credentials s) = None.
Proof.
  unfold UserService.create_credential. intros Hc.
  destruct (UserCredential_create c (credentials s)) as [|[kc' m]] eqn:Hu; [done|].
  simplify_eq. apply UserCredential_create_Some in Hu as (? & ? & -> & ?). done.
Qed.

(** What [registerUser] leaves behind, whatever its arguments. *)
Lemma registerUser_run `{Platform} cfg now salt a db :
  register_outcome cfg now salt a db
    (run (UserService.registerUser cfg now salt a) db).1
    (run (UserService.registerUser cfg now salt a) db).2.
Proof.
  unfold UserService.registerUser, UserService.registerUser_try, run.
  unfold_run. simpl.
  destruct (where_str (UserService.email a)) as [?|e]; simpl; [done|].
  destruct (UserService.find_user_by_email e db) as [u|] eqn:Hfu; simpl.
  - destruct (where_str (UserService.loginName a)) as [?|l] eqn:Hl; simpl; [done|].
    destruct (UserService.find_password_login l db); simpl; [done|].
    destruct (UserService.hashPassword _ _) as [?|hs] eqn:Hh; simpl; [done|].
    destruct (UserService.create_credential _ _) as [?|[cred s]] eqn:Hc; simpl; [done|].
    apply create_credential_Some in Hc as (Hfresh & Hrow & -> & Hhook & _).
    apply findOne_Some in Hfu as [Hu _].
    destruct (UserService.password a) as [p|] eqn:Hp; simpl in Hh; [|done].
    destruct (UserService.loginName a) as [l'|] eqn:Hl'; simpl in Hl; [|done].
    simplify_eq.
    exists u, cred, (users db), l, p. rewrite Hrow.
    repeat split; try done; auto.
  - destruct (UserService.create_user _ _) as [?|[u s]] eqn:Hcu; simpl; [done|].
    apply create_user_Some in Hcu as [Hufresh ->].
    destruct (where_str (UserService.loginName a)) as [?|l] eqn:Hl; simpl; [done|].
    destruct (UserService.find_password_login l _); simpl; [done|].
    destruct (UserService.hashPassword _ _) as [?|hs] eqn:Hh; simpl; [done|].
    destruct (UserService.create_credential _ _) as [?|[cred s]] eqn:Hc; simpl; [done|].
    apply create_credential_Some in Hc as (Hfresh & Hrow & -> & Hhook & _).
    destruct (UserService.password a) as [p|] eqn:Hp; simpl in Hh; [|done].
    destruct (UserService.loginName a) as [l'|] eqn:Hl'; simpl in Hl; [|done].
    simplify_eq.
    exists u, cred, (<[pk u := row u]> (users db)), l, p. rewrite Hrow.
    repeat split; try done; auto.
    by rewrite lookup_insert_eq.
Qed.

(** The route adds a 400 in front and maps errors to 409 or 500. *)
Lemma post_register_run `{Platform} cfg now salt a db :
  register_route_outcome cfg now salt a db
    (run (AuthApi.post_register cfg now salt a) db).1
    (run (AuthApi.post_register cfg now salt a) db).2.
Proof.
  pose proof (registerUser_run cfg now salt a db) as Hsvc.
  unfold AuthApi.post_register, register_route_outcome.
  destruct (_ || _); [done|].
  unfold run in *. unfold try_catch, mbind, Run_bind, mret, Run_ret in *.
  destruct (UserService.registerUser cfg now salt a _) as [[e|b] c]; simpl in *.
  - by destruct (str_includes _ _).
  - done.
Qed.

(** C7: registration is all or nothing.  Whenever [registerUser] throws,
    and whenever the register route answers anything but 201, the
    committed store is the one before the call: no user and no credential
    of the attempt is in it.  When it succeeds, the user and the new
    credential of that user are both in the committed store. *)
Theorem registration_atomic `{Platform} cfg now salt a db :
  register_outcome cfg now salt a db
    (run (UserService.registerUser cfg now salt a) db).1
    (run (UserService.registerUser cfg now salt a) db).2
  ∧ register_route_outcome cfg now salt a db
      (run (AuthApi.post_register cfg now salt a) db).1
      (run (AuthApi.post_register cfg now salt a) db).2.
Proof. split; [apply registerUser_run | apply post_register_run]. Qed.

(** ** The OpenID route *)

(** What the OpenID route leaves behind, whatever its arguments. *)
Lemma post_openid_run `{Platform} cfg now a db :
  openid_outcome cfg now a db
    (run (AuthApi.post_openid cfg now a) db).1
    (run (AuthApi.post_openid cfg now a) db).2.
Proof.
  unfold AuthApi.post_openid.
  destruct (AuthApi.provider a) as [p|] eqn:Hp; [|done].
  destruct (AuthApi.subject a) as [s|] eqn:Hs; [|done].
  destruct (AuthApi.email a) as [e|] eqn:He; [|done].
  destruct (AuthApi.loginName a) as [l|] eqn:Hl; [|done].
  destruct (negb (truthy_str (Some p))) eqn:Hpt; [done|].
  destruct (negb (truthy_str (Some s))) eqn:Hst; [done|].
  destruct (_ || _); [done|].
  apply negb_false_iff in Hpt, Hst.
  unfold AuthApi.openid_try, AuthApi.openid_find_or_create, AuthApi.null_deref, run.
  unfold_run. simpl.
  destruct (findOne (AuthApi.openid_where p s) (credentials db)) as [cred|] eqn:Hf; simpl.
  - pose proof Hf as [Hc Hw]%findOne_Some.
    unfold findByPk.
    destruct (users db !! _) as [u|] eqn:Hu; simpl.
    + destruct (_ || _); simpl.
      * exists p, s, l. eexists. rewrite Hp, Hs, Hl. simpl.
        repeat split; try done. { by rewrite lookup_insert_eq. }
        by left.
      * exists p, s, l. eexists. rewrite Hp, Hs, Hl. simpl.
        repeat split; try done.
        by left.
    + destruct (_ || _); simpl; done.
  - destruct (UserService.find_user_by_email e db) as [u|] eqn:Hfu; simpl.
    + destruct (UserService.create_credential _ _) as [?|[cred st]] eqn:Hcc; simpl; [done|].
      apply create_credential_Some in Hcc as (Hfresh & Hrow & -> & Hhook & _).
      apply findOne_Some in Hfu as [Hu _].
      exists p, s, l, u. rewrite Hp, Hs, Hl. simpl.
      repeat split; try done.
      { by rewrite Hrow. }
      { unfold AuthApi.openid_where. rewrite Hrow. simpl.
        by rewrite !String.eqb_refl. }
      right. rewrite Hrow. done.
    + destruct (UserService.create_user _ _) as [?|[u st]] eqn:Hcu; simpl; [done|].
      apply create_user_Some in Hcu as [Hufresh ->].
      destruct (UserService.create_credential _ _) as [?|[cred st]] eqn:Hcc; simpl; [done|].
      apply create_credential_Some in Hcc as (Hfresh & Hrow & -> & Hhook & _).
      exists p, s, l, u. rewrite Hp, Hs, Hl. simpl.
      repeat split; try done.
      { by rewrite lookup_insert_eq. }
      { by rewrite Hrow. }
      { unfold AuthApi.openid_where. rewrite Hrow. simpl.
        by rewrite !String.eqb_refl. }
      right. rewrite Hrow. done.
Qed.
Lemma findOne_insert_new {R} (P : Z * R → bool) (m : gmap Z R) k v :
  findOne P m = None → P (k, v) = true →
  findOne P (<[k := v]> m) = Some (k, v).
Proof.
  intros Hnone HP. apply findOne_unique; [by rewrite lookup_insert_eq|done|].
  intros k' v' Hl HP'. destruct (decide (k' = k)) as [|Hne]; [done|].
  rewrite lookup_insert_ne in Hl by done.
  rewrite findOne_None in Hnone. by rewrite (Hnone _ _ Hl) in HP'.
Qed.

(** A request whose pair is bound to a live credential with a user in the
    store is answered 200 with that credential. *)
Lemma post_openid_found `{Platform} cfg now a db p s cred u :
  AuthApi.provider a = Some p → AuthApi.subject a = Some s →
  truthy_str (Some p) = true → truthy_str (Some s) = true →
  truthy_str (AuthApi.email a) = true → truthy_str (AuthApi.loginName a) = true →
  findOne (AuthApi.openid_where p s) (credentials db) = Some cred →
  users db !! UserCredential.userId (row cred) = Some u →
  ∃ resp db',
    run (AuthApi.post_openid cfg now a) db = (inr (resp, Some cred), db')
    ∧ status resp = 200.
Proof.
  intros Hp Hs Hpt Hst Het Hlt Hf Hu.
  unfold AuthApi.post_openid. rewrite Hp, Hs.
  destruct (AuthApi.email a) as [e|]; [|done].
  destruct (AuthApi.loginName a) as [l|]; [|done].
  rewrite Hpt, Hst, Het, Hlt. simpl.
  unfold AuthApi.openid_try, AuthApi.openid_find_or_create, AuthApi.null_deref, run.
  unfold_run. simpl. rewrite Hf. simpl. unfold findByPk. rewrite Hu. simpl.
  destruct (_ || _); simpl; eauto.
Qed.

(** The same, with what the call leaves: no credential is written, and no
    user row is added or removed. *)
Lemma post_openid_found_store `{Platform} cfg now a db p s cred u :
  AuthApi.provider a = Some p → AuthApi.subject a = Some s →
  truthy_str (Some p) = true → truthy_str (Some s) = true →
  truthy_str (AuthApi.email a) = true → truthy_str (AuthApi.loginName a) = true →
  findOne (AuthApi.openid_where p s) (credentials db) = Some cred →
  users db !! UserCredential.userId (row cred) = Some u →
  ∃ resp db',
    run (AuthApi.post_openid cfg now a) db = (inr (resp, Some cred), db')
    ∧ status resp = 200
    ∧ credentials db' = credentials db
    ∧ ∀ k, is_Some (users db' !! k) ↔ is_Some (users db !! k).
Proof.
  intros Hp Hs Hpt Hst Het Hlt Hf Hu.
  unfold AuthApi.post_openid. rewrite Hp, Hs.
  destruct (AuthApi.email a) as [e|]; [|done].
  destruct (AuthApi.loginName a) as [l|]; [|done].
  rewrite Hpt, Hst, Het, Hlt. simpl.
  unfold AuthApi.openid_try, AuthApi.openid_find_or_create, AuthApi.null_deref, run.
  unfold_run. simpl. rewrite Hf. simpl. unfold findByPk. rewrite Hu. simpl.
  destruct (_ || _); simpl.
  - eexists _, _. split; [done|]. simpl. split; [done|]. split; [done|].
    intros k. destruct (decide (k = UserCredential.userId (row cred))) as [->|Hne].
    + rewrite lookup_insert_eq, Hu. split; eauto.
    + by rewrite lookup_insert_ne.
  - eexists _, _. split; [done|]. done.
Qed.

Lemma openid_where_true p s cred :
  AuthApi.openid_where p s cred = true →
  UserCredential.openIdProvider (row cred) = Some p
  ∧ UserCredential.openIdSubject (row cred) = Some s
  ∧ live (row cred) = true.
Proof.
  unfold AuthApi.openid_where, eqb_opt_str. intros Hw.
  repeat (apply andb_prop in Hw as [Hw ?]).
  destruct (UserCredential.openIdProvider (row cred)) as [p'|]; [|done].
  destruct (UserCredential.openIdSubject (row cred)) as [s'|]; [|done].
  apply String.eqb_eq in Hw as ->.
  match goal with Hs : String.eqb _ _ = true |- _ => apply String.eqb_eq in Hs as -> end.
  done.
Qed.

(** C8: find-or-create is idempotent.  When a call for a (provider,
    subject) pair has succeeded with a credential, that credential is a row
    of the store that holds the pair and is active and not deleted, and any
    further call for the same pair succeeds with that same credential (same
    id, same row): it finds the credential bound to the pair and creates
    nothing, the credentials table is as it was and no user row is
    added. *)
Theorem openid_idempotent `{Platform} cfg now1 now2 a1 a2 db resp1 cred1 db1 :
  run (AuthApi.post_openid cfg now1 a1) db = (inr (resp1, Some cred1), db1) →
  AuthApi.provider a2 = AuthApi.provider a1 →
  AuthApi.subject a2 = AuthApi.subject a1 →
  truthy_str (AuthApi.email a2) = true →
  truthy_str (AuthApi.loginName a2) = true →
  credentials db1 !! pk cred1 = Some (row cred1)
  ∧ UserCredential.openIdProvider (row cred1) = AuthApi.provider a1
  ∧ UserCredential.openIdSubject (row cred1) = AuthApi.subject a1
  ∧ live (row cred1) = true
  ∧ ∃ resp2 db2,
      run (AuthApi.post_openid cfg now2 a2) db1 = (inr (resp2, Some cred1), db2)
      ∧ status resp2 = 200
      ∧ credentials db2 = credentials db1
      ∧ ∀ k, is_Some (users db2 !! k) ↔ is_Some (users db1 !! k).
Proof.
  intros Hrun Hp2 Hs2 He2 Hl2.
  pose proof (post_openid_run cfg now1 a1 db) as Hout.
  rewrite Hrun in Hout. simpl in Hout.
  destruct Hout as (p & s & l & usr & Hp & Hs & Hl & Hpt & Hst & _ & _ & _ & Hu & Hown & Hw & Hcase).
  rewrite Hp in Hp2. rewrite Hs in Hs2.
  assert (findOne (AuthApi.openid_where p s) (credentials db1) = Some cred1) as Hf.
  { destruct Hcase as [[Hf ->]|(Hnone & Hfresh & _ & _ & ->)]; [done|].
    destruct cred1 as [k c]. by apply findOne_insert_new. }
  pose proof Hf as [Hc _]%findOne_Some.
  apply openid_where_true in Hw as (Hwp & Hws & Hlive).
  rewrite Hp, Hs. do 4 (split; [done|]).
  eapply post_openid_found_store; eauto.
  by rewrite Hown.
Qed.

(** ** Claims of the issued tokens *)

Lemma login_query_Some db l cred cuser :
  AuthApi.login_query db l = Some (cred, cuser) →
  credentials db !! pk cred = Some (row cred)
  ∧ users db !! pk cuser = Some (row cuser)
  ∧ UserCredential.userId (row cred) = pk cuser
  ∧ AuthApi.login_where db l cred = true.
Proof.
  unfold AuthApi.login_query. intros Hq.
  destruct (findOne _ _) as [c|] eqn:Hf; [|done].
  apply findOne_Some in Hf as [Hc Hw].
  destruct (users db !! _) as [u|] eqn:Hu; [|done].
  simpl in Hq. simplify_eq. done.
Qed.

(** A login that answers with a token found a credential and its user, and
    signed the token for them; the store is as it was. *)
Lemma post_login_token `{Platform} cfg now loginName password db resp db' tok :
  run (AuthApi.post_login cfg now loginName password) db = (inr resp, db') →
  token (body resp) = Some tok →
  ∃ l cred cuser,
    loginName = Some l
    ∧ AuthApi.login_query db l = Some (cred, cuser)
    ∧ tok = AuthApi.generateToken cfg now cuser cred
    ∧ db' = db.
Proof.
  unfold AuthApi.post_login. intros Hrun Htok.
  destruct loginName as [l|], password as [p|]; try (unfold_run; by simplify_eq).
  destruct (_ || _); [unfold_run; by simplify_eq|].
  unfold AuthApi.login_try in Hrun. unfold_run. simpl in Hrun.
  destruct (AuthApi.login_query db l) as [[cred cuser]|] eqn:Hq; [|by simplify_eq].
  destruct (UserCredential.passwordExpired _); [by simplify_eq|].
  destruct (compare_hash _ _) as [e|[]]; simpl in Hrun; try by simplify_eq.
  simplify_eq. simpl in Htok. simplify_eq. by exists l, cred, cuser.
Qed.

Lemma generateToken_session_claims cfg now u c :
  session_claims u c (payload (AuthApi.generateToken cfg now u c)).
Proof.
  unfold session_claims, AuthApi.generateToken, jwt_sign, json_roundtrip,
    AuthApi.avatarId, keys. simpl.
  destruct (User.roleId (row u)); simpl; split_and!; try done.
  all: intros k Hk; rewrite !elem_of_cons in Hk; rewrite !elem_of_cons; tauto.
Qed.

Lemma generateToken_register_claims cfg now u c :
  register_claims u c (payload (UserService.generateToken cfg now u c)).
Proof.
  unfold register_claims, UserService.generateToken, jwt_sign, json_roundtrip. simpl.
  by destruct (User.roleId (row u)).
Qed.

(** A login that answers with a token: the credential it found has the
    login name of the request and a hash that verifies its password, and
    the answer names the user of that credential. *)
Lemma post_login_issued `{Platform} cfg now loginName password db resp db' tok :
  run (AuthApi.post_login cfg now loginName password) db = (inr resp, db') →
  token (body resp) = Some tok →
  ∃ l p cred cuser h,
    loginName = Some l ∧ password = Some p
    ∧ AuthApi.login_query db l = Some (cred, cuser)
    ∧ UserCredential.passwordHash (row cred) = Some h
    ∧ bcrypt_compare p h = true
    ∧ user (body resp) = Some cuser
    ∧ tok = AuthApi.generateToken cfg now cuser cred
    ∧ db' = db.
Proof.
  unfold AuthApi.post_login. intros Hrun Htok.
  destruct loginName as [l|], password as [p|]; try (unfold_run; by simplify_eq).
  destruct (_ || _); [unfold_run; by simplify_eq|].
  unfold AuthApi.login_try in Hrun. unfold_run. simpl in Hrun.
  destruct (AuthApi.login_query db l) as [[cred cuser]|] eqn:Hq; [|by simplify_eq].
  destruct (UserCredential.passwordExpired _); [by simplify_eq|].
  unfold compare_hash in Hrun.
  destruct (UserCredential.passwordHash (row cred)) as [h|] eqn:Hh;
    simpl in Hrun; [|by simplify_eq].
  destruct (bcrypt_compare p h) eqn:Hcmp; simpl in Hrun; [|by simplify_eq].
  simplify_eq. simpl in Htok. simplify_eq.
  by exists l, p, cred, cuser, h.
Qed.

(** C3, as amended: the claims of an issued token depend on the route.  The
    answer that carries the token names a user, the authenticated one: a
    row of the store that owns the credential the flow authenticated with
    (for login the live password credential with the login name of the
    request whose hash verifies the password, for OpenID the live
    credential that holds the pair of the request, for register the
    credential the call created).  A token issued by login or by OpenID
    carries [userId], [email] and [roleId] of that user and [loginName] and
    [authType] of that credential, and no claim outside the six names; a
    token issued by register carries exactly [userId] and [roleId] of that
    user and [credentialId], the id of the new credential. *)
Theorem issued_token_claims `{Platform} cfg now f db resp db' tok :
  run (authenticate cfg now f) db = (inr resp, db') →
  token (body resp) = Some tok →
  ∃ u c,
    user (body resp) = Some u
    ∧ users db' !! pk u = Some (row u)
    ∧ credentials db' !! pk c = Some (row c)
    ∧ UserCredential.userId (row c) = pk u
    ∧ credential_of_flow now f db c
    ∧ match f with
      | ViaLogin _ _ | ViaOpenId _ => session_claims u c (payload tok)
      | ViaRegister _ _ => register_claims u c (payload tok)
      end.
Proof.
  intros Hrun Htok. destruct f as [l p|salt a|a]; simpl in Hrun.
  - destruct (post_login_issued _ _ _ _ _ _ _ _ Hrun Htok)
      as (l' & p' & cred & cuser & h & -> & -> & Hq & Hh & Hcmp & Hbu & -> & ->).
    apply login_query_Some in Hq as (Hc & Hu & Hown & Hw).
    unfold AuthApi.login_where in Hw.
    repeat (apply andb_prop in Hw as [Hw ?]).
    apply String.eqb_eq in Hw.
    exists cuser, cred. do 4 (split; [done|]). split.
    + simpl. split; [done|]. split; [by rewrite Hw|].
      split; [by apply String.eqb_eq|]. split; [done|]. by exists p', h.
    + exact (generateToken_session_claims cfg now _ _).
  - pose proof (post_register_run cfg now salt a db) as Hout.
    rewrite Hrun in Hout. simpl in Hout.
    destruct (Nat.eqb_spec (status resp) 201) as [Hst|Hst].
    + destruct Hout as (u & c & us & l & p & Hl & Hp & _ & Hu & Hfresh & Hrow & _ & -> & Hb).
      rewrite Hb in Htok. simpl in Htok. simplify_eq.
      exists u, c. simpl. rewrite Hb. simpl.
      rewrite lookup_insert_eq, Hrow. do 4 (split; [done|]). split.
      * split; [done|]. by exists l, p.
      * exact (generateToken_register_claims cfg now _ _).
    + exfalso. revert Hrun Htok Hst. unfold AuthApi.post_register.
      destruct (_ || _); [unfold_run; intros; by simplify_eq|].
      unfold run, try_catch, mbind, Run_bind, mret, Run_ret.
      destruct (UserService.registerUser cfg now salt a _) as [[e|b] c']; simpl;
        intros; by simplify_eq.
  - pose proof (post_openid_run cfg now a db) as Hout.
    unfold run in Hrun, Hout. unfold mbind, Run_bind, mret, Run_ret in Hrun.
    destruct (AuthApi.post_openid cfg now a _) as [[e|[resp' [cred|]]] c'] eqn:Hpo;
      simpl in *; [done| |].
    + simplify_eq.
      destruct Hout as (p & s & l & usr & Hp & Hs & _ & _ & _ & _ & Ht & Hbu & Hu & Hown & Hw & Hcase).
      rewrite Ht in Htok. simplify_eq.
      apply openid_where_true in Hw as (Hwp & Hws & Hlive).
      exists usr, cred. split; [done|]. split; [done|]. split; [|split; [done|split]].
      * destruct Hcase as [[Hf ->]|(_ & _ & _ & _ & ->)].
        -- by apply findOne_Some in Hf as [? _].
        -- by rewrite lookup_insert_eq.
      * by rewrite Hp, Hs.
      * exact (generateToken_session_claims cfg now _ _).
    + simplify_eq. destruct Hout as [_ Hnone]. congruence.
Qed.

(** ** Login *)

Lemma truthy_str_Some s : s ≠ "" → truthy_str (Some s) = true.
Proof.
  intros Hs. simpl. destruct (String.eqb_spec s ""); [done|]. done.
Qed.

(** Login with the login name of a stored live password credential of a
    live user, under the unique index. *)
Lemma post_login_live `{Platform} cfg now db k c u h l p :
  credentials db !! k = Some c →
  UserCredential.loginName c = l →
  UserCredential.authType c = "password" →
  live c = true →
  users db !! UserCredential.userId c = Some u →
  live_user u = true →
  UserCredential.passwordHash c = Some h →
  unique_login (credentials db) →
  l ≠ "" → p ≠ "" →
  run (AuthApi.post_login cfg now (Some l) (Some p)) db
  = (inr (login_answer cfg now db k c u h p), db).
Proof.
  intros Hc Hl Hat Hlive Hu Hlu Hh Huniq Hln Hpn.
  assert (AuthApi.login_query db l = Some ((k, c), (UserCredential.userId c, u))) as Hq.
  { unfold AuthApi.login_query.
    erewrite findOne_unique; [| exact Hc | |].
    - simpl. by rewrite Hu.
    - unfold AuthApi.login_where. simpl.
      rewrite Hl, Hat, Hlive, Hu, Hlu, !String.eqb_refl. done.
    - intros k' c' Hc' Hw. unfold AuthApi.login_where in Hw. simpl in Hw.
      repeat (apply andb_prop in Hw as [Hw ?]).
      apply String.eqb_eq in Hw.
      eapply (Huniq k' c' k c); try done; [congruence|].
      rewrite Hat. by apply String.eqb_eq. }
  unfold AuthApi.post_login.
  rewrite !truthy_str_Some by done. simpl.
  unfold AuthApi.login_try, login_answer. unfold_run. simpl.
  rewrite Hq. simpl.
  destruct (UserCredential.passwordExpired c); [done|].
  unfold compare_hash. rewrite Hh. simpl.
  destruct (bcrypt_compare p h); done.
Qed.

(** C4, as amended: login with the login name of a stored password
    credential that is active and not deleted, whose user is active and not
    deleted, under the unique index on (LoginName, AuthType).  With the
    expired flag clear and a password the stored hash verifies, the answer
    is 200 with a token signed with the session secret whose [userId] is
    the id of the credential's user; with the flag clear and a password
    that does not verify, it is the generic 401 "Invalid login
    credentials"; with the flag set it is, whatever the password, the 401
    "Password has expired. Please reset your password.", not the generic
    one.  The store is never changed. *)
Theorem login_succeeds_or_401 `{Platform} cfg now db k c u h l p :
  credentials db !! k = Some c →
  UserCredential.loginName c = l →
  UserCredential.authType c = "password" →
  live c = true →
  users db !! UserCredential.userId c = Some u →
  live_user u = true →
  UserCredential.passwordHash c = Some h →
  unique_login (credentials db) →
  l ≠ "" → p ≠ "" →
  ∃ resp,
    run (AuthApi.post_login cfg now (Some l) (Some p)) db = (inr resp, db)
    ∧ if UserCredential.passwordExpired c
      then resp = json 401 "Password has expired. Please reset your password."
      else if bcrypt_compare p h
      then status resp = 200
           ∧ ∃ tok, token (body resp) = Some tok
                    ∧ signed_with tok = jwt_secret cfg
                    ∧ get (payload tok) "userId" = JNum (UserCredential.userId c)
      else resp = json 401 "Invalid login credentials".
Proof.
  intros. eexists. split; [by eapply post_login_live|].
  unfold login_answer.
  destruct (UserCredential.passwordExpired c); [done|].
  destruct (bcrypt_compare p h); [|done].
  split; [done|]. eexists. split; [done|]. done.
Qed.

Lemma unique_login_singleton k c : unique_login {[k := c]}.
Proof.
  intros k1 c1 k2 c2 [-> _]%lookup_singleton_Some [-> _]%lookup_singleton_Some _ _.
  done.
Qed.

(** ** Deleting a credential *)

Lemma beforeValidate_soft_deleted c :
  beforeValidate (AuthApi.soft_deleted c) = beforeValidate c.
Proof. done. Qed.

Lemma col_is_Some w k : col_is w k = true ↔ w = Some k.
Proof.
  destruct w as [n|]; simpl; [|done].
  rewrite Z.eqb_eq. split; congruence.
Qed.

(** The lookup of the delete route finds the credential of that id when
    the authenticated user owns it and it is live, and nothing otherwise. *)
Lemma own_credential_lookup (m : gmap Z UserCredential.t) wid wuser :
  findOne (AuthApi.own_credential_where wid wuser) m
  = match wid with
    | Some k =>
        match m !! k with
        | Some c =>
            if col_is wuser (UserCredential.userId c) && live c
            then Some (k, c) else None
        | None => None
        end
    | None => None
    end.
Proof.
  destruct wid as [k|].
  - destruct (m !! k) as [c|] eqn:Hc.
    + destruct (col_is wuser _ && live c) eqn:Hok.
      * apply findOne_unique; [done| |].
        -- unfold AuthApi.own_credential_where. simpl.
           rewrite Z.eqb_refl. simpl. exact Hok.
        -- intros k' c' _ Hw. unfold AuthApi.own_credential_where in Hw.
           simpl in Hw. repeat (apply andb_prop in Hw as [Hw ?]).
           by apply Z.eqb_eq in Hw.
      * apply findOne_None. intros k' c' Hc'.
        unfold AuthApi.own_credential_where. simpl.
        destruct (Z.eqb_spec k' k) as [->|]; [|done]. simpl.
        rewrite Hc in Hc'. simplify_eq. exact Hok.
    + apply findOne_None. intros k' c' Hc'.
      unfold AuthApi.own_credential_where. simpl.
      destruct (Z.eqb_spec k' k) as [->|]; [|done]. congruence.
  - apply findOne_None. intros k' c' Hc'. done.
Qed.

(** The [try] block of the delete route, once both where values are bound. *)
Lemma delete_credential_try_run `{Platform} id userId wid wuser db :
  where_int (JStr id) = inr wid → where_int userId = inr wuser →
  run (AuthApi.delete_credential_try id userId) db
  = match findOne (AuthApi.own_credential_where wid wuser) (credentials db) with
    | None => (inr (json 404 "Credential not found"), db)
    | Some cred =>
        if (count (AuthApi.live_credentials_of wuser) (credentials db) <=? 1)%nat
        then (inr (json 400 "Cannot delete the only credential for this user"), db)
        else
          match beforeValidate (row cred) with
          | inl e => (inl e, db)
          | inr _ =>
              (inr (json 200 "Credential deleted successfully"),
               rewritten db (pk cred) (AuthApi.soft_deleted (row cred)))
          end
    end.
Proof.
  intros Hid Hu. unfold AuthApi.delete_credential_try.
  unfold_run. rewrite Hid, Hu. simpl.
  destruct (findOne _ _) as [cred|]; [|done]. simpl.
  destruct (_ <=? 1)%nat; [done|].
  unfold update_credential, UserCredential_update.
  rewrite beforeValidate_soft_deleted.
  destruct (beforeValidate (row cred)) as [e|[]]; done.
Qed.

(** Whatever the request, the delete route leaves the store as it was, or
    rewrites one live credential of the authenticated user as deleted. *)
Lemma delete_credential_changes `{Platform} cfg now req id db :
  (run (AuthApi.delete_credential cfg now req id) db).2 = db
  ∨ ∃ k c,
      pg_int4in id = Some k
      ∧ credentials db !! k = Some c
      ∧ authenticated_as cfg now req = Some (UserCredential.userId c)
      ∧ live c = true
      ∧ beforeValidate c = inr ()
      ∧ run (AuthApi.delete_credential cfg now req id) db
        = (inr (json 200 "Credential deleted successfully"),
           rewritten db k (AuthApi.soft_deleted c)).
Proof.
  unfold AuthApi.delete_credential, authenticated_as.
  destruct (AuthApi.authenticateToken cfg now req) as [req'|st msg]; [|by left].
  destruct (where_int (JStr id)) as [e|wid] eqn:Hid.
  { left. unfold AuthApi.delete_credential_try. unfold_run. by rewrite Hid. }
  destruct (where_int (AuthApi.decoded_userId req')) as [e|wuser] eqn:Hu.
  { left. unfold AuthApi.delete_credential_try. unfold_run. by rewrite Hid, Hu. }
  pose proof (delete_credential_try_run id _ wid wuser db Hid Hu) as Htry.
  unfold run, try_catch in *.
  destruct (AuthApi.delete_credential_try id _ _) as [r c'] eqn:Hr. simpl in Htry.
  rewrite own_credential_lookup in Htry.
  unfold mret, Run_ret.
  assert (committed c' = db
          ∨ ∃ k c, wid = Some k ∧ credentials db !! k = Some c
                   ∧ wuser = Some (UserCredential.userId c)
                   ∧ live c = true ∧ beforeValidate c = inr ()
                   ∧ r = inr (json 200 "Credential deleted successfully")
                   ∧ committed c' = rewritten db k (AuthApi.soft_deleted c)) as Hcase.
  { destruct wid as [k|]; [|left; by simplify_eq].
    destruct (credentials db !! k) as [c|] eqn:Hc; [|left; by simplify_eq].
    destruct (col_is wuser _) eqn:Hown; simpl in Htry; [|left; by simplify_eq].
    destruct (live c) eqn:Hlive; simpl in Htry; [|left; by simplify_eq].
    destruct (_ <=? 1)%nat; [left; by simplify_eq|].
    destruct (beforeValidate c) as [e|[]] eqn:Hhook; [left; by simplify_eq|].
    right. exists k, c. apply col_is_Some in Hown. by simplify_eq. }
  destruct Hcase as [Hs|(k & c & -> & Hc & -> & Hlive & Hhook & -> & Hs)].
  - left. by destruct r.
  - right. exists k, c. simpl. rewrite Hs. split_and!; try done.
    simpl in Hid. destruct (pg_int4in id); by simplify_eq.
Qed.

Lemma authenticated_as_Some `{Platform} cfg now req uid :
  authenticated_as cfg now req = Some uid →
  ∃ req', AuthApi.authenticateToken cfg now req = Next req'
          ∧ where_int (AuthApi.decoded_userId req') = inr (Some uid).
Proof.
  unfold authenticated_as. intros Ha.
  destruct (AuthApi.authenticateToken cfg now req) as [req'|]; [|done].
  exists req'. split; [done|].
  destruct (where_int _) as [|w]; [done|]. by subst.
Qed.


(** C10: the delete route touches no credential of another user.  For a
    credential [c] the authenticated user does not own, any call leaves the
    row of [c] as it was, and the call that names [c] itself is answered
    404 "Credential not found" with the store as it was (when the request
    is not authenticated as anyone, the store is as it was too). *)
Theorem delete_credential_scoped_to_owner `{Platform} cfg now req id id' db k c :
  credentials db !! k = Some c →
  authenticated_as cfg now req ≠ Some (UserCredential.userId c) →
  pg_int4in id' = Some k →
  credentials (run (AuthApi.delete_credential cfg now req id) db).2 !! k = Some c
  ∧ match authenticated_as cfg now req with
    | Some _ =>
        run (AuthApi.delete_credential cfg now req id') db
        = (inr (json 404 "Credential not found"), db)
    | None => (run (AuthApi.delete_credential cfg now req id') db).2 = db
    end.
Proof.
  intros Hc Hother Hid'. split.
  - destruct (delete_credential_changes cfg now req id db)
      as [->|(k0 & c0 & _ & Hc0 & Hauth & _ & _ & ->)]; [done|].
    simpl. destruct (decide (k0 = k)) as [->|Hne].
    + rewrite Hc in Hc0. by simplify_eq.
    + by rewrite lookup_insert_ne.
  - destruct (authenticated_as cfg now req) as [uid|] eqn:Hauth.
    + apply authenticated_as_Some in Hauth as (req' & Hnext & Hu).
      unfold AuthApi.delete_credential. rewrite Hnext.
      assert (where_int (JStr id') = inr (Some k)) as Hwid by (simpl; by rewrite Hid').
      pose proof (delete_credential_try_run id' _ _ _ db Hwid Hu) as Htry.
      rewrite own_credential_lookup, Hc in Htry. simpl in Htry.
      destruct (Z.eqb_spec (UserCredential.userId c) uid) as [<-|_]; [done|].
      simpl in Htry.
      unfold run, try_catch in *.
      destruct (AuthApi.delete_credential_try id' _ _) as [r c'].
      simplify_eq; simpl; congruence.
    + destruct (delete_credential_changes cfg now req id' db)
        as [->|(k0 & c0 & _ & _ & Hauth' & _)]; [done|]. congruence.
Qed.

(** ** Changing the password *)

(** The handler never reads the users table: with any other users table
    it gives the same answer and writes the same credentials. *)
Lemma change_password_ignores_users `{Platform} cfg now salt req cur new db us :
  run (AuthApi.post_change_password cfg now salt req cur new) (with_users db us)
  = let '(r, db') := run (AuthApi.post_change_password cfg now salt req cur new) db in
    (r, with_users db' us).
Proof.
  unfold AuthApi.post_change_password.
  destruct (AuthApi.authenticateToken cfg now req) as [req'|st msg]; [|done].
  destruct cur as [cur|], new as [new|]; try done.
  destruct (_ || _); [done|].
  destruct (_ <? 8)%nat; [done|].
  unfold AuthApi.change_password_try, run. unfold_run. simpl.
  destruct (where_int _) as [e|w]; [done|]. simpl.
  destruct (findOne _ _) as [cred|]; [|done]. simpl.
  destruct (compare_hash _ _) as [e|[]]; simpl; try done.
  unfold update_credential. simpl.
  destruct (UserCredential_update _ _ _); done.
Qed.

(** A password of 8 code units or more is not the empty string. *)
Lemma js_length_nonempty s : (8 ≤ js_length s)%nat → s ≠ "".
Proof. intros Hl ->. simpl in Hl. lia. Qed.

(** The query for the live password credential of a user that has one
    only returns it, whatever the order of the rows. *)
Lemma sole_password_credential_findOne (m : gmap Z UserCredential.t) uid k c :
  sole_password_credential m uid k c →
  findOne (password_credential_where (Some uid)) m = Some (k, c).
Proof.
  intros (Hc & Hown & Hat & Hlive & Honly).
  apply findOne_unique; [done| |].
  - unfold password_credential_where. simpl.
    rewrite Hown, Z.eqb_refl, Hat, Hlive. done.
  - intros k' c' Hc' Hw. unfold password_credential_where in Hw. simpl in Hw.
    repeat (apply andb_prop in Hw as [Hw ?]).
    apply Z.eqb_eq in Hw. apply (Honly k' c'); try done.
    by apply String.eqb_eq.
Qed.

Lemma sole_password_credential_singleton k c :
  UserCredential.authType c = "password" → live c = true →
  sole_password_credential {[k := c]} (UserCredential.userId c) k c.
Proof.
  intros Hat Hlive. split_and!; try done; [by rewrite lookup_singleton_eq|].
  by intros k' c' [<- _]%lookup_singleton_Some _ _ _.
Qed.

Lemma set_password_replaced c hash salt now :
  password_replaced c (set_password c hash salt now) hash salt now.
Proof. by repeat split. Qed.

(** The hook passes a password credential whose new hash is not empty and
    that holds no OpenID provider. *)
Lemma beforeValidate_set_password c hash salt now :
  UserCredential.authType c = "password" →
  hash ≠ "" →
  truthy_str (UserCredential.openIdProvider c) = false →
  beforeValidate (set_password c hash salt now) = inr ().
Proof.
  intros Hat Hhash Hprov. unfold beforeValidate. simpl.
  rewrite Hat, Hprov. simpl.
  destruct (String.eqb_spec hash ""); done.
Qed.

(** The change-password route with the current password of the user's one
    live password credential. *)
Lemma change_password_run `{Platform} cfg now salt req cur new db uid k c h :
  authenticated_as cfg now req = Some uid →
  sole_password_credential (credentials db) uid k c →
  UserCredential.passwordHash c = Some h →
  bcrypt_compare cur h = true →
  cur ≠ "" →
  (8 ≤ js_length new)%nat →
  bcrypt_hash new salt ≠ "" →
  truthy_str (UserCredential.openIdProvider c) = false →
  run (AuthApi.post_change_password cfg now salt req (Some cur) (Some new)) db
  = (inr (json 200 "Password changed successfully"),
     rewritten db k (set_password c (bcrypt_hash new salt) salt now)).
Proof.
  intros Hauth Hsole Hh Hcmp Hcur Hlen Hhash Hprov.
  pose proof (sole_password_credential_findOne _ _ _ _ Hsole) as Hf.
  destruct Hsole as (_ & _ & Hat & _).
  apply authenticated_as_Some in Hauth as (req' & Hnext & Hwu).
  unfold AuthApi.post_change_password. rewrite Hnext.
  rewrite !truthy_str_Some by (done || by apply js_length_nonempty). simpl.
  destruct (Nat.ltb_spec (js_length new) 8) as [?|_]; [lia|].
  unfold AuthApi.change_password_try, run. unfold_run. simpl.
  rewrite Hwu. simpl. rewrite Hf. simpl.
  unfold compare_hash. rewrite Hh. simpl. rewrite Hcmp. simpl.
  unfold update_credential, UserCredential_update, AuthApi.hashPassword.
  simpl. by rewrite beforeValidate_set_password.
Qed.

(** C9: change-password checks the token and the credential, never the
    user.  Whatever the request, the handler's answer and the credentials
    it writes are the same with any other users table in place of the
    store's: it never reads a user row.  In particular, a request whose
    token verifies (signature and expiry) for the user [uid], whose one
    live password credential is [c] with a hash the current password
    verifies, and with a new password of 8 code units or more, gets 200 and
    the new hash, salt and date written to [c] with the expired flag
    cleared, whatever the users table holds for [uid]: active, inactive,
    deleted or nothing at all.  No other row changes. *)
Theorem change_password_without_user_check `{Platform} cfg now salt req cur new db
    uid k c h us :
  authenticated_as cfg now req = Some uid →
  sole_password_credential (credentials db) uid k c →
  UserCredential.passwordHash c = Some h →
  bcrypt_compare cur h = true →
  cur ≠ "" →
  (8 ≤ js_length new)%nat →
  bcrypt_hash new salt ≠ "" →
  truthy_str (UserCredential.openIdProvider c) = false →
  (∀ req0 cur0 new0 db0,
     run (AuthApi.post_change_password cfg now salt req0 cur0 new0) (with_users db0 us)
     = let '(r, db') :=
         run (AuthApi.post_change_password cfg now salt req0 cur0 new0) db0 in
       (r, with_users db' us))
  ∧ ∃ c',
      password_replaced c c' (bcrypt_hash new salt) salt now
      ∧ run (AuthApi.post_change_password cfg now salt req (Some cur) (Some new))
            (with_users db us)
        = (inr (json 200 "Password changed successfully"),
           with_users (rewritten db k c') us).
Proof.
  intros Hauth Hsole Hh Hcmp Hcur Hlen Hhash Hprov.
  split; [intros; apply change_password_ignores_users|].
  exists (set_password c (bcrypt_hash new salt) salt now).
  split; [apply set_password_replaced|].
  rewrite change_password_ignores_users.
  by rewrite (change_password_run cfg now salt req cur new db uid k c h).
Qed.

(** ** The credential invariant *)

(** What the hook lets through. *)
Lemma beforeValidate_ok c :
  beforeValidate c = inr () →
  (UserCredential.authType c = "password" →
     truthy_str (UserCredential.passwordHash c) = true
     ∧ truthy_str (UserCredential.openIdProvider c) = false)
  ∧ (UserCredential.authType c = "openid" →
       truthy_str (UserCredential.openIdProvider c) = true
       ∧ truthy_str (UserCredential.passwordHash c) = false).
Proof.
  unfold beforeValidate. intros Hh. split; intros Hat; rewrite Hat in Hh; simpl in Hh.
  - destruct (truthy_str (UserCredential.passwordHash c)),
      (truthy_str (UserCredential.openIdProvider c)); done.
  - destruct (truthy_str (UserCredential.passwordHash c)),
      (truthy_str (UserCredential.openIdProvider c)); done.
Qed.

Lemma mutual_exclusive_soft_deleted c :
  mutual_exclusive c → mutual_exclusive (AuthApi.soft_deleted c).
Proof. done. Qed.

Lemma mutual_exclusive_set_password c h s t :
  mutual_exclusive c →
  UserCredential.authType c = "password" →
  beforeValidate (set_password c h s t) = inr () →
  mutual_exclusive (set_password c h s t).
Proof.
  intros [Hpw _] Hat Hhook. apply beforeValidate_ok in Hhook as [Hhook _].
  split; simpl; intros Hat'.
  - split; [by apply Hhook|by apply Hpw].
  - rewrite Hat in Hat'. done.
Qed.

Lemma mutual_exclusive_registered `{Platform} now salt uid l p :
  beforeValidate (registered_credential now salt uid l p) = inr () →
  mutual_exclusive (registered_credential now salt uid l p).
Proof.
  intros [Hhook _]%beforeValidate_ok. split; simpl; intros Hat; [|done].
  split; [by apply Hhook|done].
Qed.

Lemma mutual_exclusive_openid uid l p s :
  truthy_str (Some p) = true → truthy_str (Some s) = true →
  mutual_exclusive (openid_credential uid l p s).
Proof. intros Hp Hs. split; simpl; intros Hat; done. Qed.

Lemma store_ok_rewritten db k c' :
  store_ok db → mutual_exclusive c' → store_ok (rewritten db k c').
Proof. intros Hok Hc. unfold store_ok, rewritten. simpl. by apply map_Forall_insert_2. Qed.

Lemma store_ok_credentials db db' :
  credentials db' = credentials db → store_ok db → store_ok db'.
Proof. unfold store_ok. by intros ->. Qed.

Lemma store_ok_password_rewrite db db' :
  store_ok db → password_rewrite db db' → store_ok db'.
Proof.
  intros Hok [->|(k & c & h & s & t & Hc & Hat & Hhook & ->)]; [done|].
  apply store_ok_rewritten; [done|].
  apply mutual_exclusive_set_password; [by eapply Hok|done|done].
Qed.

Lemma password_credential_where_Some w (m : gmap Z UserCredential.t) cred :
  findOne (password_credential_where w) m = Some cred →
  m !! pk cred = Some (row cred) ∧ UserCredential.authType (row cred) = "password".
Proof.
  intros [Hc Hw]%findOne_Some. split; [done|].
  unfold password_credential_where in Hw.
  repeat (apply andb_prop in Hw as [Hw ?]). by apply String.eqb_eq.
Qed.

Lemma post_login_store `{Platform} cfg now l p db :
  (run (AuthApi.post_login cfg now l p) db).2 = db.
Proof.
  unfold AuthApi.post_login.
  destruct l as [l|], p as [p|]; try done.
  destruct (_ || _); [done|].
  unfold AuthApi.login_try, run. unfold_run. simpl.
  destruct (AuthApi.login_query db l) as [[cred cuser]|]; [|done]. simpl.
  destruct (UserCredential.passwordExpired _); [done|].
  destruct (compare_hash _ _) as [e|[]]; done.
Qed.

Lemma post_reset_password_request_store cfg now mail_ok email db :
  (run (AuthApi.post_reset_password_request cfg now mail_ok email) db).2 = db.
Proof.
  unfold AuthApi.post_reset_password_request.
  destruct email as [e|]; [|done].
  destruct (negb _); [done|].
  unfold run. unfold_run. simpl.
  destruct (UserService.find_user_by_email e db); [|done].
  by destruct mail_ok.
Qed.

Lemma post_change_password_changes `{Platform} cfg now salt req cur new db :
  password_rewrite db
    (run (AuthApi.post_change_password cfg now salt req cur new) db).2.
Proof.
  unfold AuthApi.post_change_password.
  destruct (AuthApi.authenticateToken cfg now req) as [req'|st msg]; [|by left].
  destruct cur as [cur|], new as [new|]; try by left.
  destruct (_ || _); [by left|].
  destruct (_ <? 8)%nat; [by left|].
  unfold AuthApi.change_password_try, run. unfold_run. simpl.
  destruct (where_int _) as [e|w]; [by left|]. simpl.
  destruct (findOne _ _) as [cred|] eqn:Hf; [|by left]. simpl.
  apply password_credential_where_Some in Hf as [Hc Hat].
  destruct (compare_hash _ _) as [e|[]]; simpl; try by left.
  unfold update_credential, UserCredential_update. simpl.
  destruct (beforeValidate _) as [e|[]] eqn:Hhook; simpl; [by left|].
  right. by eexists _, _, _, _, _.
Qed.

Lemma post_reset_password_confirm_changes `{Platform} cfg now salt tok new db :
  password_rewrite db
    (run (AuthApi.post_reset_password_confirm cfg now salt tok new) db).2.
Proof.
  unfold AuthApi.post_reset_password_confirm.
  destruct tok as [tok|], new as [new|]; try by left.
  destruct (_ || _); [by left|].
  destruct (_ <? 8)%nat; [by left|].
  unfold AuthApi.reset_confirm_try, run. unfold_run. simpl.
  destruct (jwt_verify _ _ _) as [e|decoded]; simpl.
  { left. by destruct (_ || _). }
  destruct (where_int _) as [e|w]; simpl.
  { left. by destruct (_ || _). }
  destruct (findOne _ _) as [cred|] eqn:Hf; [|by left]. simpl.
  apply password_credential_where_Some in Hf as [Hc Hat].
  unfold update_credential, UserCredential_update. simpl.
  destruct (beforeValidate _) as [e|[]] eqn:Hhook; simpl.
  { left. by destruct (_ || _). }
  right. by eexists _, _, _, _, _.
Qed.

Lemma changePassword_changes `{Platform} now salt userId cur new db :
  password_rewrite db
    (run (UserService.changePassword now salt userId cur new) db).2.
Proof.
  unfold UserService.changePassword, UserService.changePassword_try, run.
  unfold_run. simpl.
  destruct (where_int _) as [e|w]; [by left|]. simpl.
  destruct (findOne _ _) as [cred|] eqn:Hf; [|by left]. simpl.
  apply findOne_Some in Hf as [Hc Hw].
  unfold UserService.changePassword_where in Hw.
  apply andb_prop in Hw as [Hw _].
  unfold password_credential_where in Hw.
  repeat (apply andb_prop in Hw as [Hw ?]).
  destruct (where_str cur) as [e|cur']; [by left|]. simpl.
  destruct (compare_hash _ _) as [e|[]]; simpl; try by left.
  destruct (UserService.hashPassword new salt) as [e|hs]; [by left|]. simpl.
  unfold update_credential, UserCredential_update. simpl.
  destruct (beforeValidate _) as [e|[]] eqn:Hhook; simpl; [by left|].
  right. eexists _, _, _, _, _. split_and!; try done. by apply String.eqb_eq.
Qed.

Lemma register_outcome_store_ok `{Platform} cfg now salt a db r db' :
  register_outcome cfg now salt a db r db' → store_ok db → store_ok db'.
Proof.
  destruct r as [e|b]; simpl; [by intros ->|].
  intros (u & c & us & l & p & _ & _ & _ & _ & _ & Hrow & Hhook & -> & _) Hok.
  unfold store_ok. simpl. apply map_Forall_insert_2; [|done].
  rewrite Hrow in *. by apply mutual_exclusive_registered.
Qed.

(** Every call keeps the invariant. *)
Lemma exec_store_ok `{Platform} cfg db call :
  store_ok db → store_ok (exec cfg db call).
Proof.
  intros Hok. destruct call; simpl.
  - by rewrite post_login_store.
  - pose proof (post_register_run cfg now salt a db) as Hout.
    unfold register_route_outcome in Hout.
    destruct (run (AuthApi.post_register cfg now salt a) db) as [[e|resp] db']; [done|].
    simpl in *. destruct (status resp =? 201)%nat; [|by subst].
    exact (register_outcome_store_ok cfg now salt a db (inr (body resp)) db' Hout Hok).
  - exact (register_outcome_store_ok _ _ _ _ _ _ _ (registerUser_run cfg now salt a db) Hok).
  - pose proof (post_openid_run cfg now a db) as Hout.
    destruct (run (AuthApi.post_openid cfg now a) db) as [[e|[resp [cred|]]] db'];
      simpl in *.
    + by subst.
    + destruct Hout as (p & s & l & usr & _ & _ & _ & Hp & Hs & _ & _ & _ & _ & _ & _ & Hcase).
      destruct Hcase as [[_ Heq]|(_ & _ & Hrow & _ & Heq)].
      * by eapply store_ok_credentials.
      * unfold store_ok. rewrite Heq. apply map_Forall_insert_2; [|done].
        rewrite Hrow. by apply mutual_exclusive_openid.
    + destruct Hout as [-> _]. done.
  - eapply store_ok_password_rewrite; [done|apply changePassword_changes].
  - eapply store_ok_password_rewrite; [done|apply post_change_password_changes].
  - by rewrite post_reset_password_request_store.
  - eapply store_ok_password_rewrite; [done|apply post_reset_password_confirm_changes].
  - destruct (delete_credential_changes cfg now req credentialId db)
      as [->|(k & c & _ & Hc & _ & _ & _ & ->)]; [done|].
    simpl. apply store_ok_rewritten; [done|].
    apply mutual_exclusive_soft_deleted. by eapply Hok.
Qed.

(** C5: every persisted credential is mutually exclusive.  Starting from a
    store whose credentials all are (the empty one, say), after any
    sequence of calls to the entry points that create or update
    credentials, every credential in the store is: a password credential
    has a hash and no OpenID provider, an OpenID credential has a provider
    and a subject and no hash.  The hook rejects the rest before the row is
    written; the subject of an OpenID credential is the one the route
    requires. *)
Theorem credentials_stay_mutually_exclusive `{Platform} cfg db calls k c :
  store_ok db →
  credentials (foldl (exec cfg) db calls) !! k = Some c →
  mutual_exclusive c.
Proof.
  intros Hok Hc.
  assert (store_ok (foldl (exec cfg) db calls)) as Hfin.
  { clear Hc. revert db Hok. induction calls as [|call calls IH]; intros db Hok; [done|].
    simpl. apply IH. by apply exec_store_ok. }
  by eapply Hfin.
Qed.


(** * More of the code *)

(** ** What a request that passed the Guard carries *)

(** The request the Guard hands on, in full. *)
Lemma authGuard_Next `{Platform} cfg now db req r :
  Middleware.authGuard cfg now db req = Next r →
  ∃ tok decoded uid u,
    bearer req = Some tok
    ∧ jwt_verify tok (jwt_secret cfg) now = inr decoded
    ∧ where_int (get decoded "userId") = inr (Some uid)
    ∧ users db !! uid = Some u
    ∧ live_user u = true
    ∧ truthy (get (guard_user decoded) "userId") = true
    ∧ r = {| authorization := authorization req;
             req_user := Some (guard_user decoded);
             userRecord := Some {| instance := (uid, u);
                                   role := Middleware.load_role db u;
                                   userId_prop := if truthy (get decoded "userId")
                                                  then None else Some uid |};
             req_permissions := match Middleware.load_role db u with
                                | Some ro => map code (role_permissions ro)
                                | None => []
                                end |}.
Proof.
  unfold Middleware.authGuard, guard_user. intros Hg.
  destruct (bearer req) as [tok|]; [|done].
  destruct (jwt_verify tok _ now) as [e|decoded] eqn:Hv.
  { unfold Middleware.authGuard_catch in Hg. by repeat case_match. }
  unfold Middleware.find_live_user in Hg.
  destruct (where_int _) as [e|[uid|]] eqn:Hw.
  { unfold Middleware.authGuard_catch in Hg. by repeat case_match. }
  2: done.
  destruct (users db !! uid) as [u|] eqn:Hu; [|done].
  fold (live_user u) in Hg.
  destruct (live_user u) eqn:Hl; [|done].
  exists tok, decoded, uid, u.
  destruct (truthy (get decoded "userId")) eqn:Ht; simpl in Hg.
  - rewrite Ht in Hg. simpl in Hg. by simplify_eq.
  - destruct (truthy (get (set decoded "userId" (get decoded "id")) "userId")) eqn:Ht';
      simpl in Hg; by simplify_eq.
Qed.

Lemma authenticateToken_of_verified cfg now req tok decoded :
  bearer req = Some tok →
  jwt_verify tok (jwt_secret cfg) now = inr decoded →
  Middleware.authenticateToken cfg now req
  = Next {| authorization := authorization req; req_user := Some decoded;
            userRecord := userRecord req; req_permissions := req_permissions req |}.
Proof. intros Hb Hv. unfold Middleware.authenticateToken. by rewrite Hb, Hv. Qed.

(** X1: what a request that passed the Guard carries.  Whenever [authGuard]
    calls [next()], the header held a token that verified; [req.user] is
    the payload that token decoded to (itself when its [userId] is truthy,
    otherwise with [userId] set from its [id]), and its [userId] is truthy;
    [req.userRecord] is the row of the user the token's [userId] names, a
    row of the store that is active and not deleted, with the role the
    store holds for that user; and the plain [authenticateToken] accepts
    the same request too, with the same decoded payload. *)
Theorem authGuard_postcondition `{Platform} cfg now db req r :
  Middleware.authGuard cfg now db req = Next r →
  ∃ tok decoded uid ur,
    bearer req = Some tok
    ∧ jwt_verify tok (jwt_secret cfg) now = inr decoded
    ∧ req_user r = Some (guard_user decoded)
    ∧ (truthy (get decoded "userId") = true → req_user r = Some decoded)
    ∧ truthy (get (guard_user decoded) "userId") = true
    ∧ where_int (get decoded "userId") = inr (Some uid)
    ∧ userRecord r = Some ur
    ∧ pk (instance ur) = uid
    ∧ users db !! uid = Some (row (instance ur))
    ∧ live_user (row (instance ur)) = true
    ∧ role ur = Middleware.load_role db (row (instance ur))
    ∧ ∃ r0, Middleware.authenticateToken cfg now req = Next r0
            ∧ req_user r0 = Some decoded.
Proof.
  intros (tok & decoded & uid & u & Hb & Hv & Hw & Hu & Hl & Ht & ->)%authGuard_Next.
  exists tok, decoded, uid. eexists. simpl. split_and!; try done.
  - intros Htruthy. unfold guard_user. by rewrite Htruthy.
  - eexists. split; [exact (authenticateToken_of_verified _ _ _ _ _ Hb Hv)|done].
Qed.




(** The permissions of a role are those the join table links to it. *)
Lemma elem_of_role_permissions_of db rid p :
  p ∈ Middleware.role_permissions_of db rid ↔
  ∃ pid prow, (rid, pid) ∈ rolePermissions db
              ∧ permissions db !! pid = Some prow
              ∧ p = {| code := Permission.code prow |}.
Proof.
  unfold Middleware.role_permissions_of. rewrite list_elem_of_omap. split.
  - intros ([r pid] & Hin & Hp). simpl in Hp.
    destruct (Z.eqb_spec r rid) as [->|]; [|done].
    destruct (permissions db !! pid) as [prow|] eqn:Hl; simpl in Hp; [|done].
    simplify_eq. eauto.
  - intros (pid & prow & Hin & Hl & ->). exists (rid, pid). split; [done|].
    simpl. by rewrite Z.eqb_refl, Hl.
Qed.

(** X3: the permission codes the Guard attaches.  For a request that
    passed, a code is in [req.permissions] exactly when the user's role
    exists and the join table links it to a permission with that code: the
    codes are read from the store at the time of the request, not from the
    token. *)
Theorem authGuard_attaches_live_codes `{Platform} cfg now db req r c :
  Middleware.authGuard cfg now db req = Next r →
  c ∈ req_permissions r ↔
  ∃ ur rid pid prow,
    userRecord r = Some ur
    ∧ User.roleId (row (instance ur)) = Some rid
    ∧ is_Some (roles db !! rid)
    ∧ (rid, pid) ∈ rolePermissions db
    ∧ permissions db !! pid = Some prow
    ∧ Permission.code prow = c.
Proof.
  intros (tok & decoded & uid & u & Hb & Hv & Hw & Hu & Hl & Ht & ->)%authGuard_Next.
  simpl. unfold Middleware.load_role.
  destruct (User.roleId u) as [rid|] eqn:Hr.
  - destruct (roles db !! rid) as [ro|] eqn:Hro; simpl.
    + rewrite list_elem_of_fmap. split.
      * intros (p & -> & (pid & prow & Hin & Hp & ->)%elem_of_role_permissions_of).
        eexists _, rid, pid, prow. simpl. split_and!; eauto.
      * intros (ur & rid' & pid & prow & [= <-] & Hr' & _ & Hin & Hp & <-).
        simpl in Hr'. rewrite Hr in Hr'. simplify_eq.
        eexists. split; [|apply elem_of_role_permissions_of; eauto]. done.
    + split; [by intros ?%elem_of_nil|].
      intros (ur & rid' & pid & prow & [= <-] & Hr' & [? Hsome] & _).
      simpl in Hr'. rewrite Hr in Hr'. simplify_eq.
  - split; [by intros ?%elem_of_nil|].
    intros (ur & rid' & pid & prow & [= <-] & Hr' & _).
    simpl in Hr'. rewrite Hr in Hr'. done.
Qed.

Lemma get_set_ne (o : jsobject) k k' v : k ≠ k' → get (set o k v) k' = get o k'.
Proof.
  intros Hne. induction o as [|[k0 v0] o IH]; simpl.
  - destruct (String.eqb_spec k k'); [done|]. done.
  - destruct (String.eqb_spec k0 k) as [->|Hk]; simpl.
    + destruct (String.eqb_spec k k'); [done|]. done.
    + destruct (String.eqb_spec k0 k'); [done|]. done.
Qed.

Lemma guard_user_roleId decoded : get (guard_user decoded) "roleId" = get decoded "roleId".
Proof.
  unfold guard_user. destruct (truthy _); [done|]. by apply get_set_ne.
Qed.

Lemma bearer_Jwt_verified req tok secret now decoded :
  bearer req = Some (Jwt tok) → jwt_verify (Jwt tok) secret now = inr decoded →
  decoded = payload tok.
Proof.
  intros _. simpl. destruct (negb _); [done|]. destruct (_ <=? _)%Z; [done|].
  by intros [= <-].
Qed.

(** X5: the admin bypass of the owner gate reads the token.  A request that
    passed the Guard with a token whose [roleId] claim is 1 passes
    [ownerGuard] for every resource whose owner the resolver can determine,
    whoever the owner is and whatever role the store now holds for the
    user. *)
Theorem ownerGuard_admin_claim `{Platform} cfg now db req r tok resolver owner :
  Middleware.authGuard cfg now db req = Next r →
  bearer req = Some (Jwt tok) →
  get (payload tok) "roleId" = JNum 1 →
  resolver r = inr owner →
  Gates.ownerGuard resolver r = Next r.
Proof.
  intros Hg Hb Hrole Hres.
  pose proof Hg as (tok' & decoded & uid & u & Hb' & Hv & Hw & Hu & Hl & Ht & Hr)%authGuard_Next.
  rewrite Hb in Hb'. simplify_eq.
  pose proof (bearer_Jwt_verified _ _ _ _ _ Hb Hv) as ->.
  unfold Gates.ownerGuard. simpl. rewrite Hres.
  simpl in Hres. rewrite guard_user_roleId, Hrole. simpl.
  by rewrite orb_true_r.
Qed.

(** X6: without the admin claim, the owner gate of the profile routes
    ([GET] and [PUT /:email]) opens one's own profile only: for a token with
    a numeric [userId] and a [roleId] other than 1, it calls [next()] exactly
    when the user of that id has the requested address and is not deleted,
    and answers 403 otherwise (also when nobody has the address). *)
Theorem profile_gate_own_profile_only db email (req : Request) decoded uid :
  unique_email (users db) →
  req_user req = Some decoded →
  get decoded "userId" = JNum uid →
  Gates.strict_eq (get decoded "roleId") (JNum 1) = false →
  Gates.ownerGuard (Gates.profile_owner db email) req
  = match users db !! uid with
    | Some u =>
        if String.eqb (User.email u) email && negb (User.isDeleted u)
        then Next req
        else Respond 403 "You do not have permission to access this resource"
    | None => Respond 403 "You do not have permission to access this resource"
    end.
Proof.
  intros Huniq Hreq Hid Hrole.
  unfold Gates.ownerGuard, Gates.profile_owner. rewrite Hreq, Hid, Hrole.
  destruct (findOne _ _) as [[k u']|] eqn:Hf.
  - apply findOne_Some in Hf as [Hk HP]. simpl in *.
    apply andb_prop in HP as [He Hd]. apply String.eqb_eq in He.
    destruct (Z.eqb_spec uid k) as [->|Hne]; simpl.
    + rewrite Hk, Hd. by rewrite (proj2 (String.eqb_eq _ _) He).
    + destruct (users db !! uid) as [u|] eqn:Hu; [|done].
      destruct (String.eqb_spec (User.email u) email) as [Heq|]; [|done].
      exfalso. apply Hne. eapply Huniq; eauto. congruence.
  - rewrite findOne_None in Hf. simpl.
    destruct (users db !! uid) as [u|] eqn:Hu; [|done].
    specialize (Hf _ _ Hu). simpl in Hf. by rewrite Hf.
Qed.

(** X4: the role gate after [authenticateToken].  [authorizeRoles(...roles)]
    lets the request through exactly when the [roleId] claim of the token is
    a number among [roles]; a token without the claim, or with a null or
    string one, is answered 403.  The store is not consulted. *)
Theorem authorizeRoles_after_token cfg now req r tok roles :
  Middleware.authenticateToken cfg now req = Next r →
  bearer req = Some (Jwt tok) →
  Gates.authorizeRoles roles r
  = match get (payload tok) "roleId" with
    | JNum n =>
        if decide (n ∈ roles) then Next r
        else Respond 403 "Insufficient permissions to access this resource"
    | _ => Respond 403 "Insufficient permissions to access this resource"
    end.
Proof.
  unfold Middleware.authenticateToken. intros Ha Hb. rewrite Hb in Ha.
  destruct (jwt_verify _ _ _) as [|decoded] eqn:Hv; [done|].
  pose proof (bearer_Jwt_verified _ _ _ _ _ Hb Hv) as ->. simplify_eq.
  unfold Gates.authorizeRoles. simpl.
  destruct (get (payload tok) "roleId") as [| |n|]; try done. simpl.
  destruct (existsb (Z.eqb n) roles) eqn:He; simpl.
  - apply existsb_exists in He as (x & Hin & ->%Z.eqb_eq).
    apply list_elem_of_In in Hin. by rewrite decide_True.
  - rewrite decide_False; [done|]. intros Hin.
    assert (existsb (Z.eqb n) roles = true) as Ht; [|congruence].
    apply existsb_exists. exists n. split; [by apply list_elem_of_In|apply Z.eqb_refl].
Qed.

(** ** The life of a session token *)

(** Every token a flow answers with was signed by one of the two
    [generateToken] for a user that is in the store. *)
Lemma issued_token_by `{Platform} cfg now f db resp db' tok :
  run (authenticate cfg now f) db = (inr resp, db') →
  token (body resp) = Some tok →
  ∃ u c,
    users db' !! pk u = Some (row u)
    ∧ (tok = AuthApi.generateToken cfg now u c
       ∨ tok = UserService.generateToken cfg now u c).
Proof.
  intros Hrun Htok. destruct f as [l p|salt a|a]; simpl in Hrun.
  - destruct (post_login_token _ _ _ _ _ _ _ _ Hrun Htok)
      as (l' & cred & cuser & -> & Hq & -> & ->).
    apply login_query_Some in Hq as (Hc & Hu & Hown & _).
    exists cuser, cred. split; [done|by left].
  - pose proof (post_register_run cfg now salt a db) as Hout.
    rewrite Hrun in Hout. simpl in Hout.
    destruct (Nat.eqb_spec (status resp) 201) as [Hst|Hst].
    + destruct Hout as (u & c & us & l & p & _ & _ & _ & Hu & Hfresh & Hrow & _ & -> & Hb).
      rewrite Hb in Htok. simpl in Htok. simplify_eq.
      exists u, c. split; [done|by right].
    + exfalso. revert Hrun Htok Hst. unfold AuthApi.post_register.
      destruct (_ || _); [unfold_run; intros; by simplify_eq|].
      unfold run, try_catch, mbind, Run_bind, mret, Run_ret.
      destruct (UserService.registerUser cfg now salt a _) as [[e|b] c']; simpl;
        intros; by simplify_eq.
  - pose proof (post_openid_run cfg now a db) as Hout.
    unfold run in Hrun, Hout. unfold mbind, Run_bind, mret, Run_ret in Hrun.
    destruct (AuthApi.post_openid cfg now a _) as [[e|[resp' [cred|]]] c'] eqn:Hpo;
      simpl in *; [done| |].
    + simplify_eq.
      destruct Hout as (p & s & l & usr & _ & _ & _ & _ & _ & _ & Ht & _ & Hu & _).
      rewrite Ht in Htok. simplify_eq.
      exists usr, cred. split; [done|by left].
    + simplify_eq. destruct Hout as [_ Hnone]. congruence.
Qed.

Lemma authGuard_expired `{Platform} cfg now db scheme tok :
  String.eqb (signed_with tok) (jwt_secret cfg) = true →
  (exp tok ≤ now)%Z →
  Middleware.authGuard cfg now db (incoming (Some [scheme; Jwt tok]))
  = Respond 403 "Token expired".
Proof.
  intros Hsig Hexp. unfold Middleware.authGuard, bearer, jwt_verify. simpl.
  rewrite Hsig. simpl. destruct (Z.leb_spec (exp tok) now) as [_|?]; [done|lia].
Qed.

(** X7: the life of a session token.  A token answered by login, register
    or OpenID names a user of the store in its [userId] claim; presented to
    the Guard at a later time, against whatever the store then is, it is
    answered 403 "Token expired" from [expiresIn] seconds after it was
    signed, and before that the Guard decides on the user row alone (it must
    be there, active and not deleted). *)
Theorem session_token_lifetime `{Platform} cfg now f db resp db' tok now' live_db scheme :
  run (authenticate cfg now f) db = (inr resp, db') →
  token (body resp) = Some tok →
  ∃ uid,
    get (payload tok) "userId" = JNum uid
    ∧ is_Some (users db' !! uid)
    ∧ Middleware.authGuard cfg now' live_db (incoming (Some [scheme; Jwt tok]))
      = if (now' <? now + jwt_expiresIn cfg)%Z
        then guard_outcome live_db [scheme; Jwt tok] (payload tok) uid
        else Respond 403 "Token expired".
Proof.
  intros Hrun Htok.
  destruct (issued_token_by _ _ _ _ _ _ _ Hrun Htok) as (u & c & Hu & Hby).
  exists (pk u).
  assert (get (payload tok) "userId" = JNum (pk u)
          ∧ truthy (get (payload tok) "id") = false
          ∧ signed_with tok = jwt_secret cfg
          ∧ exp tok = (now + jwt_expiresIn cfg)%Z) as (Hid & Hnoid & Hsig & Hexp).
  { destruct Hby as [->| ->]; simpl; unfold json_roundtrip; simpl;
      destruct (User.roleId (row u)); done. }
  split; [done|]. split; [by eexists|].
  destruct (Z.ltb_spec now' (now + jwt_expiresIn cfg)).
  - apply authGuard_numeric_userId; try done; [|lia].
    rewrite Hsig. apply String.eqb_refl.
  - apply authGuard_expired; [|lia]. rewrite Hsig. apply String.eqb_refl.
Qed.

(** ** Resetting and changing the password *)


(** Login with a login name that one live password credential of a live
    user matches. *)
Lemma post_login_found `{Platform} cfg now db k c u h l p :
  credentials db !! k = Some c →
  AuthApi.login_where db l (k, c) = true →
  (∀ k' c', credentials db !! k' = Some c' →
            AuthApi.login_where db l (k', c') = true → k' = k) →
  users db !! UserCredential.userId c = Some u →
  UserCredential.passwordHash c = Some h →
  l ≠ "" → p ≠ "" →
  run (AuthApi.post_login cfg now (Some l) (Some p)) db
  = (inr (login_answer cfg now db k c u h p), db).
Proof.
  intros Hc Hw Huniq Hu Hh Hln Hpn.
  assert (AuthApi.login_query db l = Some ((k, c), (UserCredential.userId c, u))) as Hq.
  { unfold AuthApi.login_query.
    rewrite (findOne_unique _ _ k c Hc Hw Huniq). simpl. by rewrite Hu. }
  unfold AuthApi.post_login.
  rewrite !truthy_str_Some by done. simpl.
  unfold AuthApi.login_try, login_answer. unfold_run. simpl.
  rewrite Hq. simpl.
  destruct (UserCredential.passwordExpired c); [done|].
  unfold compare_hash. rewrite Hh. simpl.
  destruct (bcrypt_compare p h); done.
Qed.

Lemma password_credential_where_true w k c :
  password_credential_where w (k, c) = true →
  w = Some (UserCredential.userId c)
  ∧ UserCredential.authType c = "password" ∧ live c = true.
Proof.
  unfold password_credential_where. simpl. intros Hw.
  repeat (apply andb_prop in Hw as [Hw ?]).
  apply col_is_Some in Hw. split; [done|]. split; [by apply String.eqb_eq|done].
Qed.




(** X10: the answers of POST /change-password.  The handler never throws;
    a request [authenticateToken] rejects gets that rejection, any other
    gets 200, 400 or 500; and the store is written only when the answer is
    200. *)
Theorem change_password_answers `{Platform} cfg now salt req cur new db :
  match run (AuthApi.post_change_password cfg now salt req cur new) db with
  | (inl _, _) => False
  | (inr resp, db') =>
      (status resp = 200 ∨ db' = db)
      ∧ match AuthApi.authenticateToken cfg now req with
        | Next _ => status resp = 200 ∨ status resp = 400 ∨ status resp = 500
        | Respond st _ => status resp = st
        end
  end.
Proof.
  unfold AuthApi.post_change_password.
  destruct (AuthApi.authenticateToken cfg now req) as [req'|st msg]; [|simpl; auto].
  destruct cur as [cur|], new as [new|]; try (simpl; auto; fail).
  destruct (_ || _); [simpl; auto|].
  destruct (_ <? 8)%nat; [simpl; auto|].
  unfold AuthApi.change_password_try, run. unfold_run. simpl.
  destruct (where_int _) as [e|w]; [simpl; auto|]. simpl.
  destruct (findOne _ _) as [cred|]; [|simpl; auto]. simpl.
  destruct (compare_hash _ _) as [e|[]]; simpl; auto.
  unfold update_credential, UserCredential_update. simpl.
  destruct (beforeValidate _) as [e|[]]; simpl; auto.
Qed.

(** X11: a wrong current password is answered 400 "Current password is
    incorrect" by POST /change-password, and nothing is written: for a user
    with one live password credential, a current password its hash does not
    verify, and a new password of 8 code units or more. *)
Theorem change_password_wrong_current `{Platform} cfg now salt req cur new db uid k c h :
  authenticated_as cfg now req = Some uid →
  sole_password_credential (credentials db) uid k c →
  UserCredential.passwordHash c = Some h →
  bcrypt_compare cur h = false →
  cur ≠ "" →
  (8 ≤ js_length new)%nat →
  run (AuthApi.post_change_password cfg now salt req (Some cur) (Some new)) db
  = (inr (json 400 "Current password is incorrect"), db).
Proof.
  intros Hauth Hsole Hh Hcmp Hcur Hlen.
  pose proof (sole_password_credential_findOne _ _ _ _ Hsole) as Hf.
  apply authenticated_as_Some in Hauth as (req' & Hnext & Hu).
  unfold AuthApi.post_change_password. rewrite Hnext.
  rewrite !truthy_str_Some by (done || by apply js_length_nonempty). simpl.
  destruct (Nat.ltb_spec (js_length new) 8) as [?|_]; [lia|].
  unfold AuthApi.change_password_try, run. unfold_run. simpl.
  rewrite Hu. simpl. rewrite Hf. simpl.
  unfold compare_hash. rewrite Hh. simpl. by rewrite Hcmp.
Qed.


(** ** Registration, beyond atomicity *)

Lemma truthy_str_true o : truthy_str o = true → ∃ s, o = Some s ∧ s ≠ "".
Proof.
  destruct o as [s|]; [|done]. simpl. intros Hs. exists s. split; [done|].
  intros ->. done.
Qed.

Lemma User_create_error `{Platform} d m e :
  User_create d m = inl e →
  str_includes (exn_message e) "already in use" = false.
Proof.
  unfold User_create. intros Hc.
  repeat case_match; simplify_eq; done.
Qed.

(** X13: a taken login name is answered 500, not 409.  [registerUser]
    rolls the transaction back before it throws "Login name already in
    use"; its [catch] rolls back again, which throws on the finished
    transaction, so the error that reaches the route is the rollback's and
    its message does not include "already in use".  The store is as it
    was. *)
Theorem register_taken_login_name `{Platform} cfg now salt a db l taken :
  truthy_str (UserService.email a) = true →
  truthy_str (UserService.password a) = true →
  truthy_str (UserService.firstName a) = true →
  truthy_str (UserService.lastName a) = true →
  UserService.loginName a = Some l → l ≠ "" →
  UserService.find_password_login l db = Some taken →
  ∃ resp,
    run (AuthApi.post_register cfg now salt a) db = (inr resp, db)
    ∧ status resp = 500.
Proof.
  intros He Hp Hf Hla Hl Hln Htaken.
  unfold AuthApi.post_register. rewrite He, Hp, Hf, Hla, Hl, (truthy_str_Some l) by done.
  simpl.
  apply truthy_str_true in He as (e & He & _).
  unfold UserService.registerUser, UserService.registerUser_try, run.
  unfold_run. rewrite He, Hl. simpl.
  destruct (UserService.find_user_by_email e db) as [u|]; simpl.
  - rewrite Htaken. simpl. eexists. split; done.
  - destruct (UserService.create_user _ _) as [err|[u s]] eqn:Hcu; simpl.
    + unfold UserService.create_user in Hcu.
      destruct (User_create _ _) as [err'|[u' m']] eqn:Hu; [|done].
      simplify_eq. apply User_create_error in Hu. rewrite Hu.
      eexists. split; done.
    + apply create_user_Some in Hcu as [_ ->].
      unfold UserService.find_password_login in *. simpl.
      rewrite Htaken. simpl. eexists. split; done.
Qed.

Lemma same_openid_no_provider c (m : gmap Z UserCredential.t) :
  UserCredential.openIdProvider c = None → findOne (same_openid c) m = None.
Proof.
  intros Hp. apply findOne_None. intros k v _. unfold same_openid. by rewrite Hp.
Qed.

(** Writing the credential of a registration, when the login name is free
    and the hash is not empty. *)
Lemma create_registered_credential `{Platform} now salt uid l p s :
  UserService.find_password_login l s = None →
  bcrypt_hash p salt ≠ "" →
  UserService.create_credential (registered_credential now salt uid l p) s
  = inr ((next_id (credentials s), registered_credential now salt uid l p),
         rewritten s (next_id (credentials s)) (registered_credential now salt uid l p)).
Proof.
  intros Hfree Hhash.
  unfold UserService.create_credential, UserCredential_create, beforeValidate,
    validate_authType. simpl.
  destruct (String.eqb_spec (bcrypt_hash p salt) ""); [done|]. simpl.
  rewrite same_openid_no_provider by done.
  assert (findOne (same_login (registered_credential now salt uid l p)) (credentials s)
          = None) as ->; [|done].
  apply findOne_None. intros k v Hkv.
  unfold UserService.find_password_login in Hfree. rewrite findOne_None in Hfree.
  exact (Hfree k v Hkv).
Qed.

(** Registering with the address of an existing user. *)
Lemma registerUser_existing_run `{Platform} cfg now salt a db e u l p :
  UserService.email a = Some e →
  UserService.find_user_by_email e db = Some u →
  UserService.loginName a = Some l →
  UserService.find_password_login l db = None →
  UserService.password a = Some p →
  bcrypt_hash p salt ≠ "" →
  let k := next_id (credentials db) in
  let cred := registered_credential now salt (pk u) l p in
  run (UserService.registerUser cfg now salt a) db
  = (inr {| message := "User registered successfully";
            token := Some (UserService.generateToken cfg now u (k, cred));
            user := Some u; body_permissions := [] |},
     rewritten db k cred).
Proof.
  intros He Hu Hl Hfree Hp Hhash k cred.
  unfold UserService.registerUser, UserService.registerUser_try, run.
  unfold_run. rewrite He, Hl, Hp. simpl. rewrite Hu. simpl. rewrite Hfree. simpl.
  pose proof (create_registered_credential now salt (pk u) l p db Hfree Hhash) as Hc.
  unfold registered_credential in Hc. rewrite Hc. done.
Qed.

(** Registering with a new address. *)
Lemma registerUser_new_run `{Platform} cfg now salt a db e f la l p :
  UserService.email a = Some e →
  UserService.firstName a = Some f →
  UserService.lastName a = Some la →
  isEmail e = true →
  UserService.find_user_by_email e db = None →
  UserService.loginName a = Some l →
  UserService.find_password_login l db = None →
  UserService.password a = Some p →
  bcrypt_hash p salt ≠ "" →
  let uid := next_id (users db) in
  let k := next_id (credentials db) in
  let cred := registered_credential now salt uid l p in
  let u := registered_user a e f la in
  run (UserService.registerUser cfg now salt a) db
  = (inr {| message := "User registered successfully";
            token := Some (UserService.generateToken cfg now (uid, u) (k, cred));
            user := Some (uid, u); body_permissions := [] |},
     with_credentials (with_users db (<[uid := u]> (users db)))
       (<[k := cred]> (credentials db))).
Proof.
  intros He Hf Hla Hmail Hnew Hl Hfree Hp Hhash uid k cred u.
  unfold UserService.registerUser, UserService.registerUser_try, run.
  unfold_run. rewrite He, Hl, Hp. simpl. rewrite Hnew. simpl.
  unfold UserService.create_user, User_create. simpl.
  rewrite Hf, Hla, Hmail. simpl.
  unfold UserService.find_user_by_email in Hnew. rewrite Hnew. simpl.
  unfold UserService.find_password_login in *. simpl. rewrite Hfree. simpl.
  pose proof (create_registered_credential now salt uid l p
                (with_users db (<[uid := u]> (users db)))) as Hc.
  unfold UserService.find_password_login in Hc. simpl in Hc.
  specialize (Hc Hfree Hhash).
  unfold registered_credential in Hc. fold uid. unfold u, registered_user in Hc.
  rewrite Hc. done.
Qed.

(** The route answers 201 with what the service returned. *)
Lemma post_register_of_service `{Platform} cfg now salt a db b db' :
  truthy_str (UserService.email a) = true →
  truthy_str (UserService.password a) = true →
  truthy_str (UserService.firstName a) = true →
  truthy_str (UserService.lastName a) = true →
  truthy_str (UserService.loginName a) = true →
  run (UserService.registerUser cfg now salt a) db = (inr b, db') →
  run (AuthApi.post_register cfg now salt a) db
  = (inr {| status := 201; body := b |}, db').
Proof.
  intros H1 H2 H3 H4 H5. unfold AuthApi.post_register.
  rewrite H1, H2, H3, H4, H5. simpl.
  unfold run. unfold try_catch, mbind, Run_bind, mret, Run_ret.
  destruct (UserService.registerUser cfg now salt a _) as [[e|b'] c]; simpl.
  - done.
  - by intros [= -> <-].
Qed.

(** X14: registering with the address of an existing user.  When the
    address belongs to a user, and the login name is free, POST /register
    answers 201: it attaches a new password credential, under a key no
    credential had, to that user, whatever the user's flags, returns a
    token in that user's name, and leaves the user row (names, role) as it
    was; the names and role of the request are ignored. *)
Theorem register_existing_email `{Platform} cfg now salt a db e u f la l p :
  UserService.email a = Some e → e ≠ "" →
  UserService.firstName a = Some f → f ≠ "" →
  UserService.lastName a = Some la → la ≠ "" →
  UserService.loginName a = Some l → l ≠ "" →
  UserService.password a = Some p → p ≠ "" →
  UserService.find_user_by_email e db = Some u →
  UserService.find_password_login l db = None →
  bcrypt_hash p salt ≠ "" →
  let cred := registered_credential now salt (pk u) l p in
  ∃ k,
    credentials db !! k = None
    ∧ run (AuthApi.post_register cfg now salt a) db
      = (inr {| status := 201;
                body := {| message := "User registered successfully";
                           token := Some (UserService.generateToken cfg now u (k, cred));
                           user := Some u; body_permissions := [] |} |},
         rewritten db k cred).
Proof.
  intros He Hen Hf Hfn Hla Hlan Hl Hln Hp Hpn Hu Hfree Hhash cred.
  exists (next_id (credentials db)). split; [apply next_id_fresh|].
  apply post_register_of_service;
    rewrite ?He, ?Hf, ?Hla, ?Hl, ?Hp; try (by apply truthy_str_Some).
  by eapply registerUser_existing_run.
Qed.

(** X15: registering with a new address.  POST /register answers 201,
    inserts one user (active, not deleted, with the requested role or role 1
    when none or 0 is given) and one password credential of that user, each
    under a key its table did not have, and returns a token in the new
    user's name. *)
Theorem register_new_email `{Platform} cfg now salt a db e f la l p :
  UserService.email a = Some e → isEmail e = true →
  UserService.firstName a = Some f → f ≠ "" →
  UserService.lastName a = Some la → la ≠ "" →
  UserService.loginName a = Some l → l ≠ "" →
  UserService.password a = Some p → p ≠ "" →
  e ≠ "" →
  UserService.find_user_by_email e db = None →
  UserService.find_password_login l db = None →
  bcrypt_hash p salt ≠ "" →
  let u := registered_user a e f la in
  ∃ uid k,
    users db !! uid = None
    ∧ credentials db !! k = None
    ∧ let cred := registered_credential now salt uid l p in
      run (AuthApi.post_register cfg now salt a) db
      = (inr {| status := 201;
                body := {| message := "User registered successfully";
                           token := Some (UserService.generateToken cfg now
                                            (uid, u) (k, cred));
                           user := Some (uid, u); body_permissions := [] |} |},
         with_credentials (with_users db (<[uid := u]> (users db)))
           (<[k := cred]> (credentials db))).
Proof.
  intros He Hmail Hf Hfn Hla Hlan Hl Hln Hp Hpn Hen Hnew Hfree Hhash u.
  exists (next_id (users db)), (next_id (credentials db)).
  split; [apply next_id_fresh|]. split; [apply next_id_fresh|].
  apply post_register_of_service;
    rewrite ?He, ?Hf, ?Hla, ?Hl, ?Hp; try (by apply truthy_str_Some).
  by eapply registerUser_new_run.
Qed.

(** A registration that returns: what it found and what it wrote. *)
Lemma registerUser_success `{Platform} cfg now salt a db b db' :
  run (UserService.registerUser cfg now salt a) db = (inr b, db') →
  ∃ u l p,
    UserService.loginName a = Some l ∧ UserService.password a = Some p
    ∧ UserService.find_password_login l db = None
    ∧ bcrypt_hash p salt ≠ ""
    ∧ users db' !! pk u = Some (row u)
    ∧ (users db' = users db ∨ live_user (row u) = true)
    ∧ credentials db'
      = <[next_id (credentials db) := registered_credential now salt (pk u) l p]>
          (credentials db)
    ∧ user b = Some u.
Proof.
  unfold UserService.registerUser, UserService.registerUser_try, run.
  unfold_run. simpl.
  destruct (UserService.email a) as [e|] eqn:He; simpl; [|done].
  destruct (UserService.find_user_by_email e db) as [u|] eqn:Hfu; simpl.
  - destruct (UserService.loginName a) as [l|] eqn:Hl; simpl; [|done].
    destruct (UserService.find_password_login l db) eqn:Hfree; simpl; [done|].
    destruct (UserService.password a) as [p|] eqn:Hp; simpl; [|done].
    destruct (UserService.create_credential _ _) as [?|[cred s]] eqn:Hc; simpl; [done|].
    intros [= <- <-].
    assert (bcrypt_hash p salt ≠ "") as Hhash.
    { intros Heq. unfold UserService.create_credential, UserCredential_create,
        beforeValidate in Hc. simpl in Hc. rewrite Heq in Hc. done. }
    pose proof (create_registered_credential now salt (pk u) l p db Hfree Hhash) as Hc'.
    unfold registered_credential in Hc'. rewrite Hc' in Hc. simplify_eq.
    apply findOne_Some in Hfu as [Hu _].
    exists u, l, p. simpl. repeat split; try done; auto.
  - destruct (UserService.create_user _ _) as [?|[u s]] eqn:Hcu; simpl; [done|].
    destruct (UserService.loginName a) as [l|] eqn:Hl; simpl; [|done].
    destruct (UserService.find_password_login l s) eqn:Hfree; simpl; [done|].
    destruct (UserService.password a) as [p|] eqn:Hp; simpl; [|done].
    destruct (UserService.create_credential _ _) as [?|[cred s']] eqn:Hc; simpl; [done|].
    intros [= <- <-].
    assert (bcrypt_hash p salt ≠ "") as Hhash.
    { intros Heq. unfold UserService.create_credential, UserCredential_create,
        beforeValidate in Hc. simpl in Hc. rewrite Heq in Hc. done. }
    pose proof (create_registered_credential now salt (pk u) l p s Hfree Hhash) as Hc'.
    unfold registered_credential in Hc'. rewrite Hc' in Hc. simplify_eq.
    unfold UserService.create_user, User_create in Hcu. simpl in Hcu.
    destruct (UserService.firstName a) as [f|], (UserService.lastName a) as [la|];
      try done.
    destruct (negb (isEmail e)); [done|].
    destruct (findOne _ (users db)); [done|]. simplify_eq. simpl in *.
    exists (next_id (users db),
            {| User.email := e; User.firstName := f; User.lastName := la;
               User.isActive := true; User.isDeleted := false;
               User.roleId := Some (UserService.role_or_default (UserService.roleId a)) |}),
      l, p. simpl.
    repeat split; try done; auto.
    by rewrite lookup_insert_eq.
Qed.

(** The 201 of the register route is the service's result. *)
Lemma post_register_201 `{Platform} cfg now salt a db resp db' :
  run (AuthApi.post_register cfg now salt a) db = (inr resp, db') →
  status resp = 201 →
  truthy_str (UserService.loginName a) = true
  ∧ truthy_str (UserService.password a) = true
  ∧ run (UserService.registerUser cfg now salt a) db = (inr (body resp), db').
Proof.
  unfold AuthApi.post_register.
  destruct (_ || _) eqn:Hreq.
  { intros [= <- <-]. done. }
  repeat (apply orb_false_elim in Hreq as [Hreq ?]).
  rewrite !negb_false_iff in *.
  unfold run. unfold try_catch, mbind, Run_bind, mret, Run_ret.
  destruct (UserService.registerUser cfg now salt a _) as [[e|b] c]; simpl.
  - intros [= <- <-]. by destruct (str_includes _ _).
  - intros [= <- <-]. done.
Qed.

(** X16: who registered can log in.  After a 201 from POST /register for a
    user that is active and not deleted, POST /login with the login name and
    password of the registration answers 200 with a token for that user
    (given that [bcrypt.compare] accepts a password against its own
    hash). *)
Theorem register_then_login `{Platform} cfg now salt a db resp db' u l p now2 :
  run (AuthApi.post_register cfg now salt a) db = (inr resp, db') →
  status resp = 201 →
  user (body resp) = Some u →
  live_user (row u) = true →
  UserService.loginName a = Some l →
  UserService.password a = Some p →
  bcrypt_compare p (bcrypt_hash p salt) = true →
  ∃ resp2 tok2,
    run (AuthApi.post_login cfg now2 (Some l) (Some p)) db' = (inr resp2, db')
    ∧ status resp2 = 200
    ∧ token (body resp2) = Some tok2
    ∧ get (payload tok2) "userId" = JNum (pk u).
Proof.
  intros Hrun Hst Hbu Hlive Hl Hp Hcmp.
  destruct (post_register_201 _ _ _ _ _ _ _ Hrun Hst) as (Htl & Htp & Hsvc).
  destruct (registerUser_success _ _ _ _ _ _ _ Hsvc)
    as (u' & l' & p' & Hl' & Hp' & Hfree & Hhash & Hu & _ & Hcreds & Hbu').
  simplify_eq.
  rewrite Hl in Htl. rewrite Hp in Htp.
  apply truthy_str_true in Htl as (? & [= <-] & Hln).
  apply truthy_str_true in Htp as (? & [= <-] & Hpn).
  set (k := next_id (credentials db)) in *.
  set (c := registered_credential now salt (pk u) l p) in *.
  rewrite (post_login_found cfg now2 db' k c (row u) (bcrypt_hash p salt) l p);
    try done.
  - unfold login_answer. simpl. rewrite Hcmp.
    eexists _, _. split; [done|]. simpl. split; [done|]. split; [done|].
    unfold json_roundtrip. simpl. by destruct (User.roleId (row u)).
  - rewrite Hcreds. apply lookup_insert_eq.
  - unfold AuthApi.login_where. simpl. rewrite Hu, Hlive, String.eqb_refl. done.
  - intros k' c' Hc' Hw.
    destruct (decide (k' = k)) as [|Hne]; [done|]. exfalso.
    rewrite Hcreds, lookup_insert_ne in Hc' by done.
    unfold UserService.find_password_login in Hfree. rewrite findOne_None in Hfree.
    specialize (Hfree k' c' Hc'). simpl in Hfree.
    unfold AuthApi.login_where in Hw. simpl in Hw.
    repeat (apply andb_prop in Hw as [Hw ?]).
    rewrite Hw in Hfree. simpl in Hfree. congruence.
Qed.

(** ** The OpenID route, case by case *)

(** X17: signing in with a bound pair does not look at the user's flags.
    When a live credential holds the (provider, subject) pair, POST /openid
    answers 200 with a token for the credential's user whether that user is
    active or not, deleted or not; no credential is written, and the only
    change to the user row is to its names. *)
Theorem openid_signin_ignores_user_flags `{Platform} cfg now a db p s e l cred u :
  AuthApi.provider a = Some p → p ≠ "" →
  AuthApi.subject a = Some s → s ≠ "" →
  AuthApi.email a = Some e → e ≠ "" →
  AuthApi.loginName a = Some l → l ≠ "" →
  findOne (AuthApi.openid_where p s) (credentials db) = Some cred →
  users db !! UserCredential.userId (row cred) = Some u →
  ∃ resp tok u' db',
    run (AuthApi.post_openid cfg now a) db = (inr (resp, Some cred), db')
    ∧ status resp = 200
    ∧ token (body resp) = Some tok
    ∧ get (payload tok) "userId" = JNum (UserCredential.userId (row cred))
    ∧ credentials db' = credentials db
    ∧ users db' = <[UserCredential.userId (row cred) := u']> (users db)
    ∧ User.email u' = User.email u
    ∧ User.isActive u' = User.isActive u
    ∧ User.isDeleted u' = User.isDeleted u
    ∧ User.roleId u' = User.roleId u.
Proof.
  intros Hp Hpn Hs Hsn He Hen Hl Hln Hf Hu.
  unfold AuthApi.post_openid. rewrite Hp, Hs, He, Hl.
  rewrite !truthy_str_Some by done. simpl.
  unfold AuthApi.openid_try, AuthApi.openid_find_or_create, AuthApi.null_deref, run.
  unfold_run. simpl. rewrite Hf. simpl. unfold findByPk. rewrite Hu. simpl.
  destruct (_ || _); simpl.
  - eexists _, _, _, _. split; [done|]. simpl. split; [done|]. split; [done|].
    split; [unfold json_roundtrip; simpl; by destruct (User.roleId u)|].
    repeat split; done.
  - eexists _, _, u, _. split; [done|]. simpl. split; [done|]. split; [done|].
    split; [unfold json_roundtrip; simpl; by destruct (User.roleId u)|].
    split; [done|]. split; [by rewrite insert_id|]. done.
Qed.

(** Writing the credential of a new pair, when neither unique index has a
    row in the way. *)
Lemma create_openid_credential uid l p s st :
  p ≠ "" →
  findOne (same_openid (openid_credential uid l p s)) (credentials st) = None →
  findOne (same_login (openid_credential uid l p s)) (credentials st) = None →
  UserService.create_credential (openid_credential uid l p s) st
  = inr ((next_id (credentials st), openid_credential uid l p s),
         rewritten st (next_id (credentials st)) (openid_credential uid l p s)).
Proof.
  intros Hp Ho Hl.
  unfold UserService.create_credential, UserCredential_create, beforeValidate,
    validate_authType. simpl.
  destruct (String.eqb_spec p ""); [done|]. simpl.
  by rewrite Ho, Hl.
Qed.

(** X18: a new pair with the address of an existing user.  When no row
    holds the pair and no OpenID credential has the login name, POST /openid
    answers 200, attaches a new OpenID credential for the pair, under a key
    no credential had, to the user that has the address, whatever the
    user's flags, and returns a token in that user's name; the users table
    is not written. *)
Theorem openid_links_existing_email `{Platform} cfg now a db p s e l u :
  AuthApi.provider a = Some p → p ≠ "" →
  AuthApi.subject a = Some s → s ≠ "" →
  AuthApi.email a = Some e → e ≠ "" →
  AuthApi.loginName a = Some l → l ≠ "" →
  findOne (AuthApi.openid_where p s) (credentials db) = None →
  UserService.find_user_by_email e db = Some u →
  findOne (same_openid (openid_credential (pk u) l p s)) (credentials db) = None →
  findOne (same_login (openid_credential (pk u) l p s)) (credentials db) = None →
  let cred := openid_credential (pk u) l p s in
  ∃ k resp,
    credentials db !! k = None
    ∧ run (AuthApi.post_openid cfg now a) db
      = (inr (resp, Some (k, cred)), rewritten db k cred)
    ∧ status resp = 200
    ∧ token (body resp) = Some (AuthApi.generateToken cfg now u (k, cred))
    ∧ user (body resp) = Some u.
Proof.
  intros Hp Hpn Hs Hsn He Hen Hl Hln Hnone Hu Ho Hlg cred.
  exists (next_id (credentials db)).
  unfold AuthApi.post_openid. rewrite Hp, Hs, He, Hl.
  rewrite !truthy_str_Some by done. simpl.
  unfold AuthApi.openid_try, AuthApi.openid_find_or_create, AuthApi.null_deref, run.
  unfold_run. simpl. rewrite Hnone. simpl. rewrite Hu. simpl.
  pose proof (create_openid_credential (pk u) l p s db Hpn Ho Hlg) as Hc.
  unfold openid_credential in Hc. rewrite Hc. simpl.
  eexists. split; [apply next_id_fresh|]. split; [done|]. done.
Qed.

(** X19: a pair whose credential was soft-deleted or deactivated is locked
    out.  The lookup skips the dead row, and the insert of a new row for the
    pair violates the unique index on (provider, subject): every POST
    /openid for the pair is answered 500 "Authentication failed" (or 400
    when a field is missing), and the store stays as it was. *)
Theorem openid_dead_pair_locked_out `{Platform} cfg now a db p s k c :
  AuthApi.provider a = Some p → AuthApi.subject a = Some s →
  credentials db !! k = Some c →
  UserCredential.openIdProvider c = Some p →
  UserCredential.openIdSubject c = Some s →
  findOne (AuthApi.openid_where p s) (credentials db) = None →
  run (AuthApi.post_openid cfg now a) db
  = (inr (json 400 "Provider, subject, email, and login name are required", None), db)
  ∨ run (AuthApi.post_openid cfg now a) db
    = (inr (json 500 "Authentication failed", None), db).
Proof.
  intros Hp Hs Hc Hcp Hcs Hnone.
  unfold AuthApi.post_openid. rewrite Hp, Hs.
  destruct (AuthApi.email a) as [e|]; [|by left].
  destruct (AuthApi.loginName a) as [l|]; [|by left].
  destruct (_ || _); [by left|]. right.
  assert (∀ uid st, credentials st = credentials db →
            ∃ e', UserService.create_credential
                    (openid_credential uid l p s) st = inl e') as Hfail.
  { intros uid st Hst.
    unfold UserService.create_credential, UserCredential_create.
    destruct (beforeValidate _); [by eexists|].
    destruct (validate_authType _); [by eexists|].
    destruct (findOne (same_openid _) (credentials st)) eqn:Ho.
    - by eexists.
    - rewrite findOne_None in Ho. rewrite Hst in Ho. specialize (Ho k c Hc).
      unfold same_openid, eqb_opt_str in Ho. simpl in Ho.
      rewrite Hcp, Hcs, !String.eqb_refl in Ho. done. }
  unfold AuthApi.openid_try, AuthApi.openid_find_or_create, AuthApi.null_deref, run.
  unfold_run. simpl. rewrite Hnone. simpl.
  destruct (UserService.find_user_by_email e db) as [u|]; simpl.
  - destruct (Hfail (pk u) db eq_refl) as [e' He'].
    unfold openid_credential in He'. by rewrite He'.
  - destruct (UserService.create_user _ db) as [?|[u st]] eqn:Hcu; simpl; [done|].
    assert (credentials st = credentials db) as Hst.
    { unfold UserService.create_user in Hcu.
      destruct (User_create _ _) as [?|[? ?]]; [done|]. by simplify_eq. }
    destruct (Hfail (pk u) st Hst) as [e' He'].
    unfold openid_credential in He'. by rewrite He'.
Qed.

(** ** The read routes *)

Lemma List_filter_stdpp {A} (P : A → bool) (l : list A) :
  List.filter P l = filter (λ x, P x = true) l.
Proof.
  induction l as [|x l IH]; [done|]. simpl. rewrite filter_cons.
  destruct (P x) eqn:HP.
  - rewrite decide_True by done. by rewrite IH.
  - rewrite decide_False by done. done.
Qed.

(** [findAll] returns as many rows as [count] counts. *)
Lemma findAll_length {R} (P : Z * R → bool) (m : gmap Z R) :
  length (AuthApiReads.findAll P m) = count P m.
Proof.
  unfold AuthApiReads.findAll, count. rewrite List_filter_stdpp.
  induction m as [|k v m Hk Hfirst IH] using map_first_key_ind.
  - by rewrite map_to_list_empty, map_filter_empty, map_size_empty.
  - rewrite map_to_list_insert_first_key by done. rewrite filter_cons.
    destruct (decide (P (k, v) = true)) as [HP|HP].
    + rewrite map_filter_insert_True by done.
      rewrite map_size_insert_None by (apply map_lookup_filter_None; tauto).
      simpl. by rewrite IH.
    + rewrite map_filter_insert_not' by (by try rewrite Hk). done.
Qed.

Lemma findAll_elem {R} (P : Z * R → bool) (m : gmap Z R) kv :
  kv ∈ AuthApiReads.findAll P m ↔ m !! kv.1 = Some kv.2 ∧ P kv = true.
Proof.
  unfold AuthApiReads.findAll. rewrite list_elem_of_In, filter_In.
  rewrite <- list_elem_of_In. destruct kv as [k v]. by rewrite elem_of_map_to_list.
Qed.

(** X20: GET /credentials lists the live credentials of the token's user:
    a view is in the list exactly when it is the view of a credential of
    that user that is active and not deleted, and the list is as long as the
    count by which DELETE /credentials/:id decides whether a credential is
    the last one.  The store is not written. *)
Theorem credentials_listing `{Platform} cfg now req db uid :
  authenticated_as cfg now req = Some uid →
  ∃ l,
    run (AuthApiReads.get_credentials cfg now req) db = (inr (AuthApiReads.Listed l), db)
    ∧ length l = count (AuthApi.live_credentials_of (Some uid)) (credentials db)
    ∧ ∀ v, v ∈ l ↔
        ∃ k c, credentials db !! k = Some c
               ∧ UserCredential.userId c = uid ∧ live c = true
               ∧ v = AuthApiReads.view (k, c).
Proof.
  intros Hauth.
  apply authenticated_as_Some in Hauth as (req' & Hnext & Hu).
  unfold AuthApiReads.get_credentials. rewrite Hnext.
  unfold run. unfold_run. rewrite Hu. simpl.
  eexists. split; [done|]. split.
  - by rewrite length_map, findAll_length.
  - intros v. rewrite list_elem_of_fmap. split.
    + intros ([k c] & -> & Hin). apply findAll_elem in Hin as [Hc HP]. simpl in Hc.
      unfold AuthApi.live_credentials_of in HP. simpl in HP.
      apply andb_prop in HP as [Hown Hlive]. apply Z.eqb_eq in Hown.
      by exists k, c.
    + intros (k & c & Hc & Hown & Hlive & ->). exists (k, c). split; [done|].
      apply findAll_elem. split; [done|].
      unfold AuthApi.live_credentials_of. simpl.
      rewrite Hlive, andb_true_r. by apply Z.eqb_eq.
Qed.

(** X21: GET /me answers for any user row.  For a token that names a user
    id, the answer is 200 with the user of that id whenever the row exists,
    whatever its [isActive] and [isDeleted] flags, and 404 "User not found"
    when it does not. *)
Theorem me_ignores_user_flags `{Platform} cfg now req db uid :
  authenticated_as cfg now req = Some uid →
  run (AuthApiReads.get_me cfg now req) db
  = (inr match users db !! uid with
         | Some u => {| status := 200;
                        body := {| message := ""; token := None;
                                   user := Some (uid, u); body_permissions := [] |} |}
         | None => json 404 "User not found"
         end, db).
Proof.
  intros Hauth.
  apply authenticated_as_Some in Hauth as (req' & Hnext & Hu).
  unfold AuthApiReads.get_me. rewrite Hnext.
  unfold run. unfold_run. unfold AuthApiReads.find_user_by_pk.
  destruct (AuthApi.decoded_userId req') eqn:Hd; simpl in Hu; try done.
  - simplify_eq. simpl. unfold findByPk. by destruct (users db !! uid).
  - simpl. destruct (pg_int4in _); [|done]. simplify_eq.
    unfold findByPk. by destruct (users db !! uid).
Qed.

(** ** After a credential is deleted *)

(** The delete route on a live credential of the authenticated user that
    is not the last one. *)
Lemma delete_credential_run `{Platform} cfg now req id db k c :
  pg_int4in id = Some k →
  credentials db !! k = Some c →
  authenticated_as cfg now req = Some (UserCredential.userId c) →
  live c = true →
  beforeValidate c = inr () →
  (2 ≤ count (AuthApi.live_credentials_of (Some (UserCredential.userId c)))
         (credentials db))%nat →
  run (AuthApi.delete_credential cfg now req id) db
  = (inr (json 200 "Credential deleted successfully"),
     rewritten db k (AuthApi.soft_deleted c)).
Proof.
  intros Hid Hc Hauth Hlive Hhook Hn.
  apply authenticated_as_Some in Hauth as (req' & Hnext & Hu).
  unfold AuthApi.delete_credential. rewrite Hnext.
  assert (where_int (JStr id) = inr (Some k)) as Hwid by (simpl; by rewrite Hid).
  pose proof (delete_credential_try_run id _ _ _ db Hwid Hu) as Htry.
  rewrite own_credential_lookup, Hc in Htry. simpl in Htry.
  rewrite Z.eqb_refl, Hlive in Htry. simpl in Htry.
  destruct (_ <=? 1)%nat eqn:Hle in Htry; [apply Nat.leb_le in Hle; lia|].
  rewrite Hhook in Htry.
  unfold run, try_catch in *.
  destruct (AuthApi.delete_credential_try id _ _) as [r c'].
  injection Htry as -> Hs. simpl. by rewrite Hs.
Qed.

(** The delete route on a credential that is not live. *)
Lemma delete_credential_dead `{Platform} cfg now req id db k c uid :
  pg_int4in id = Some k →
  credentials db !! k = Some c →
  live c = false →
  authenticated_as cfg now req = Some uid →
  run (AuthApi.delete_credential cfg now req id) db
  = (inr (json 404 "Credential not found"), db).
Proof.
  intros Hid Hc Hdead Hauth.
  apply authenticated_as_Some in Hauth as (req' & Hnext & Hu).
  unfold AuthApi.delete_credential. rewrite Hnext.
  assert (where_int (JStr id) = inr (Some k)) as Hwid by (simpl; by rewrite Hid).
  pose proof (delete_credential_try_run id _ _ _ db Hwid Hu) as Htry.
  rewrite own_credential_lookup, Hc in Htry. simpl in Htry.
  rewrite Hdead, andb_false_r in Htry.
  unfold run, try_catch in *.
  destruct (AuthApi.delete_credential_try id _ _) as [r c'].
  injection Htry as -> Hs. simpl. by rewrite Hs.
Qed.

(** X22: a deleted credential is gone for the routes.  DELETE
    /credentials/:id answers 200 for a live password credential of the
    caller that is not the last one; after that, deleting the same id again
    is answered 404 "Credential not found" whoever asks, and a login with
    its login name is answered 401 "Invalid login credentials" whatever the
    password; neither writes. *)
Theorem deleted_credential_is_dead `{Platform} cfg now req id db k c now2 req2 uid2 p :
  pg_int4in id = Some k →
  credentials db !! k = Some c →
  authenticated_as cfg now req = Some (UserCredential.userId c) →
  live c = true →
  beforeValidate c = inr () →
  (2 ≤ count (AuthApi.live_credentials_of (Some (UserCredential.userId c)))
         (credentials db))%nat →
  unique_login (credentials db) →
  UserCredential.authType c = "password" →
  UserCredential.loginName c ≠ "" → p ≠ "" →
  authenticated_as cfg now2 req2 = Some uid2 →
  ∃ db',
    run (AuthApi.delete_credential cfg now req id) db
    = (inr (json 200 "Credential deleted successfully"), db')
    ∧ run (AuthApi.delete_credential cfg now2 req2 id) db'
      = (inr (json 404 "Credential not found"), db')
    ∧ run (AuthApi.post_login cfg now2 (Some (UserCredential.loginName c)) (Some p)) db'
      = (inr (json 401 "Invalid login credentials"), db').
Proof.
  intros Hid Hc Hauth Hlive Hhook Hn Huniq Hat Hln Hpn Hauth2.
  eexists. split; [by apply delete_credential_run|]. split.
  - eapply delete_credential_dead; try done.
    + simpl. apply lookup_insert_eq.
    + unfold live. simpl. done.
  - unfold AuthApi.post_login. rewrite !truthy_str_Some by done. simpl.
    assert (findOne (AuthApi.login_where
                       (rewritten db k (AuthApi.soft_deleted c))
                       (UserCredential.loginName c))
              (credentials (rewritten db k (AuthApi.soft_deleted c))) = None) as Hnone.
    { apply findOne_None. intros k' c' Hc'. simpl in Hc'.
      unfold AuthApi.login_where. simpl.
      destruct (decide (k' = k)) as [->|Hne].
      - rewrite lookup_insert_eq in Hc'. simplify_eq.
        unfold live. simpl. by rewrite !andb_false_r.
      - rewrite lookup_insert_ne in Hc' by done.
        destruct (String.eqb_spec (UserCredential.loginName c')
                    (UserCredential.loginName c)) as [Hl|]; [|done].
        destruct (String.eqb_spec (UserCredential.authType c') "password") as [Ha|];
          [|done].
        exfalso. apply Hne. eapply (Huniq k' c' k c); congruence. }
    unfold AuthApi.login_try, run. unfold_run.
    unfold AuthApi.login_query. cbn [committed]. rewrite Hnone. done.
Qed.

(** ** What no call does *)

Lemma extends_refl db : extends db db.
Proof. unfold extends, same_binding, same_account. naive_solver. Qed.

Lemma extends_trans db1 db2 db3 : extends db1 db2 → extends db2 db3 → extends db1 db3.
Proof.
  intros (Hc1 & Hu1 & Hr1 & Hp1 & Hj1) (Hc2 & Hu2 & Hr2 & Hp2 & Hj2).
  split_and!; try congruence.
  - intros k c Hk. destruct (Hc1 k c Hk) as (c' & Hk' & Hb).
    destruct (Hc2 k c' Hk') as (c'' & Hk'' & Hb'). exists c''. split; [done|].
    unfold same_binding in *. destruct_and!. split_and!; congruence.
  - intros k u Hk. destruct (Hu1 k u Hk) as (u' & Hk' & Hb).
    destruct (Hu2 k u' Hk') as (u'' & Hk'' & Hb'). exists u''. split; [done|].
    unfold same_account in *. destruct_and!. split_and!; congruence.
Qed.

Lemma extends_credential db k c' :
  (∀ c, credentials db !! k = Some c → same_binding c c') →
  extends db (rewritten db k c').
Proof.
  intros Hb. split_and!; try done.
  - intros k0 c Hk. simpl. destruct (decide (k0 = k)) as [->|Hne].
    + exists c'. rewrite lookup_insert_eq. eauto.
    + exists c. rewrite lookup_insert_ne by done. split; [done|]. by repeat split.
  - intros k0 u Hk. exists u. split; [done|]. by repeat split.
Qed.

Lemma extends_user db k u' :
  (∀ u, users db !! k = Some u → same_account u u') →
  extends db (with_users db (<[k := u']> (users db))).
Proof.
  intros Hb. split_and!; try done.
  - intros k0 c Hk. exists c. split; [done|]. by repeat split.
  - intros k0 u Hk. simpl. destruct (decide (k0 = k)) as [->|Hne].
    + exists u'. rewrite lookup_insert_eq. eauto.
    + exists u. rewrite lookup_insert_ne by done. split; [done|]. by repeat split.
Qed.

Lemma extends_password_rewrite db db' : password_rewrite db db' → extends db db'.
Proof.
  intros [->|(k & c & h & s & t & Hc & _ & _ & ->)]; [apply extends_refl|].
  apply extends_credential. intros c0 Hc0. rewrite Hc in Hc0. simplify_eq.
  by repeat split.
Qed.

Lemma registerUser_extends `{Platform} cfg now salt a db :
  extends db (run (UserService.registerUser cfg now salt a) db).2.
Proof.
  pose proof (registerUser_run cfg now salt a db) as Hout.
  destruct (run (UserService.registerUser cfg now salt a) db) as [[e|b] db'];
    simpl in *; [subst; apply extends_refl|].
  destruct Hout as (u & cred & us & l & p & _ & _ & Hus & _ & Hfresh & _ & _ & -> & _).
  eapply extends_trans;
    [|apply (extends_credential (with_users db us) (pk cred) (row cred))].
  - destruct Hus as [->|[Hnone ->]].
    + destruct db; apply extends_refl.
    + apply extends_user. intros u0 Hu0. congruence.
  - simpl. intros c Hc. congruence.
Qed.

Lemma post_register_extends `{Platform} cfg now salt a db :
  extends db (run (AuthApi.post_register cfg now salt a) db).2.
Proof.
  pose proof (registerUser_extends cfg now salt a db) as Hsvc.
  unfold AuthApi.post_register.
  destruct (_ || _); [apply extends_refl|].
  unfold run in *. unfold try_catch, mbind, Run_bind, mret, Run_ret in *.
  destruct (UserService.registerUser cfg now salt a _) as [[e|b] c]; done.
Qed.

Lemma post_openid_extends `{Platform} cfg now a db :
  extends db (run (AuthApi.post_openid cfg now a) db).2.
Proof.
  unfold AuthApi.post_openid.
  destruct (AuthApi.provider a) as [p|]; [|apply extends_refl].
  destruct (AuthApi.subject a) as [s|]; [|apply extends_refl].
  destruct (AuthApi.email a) as [e|]; [|apply extends_refl].
  destruct (AuthApi.loginName a) as [l|]; [|apply extends_refl].
  destruct (_ || _); [apply extends_refl|].
  unfold AuthApi.openid_try, AuthApi.openid_find_or_create, AuthApi.null_deref, run.
  unfold_run. simpl.
  destruct (findOne (AuthApi.openid_where p s) (credentials db)) as [cred|]; simpl.
  - unfold findByPk.
    destruct (users db !! _) as [u|] eqn:Hu; simpl.
    + destruct (_ || _); simpl; [|apply extends_refl].
      apply extends_user. intros u0 Hu0. rewrite Hu in Hu0. simplify_eq.
      by repeat split.
    + destruct (_ || _); simpl; apply extends_refl.
  - destruct (UserService.find_user_by_email e db) as [u|]; simpl.
    + destruct (UserService.create_credential _ _) as [?|[cred st]] eqn:Hcc; simpl;
        [apply extends_refl|].
      apply create_credential_Some in Hcc as (Hfresh & _ & -> & _).
      apply (extends_credential db). intros c Hc. congruence.
    + destruct (UserService.create_user _ _) as [?|[u st]] eqn:Hcu; simpl;
        [apply extends_refl|].
      apply create_user_Some in Hcu as [Hufresh ->].
      destruct (UserService.create_credential _ _) as [?|[cred st]] eqn:Hcc; simpl;
        [apply extends_refl|].
      apply create_credential_Some in Hcc as (Hfresh & _ & -> & _).
      eapply extends_trans;
        [apply (extends_user db (pk u) (row u)); intros u0 Hu0; congruence|].
      apply (extends_credential (with_users db _)). simpl in *. intros c Hc. congruence.
Qed.

(** X27: what no call of [apis/auth-api.js] and [services/UserService.js]
    does.  After any sequence of calls to their entry points, every
    credential row of the initial store is still there with the same owner,
    type, login name and OpenID pair, every user row is still there with the
    same address, role and flags, and the roles, the permissions and their
    links are untouched: rows are only added, and only hashes, password
    dates, the expired flag, the active and deleted flags of credentials and
    the names of users are rewritten. *)
Theorem calls_only_extend `{Platform} cfg db calls :
  extends db (foldl (exec cfg) db calls).
Proof.
  revert db. induction calls as [|call calls IH]; intros db; [apply extends_refl|].
  simpl. eapply extends_trans; [|apply IH].
  destruct call; simpl.
  - rewrite post_login_store. apply extends_refl.
  - apply post_register_extends.
  - apply registerUser_extends.
  - apply post_openid_extends.
  - apply extends_password_rewrite, changePassword_changes.
  - apply extends_password_rewrite, post_change_password_changes.
  - rewrite post_reset_password_request_store. apply extends_refl.
  - apply extends_password_rewrite, post_reset_password_confirm_changes.
  - destruct (delete_credential_changes cfg now req credentialId db)
      as [->|(k & c & _ & Hc & _ & _ & _ & ->)]; [apply extends_refl|].
    simpl. apply extends_credential. intros c0 Hc0. rewrite Hc in Hc0. simplify_eq.
    by repeat split.
Qed.

(** ** The service's [changePassword] *)

(** X23: the two rejections of the service's [changePassword] never reach
    its caller.  Both "User not found or inactive" and "Current password is
    incorrect" are thrown after a rollback, and the [catch] rolls back
    again, which throws on the finished transaction: whenever
    [changePassword] throws, the store is as it was and the error carries
    neither message. *)
Theorem changePassword_rejections_masked `{Platform} now salt userId cur new db e db' :
  run (UserService.changePassword now salt userId cur new) db = (inl e, db') →
  db' = db
  ∧ exn_message e ≠ "User not found or inactive"
  ∧ exn_message e ≠ "Current password is incorrect".
Proof.
  unfold UserService.changePassword, UserService.changePassword_try, run.
  unfold_run. simpl.
  destruct (where_int userId) as [e0|w] eqn:Hw; simpl.
  { intros [= <- <-]. split; [done|].
    destruct userId; simpl in Hw; try done; simplify_eq; try done.
    destruct (pg_int4in _); by simplify_eq. }
  destruct (findOne _ _) as [cred|]; simpl; [|by intros [= <- <-]].
  destruct cur as [cur|]; simpl; [|by intros [= <- <-]].
  destruct (UserCredential.passwordHash (row cred)) as [h|]; simpl;
    [|by intros [= <- <-]].
  destruct (bcrypt_compare cur h); simpl; [|by intros [= <- <-]].
  destruct new as [new|]; simpl; [|by intros [= <- <-]].
  unfold update_credential, UserCredential_update, beforeValidate. simpl.
  destruct (String.eqb _ "password"); simpl.
  - destruct (_ || _); simpl; by intros [= <- <-].
  - destruct (String.eqb _ "openid"); simpl; [|done].
    destruct (_ || _); simpl; by intros [= <- <-].
Qed.

(** X24: the service's [changePassword] changes nothing for a user that is
    missing, inactive or deleted: its query joins the user with
    [isActive: true, isDeleted: false], so the call throws and the store is
    as it was. *)
Theorem changePassword_requires_live_user `{Platform} now salt userId cur new db uid :
  where_int userId = inr (Some uid) →
  (∀ u, users db !! uid = Some u → live_user u = false) →
  ∃ e, run (UserService.changePassword now salt userId cur new) db = (inl e, db).
Proof.
  intros Hw Hdead.
  unfold UserService.changePassword, UserService.changePassword_try, run.
  unfold_run. rewrite Hw. simpl.
  assert (findOne (UserService.changePassword_where db (Some uid)) (credentials db)
          = None) as ->.
  { apply findOne_None. intros k c _.
    unfold UserService.changePassword_where, password_credential_where. simpl.
    destruct (Z.eqb_spec (UserCredential.userId c) uid) as [->|]; [|done]. simpl.
    destruct (users db !! uid) as [u|]; [|by rewrite andb_false_r].
    by rewrite (Hdead u eq_refl), andb_false_r. }
  simpl. by eexists.
Qed.

(** ** Routes that only read *)

(** X25: POST /login, POST /reset-password-request, GET /me and GET
    /credentials never write: whatever the request, the store after the call
    is the store before it. *)
Theorem read_routes_never_write `{Platform} cfg now db l p mail_ok email req :
  (run (AuthApi.post_login cfg now l p) db).2 = db
  ∧ (run (AuthApi.post_reset_password_request cfg now mail_ok email) db).2 = db
  ∧ (run (AuthApiReads.get_me cfg now req) db).2 = db
  ∧ (run (AuthApiReads.get_credentials cfg now req) db).2 = db.
Proof.
  split; [apply post_login_store|].
  split; [apply post_reset_password_request_store|]. split.
  - unfold AuthApiReads.get_me.
    destruct (AuthApi.authenticateToken cfg now req) as [req'|]; [|done].
    unfold run. unfold_run.
    destruct (AuthApiReads.find_user_by_pk _ _) as [?|[?|]]; done.
  - unfold AuthApiReads.get_credentials.
    destruct (AuthApi.authenticateToken cfg now req) as [req'|]; [|done].
    unfold run. unfold_run.
    destruct (where_int _); done.
Qed.

(** X26: with a working mailer, the answer to POST /reset-password-request
    does not depend on the store: the same request gets the same response
    whether or not a user has the address. *)
Theorem reset_request_hides_accounts cfg now email db1 db2 :
  ∃ resp t1 t2,
    run (AuthApi.post_reset_password_request cfg now true email) db1
    = (inr (resp, t1), db1)
    ∧ run (AuthApi.post_reset_password_request cfg now true email) db2
      = (inr (resp, t2), db2).
Proof.
  unfold AuthApi.post_reset_password_request.
  destruct email as [e|]; [|by eexists _, _, _].
  destruct (negb _); [by eexists _, _, _|].
  unfold run. unfold_run. simpl.
  destruct (UserService.find_user_by_email e db1),
    (UserService.find_user_by_email e db2); by eexists _, _, _.
Qed.

(** ** The unique indexes on small tables *)

Lemma unique_email_singleton k u : unique_email {[k := u]}.
Proof.
  intros k1 u1 k2 u2 [-> _]%lookup_singleton_Some [-> _]%lookup_singleton_Some _.
  done.
Qed.

(** A row whose (login name, type) pair no other row holds keeps the index. *)
Lemma unique_login_insert (m : gmap Z UserCredential.t) k c :
  unique_login m →
  (∀ k' c', m !! k' = Some c' → k' ≠ k →
            UserCredential.loginName c' = UserCredential.loginName c →
            UserCredential.authType c' ≠ UserCredential.authType c) →
  unique_login (<[k := c]> m).
Proof.
  intros Hm Hnew k1 c1 k2 c2 H1 H2 Hl Ha.
  apply lookup_insert_Some in H1 as [[<- <-]|[Hne1 H1]];
    apply lookup_insert_Some in H2 as [[<- <-]|[Hne2 H2]]; try done.
  - exfalso. by eapply (Hnew k2 c2).
  - exfalso. by eapply (Hnew k1 c1).
  - by eapply Hm.
Qed.

(** * Examples, on the concrete store *)

Section Examples.

#[local] Existing Instance Demo.platform.

(** C1, on the code: Alice's role holds [LIST_PROFILES], the Guard accepts
    her token and attaches the permission list [["LIST_PROFILES"]], and the
    gate [requirePermissions('LIST_PROFILES')] still answers 403, because it
    looks the code up among the permission instances of
    [req.userRecord.role.permissions], not among the codes of
    [req.permissions]. *)
Theorem requirePermissions_rejects_granted_code :
  ∃ tok req,
    Demo.alice_session = Some tok
    ∧ Middleware.authGuard Demo.cfg 300 Demo.registered (Demo.bearer_of tok) = Next req
    ∧ req_permissions req = ["LIST_PROFILES"]
    ∧ Middleware.requirePermissions ["LIST_PROFILES"] req
      = Respond 403 "You do not have the required permissions to access this resource".
Proof. eexists _, _. repeat split; vm_compute; reflexivity. Qed.

Lemma reset_token_guard_outcome_witness :
  run (AuthApi.post_reset_password_request Demo.cfg 300 true (Some "a@x.com"))
      Demo.registered
  = (inr (json 200 AuthApi.generic_reset_message, Some Demo.alice_reset_token),
     Demo.registered)
  ∧ (400 < 300 + 3600)%Z
  ∧ ∃ uid u0,
      users Demo.registered !! uid = Some u0
      ∧ payload Demo.alice_reset_token
        = [("userId", JNum uid); ("email", JStr (User.email u0))]
      ∧ Middleware.authGuard Demo.cfg 400 Demo.registered
          (incoming (Some [Garbage "Bearer"; Jwt Demo.alice_reset_token]))
        = guard_outcome Demo.registered [Garbage "Bearer"; Jwt Demo.alice_reset_token]
            (payload Demo.alice_reset_token) uid.
Proof.
  assert (run (AuthApi.post_reset_password_request Demo.cfg 300 true (Some "a@x.com"))
              Demo.registered
          = (inr (json 200 AuthApi.generic_reset_message, Some Demo.alice_reset_token),
             Demo.registered)) as Hrun by (vm_compute; reflexivity).
  assert (400 < 300 + 3600)%Z as Hnow by lia.
  split; [exact Hrun|]. split; [exact Hnow|].
  exact (reset_token_guard_outcome Demo.cfg 300 true (Some "a@x.com") Demo.registered
           _ _ _ 400 Demo.registered (Garbage "Bearer") Hrun Hnow).
Defined.

(** C2, as stated, fails: the reset token mailed to Alice carries only
    [userId] and [email], and the Guard lets a request bearing it through. *)
Lemma reset_token_accepted_as_session :
  Demo.alice_reset = Some Demo.alice_reset_token
  ∧ keys (payload Demo.alice_reset_token) = ["userId"; "email"]
  ∧ ∃ req,
      Middleware.authGuard Demo.cfg 400 Demo.registered
        (Demo.bearer_of Demo.alice_reset_token) = Next req.
Proof. split; [|split]; [vm_compute; reflexivity..|]. eexists. vm_compute. reflexivity. Qed.

Lemma openid_idempotent_witness :
  run (AuthApi.post_openid Demo.cfg 500 Demo.bob) Demo.seeded
  = (inr (Demo.bob_response, Some Demo.bob_credential), Demo.after_bob)
  ∧ credentials Demo.after_bob !! pk Demo.bob_credential
    = Some (row Demo.bob_credential)
  ∧ UserCredential.openIdProvider (row Demo.bob_credential) = AuthApi.provider Demo.bob
  ∧ UserCredential.openIdSubject (row Demo.bob_credential) = AuthApi.subject Demo.bob
  ∧ live (row Demo.bob_credential) = true
  ∧ ∃ resp2 db2,
      run (AuthApi.post_openid Demo.cfg 600 Demo.bob) Demo.after_bob
      = (inr (resp2, Some Demo.bob_credential), db2)
      ∧ status resp2 = 200
      ∧ credentials db2 = credentials Demo.after_bob
      ∧ ∀ k, is_Some (users db2 !! k) ↔ is_Some (users Demo.after_bob !! k).
Proof.
  assert (run (AuthApi.post_openid Demo.cfg 500 Demo.bob) Demo.seeded
          = (inr (Demo.bob_response, Some Demo.bob_credential), Demo.after_bob))
    as Hrun by (vm_compute; reflexivity).
  split; [exact Hrun|].
  exact (openid_idempotent Demo.cfg 500 600 Demo.bob Demo.bob Demo.seeded _ _ _
           Hrun eq_refl eq_refl eq_refl eq_refl).
Defined.

Lemma issued_token_claims_witness :
  run (authenticate Demo.cfg 200 (ViaLogin (Some "a") (Some "pw12345678")))
      Demo.registered
  = (inr Demo.alice_login, Demo.registered)
  ∧ token (body Demo.alice_login) = Some Demo.alice_session_token
  ∧ ∃ u c,
      user (body Demo.alice_login) = Some u
      ∧ users Demo.registered !! pk u = Some (row u)
      ∧ credentials Demo.registered !! pk c = Some (row c)
      ∧ UserCredential.userId (row c) = pk u
      ∧ credential_of_flow 200 (ViaLogin (Some "a") (Some "pw12345678"))
          Demo.registered c
      ∧ session_claims u c (payload Demo.alice_session_token).
Proof.
  assert (run (authenticate Demo.cfg 200 (ViaLogin (Some "a") (Some "pw12345678")))
              Demo.registered
          = (inr Demo.alice_login, Demo.registered)) as Hrun
    by (vm_compute; reflexivity).
  assert (token (body Demo.alice_login) = Some Demo.alice_session_token) as Htok
    by (vm_compute; reflexivity).
  split; [exact Hrun|]. split; [exact Htok|].
  exact (issued_token_claims Demo.cfg 200 (ViaLogin (Some "a") (Some "pw12345678"))
           Demo.registered _ _ _ Hrun Htok).
Defined.

(** C3, as stated, fails for register: the token in the 201 answer to
    Alice's registration has the claims [userId], [roleId] and
    [credentialId], and neither [email] nor [loginName] nor [authType]. *)
Lemma register_token_lacks_session_claims :
  run (AuthApi.post_register Demo.cfg 100 "salt" Demo.alice) Demo.seeded
  = (inr Demo.alice_registration, Demo.registered)
  ∧ status Demo.alice_registration = 201
  ∧ token (body Demo.alice_registration) = Some Demo.alice_register_token
  ∧ keys (payload Demo.alice_register_token) = ["userId"; "roleId"; "credentialId"]
  ∧ get (payload Demo.alice_register_token) "email" = JUndefined
  ∧ get (payload Demo.alice_register_token) "loginName" = JUndefined
  ∧ get (payload Demo.alice_register_token) "authType" = JUndefined.
Proof. split_and!; vm_compute; reflexivity. Qed.

Lemma login_succeeds_or_401_witness :
  ∃ resp,
    run (AuthApi.post_login Demo.cfg 200 (Some "a") (Some "pw12345678")) Demo.registered
    = (inr resp, Demo.registered)
    ∧ if UserCredential.passwordExpired Demo.alice_credential
      then resp = json 401 "Password has expired. Please reset your password."
      else if bcrypt_compare "pw12345678" "h:pw12345678"
      then status resp = 200
           ∧ ∃ tok, token (body resp) = Some tok
                    ∧ signed_with tok = jwt_secret Demo.cfg
                    ∧ get (payload tok) "userId"
                      = JNum (UserCredential.userId Demo.alice_credential)
      else resp = json 401 "Invalid login credentials".
Proof.
  assert (credentials Demo.registered = {[1%Z := Demo.alice_credential]}) as Hm
    by (vm_compute; reflexivity).
  refine (login_succeeds_or_401 Demo.cfg 200 Demo.registered 1 Demo.alice_credential
            Demo.alice_user "h:pw12345678" "a" "pw12345678" _ _ _ _ _ _ _ _ _ _).
  - vm_compute; reflexivity.
  - reflexivity.
  - reflexivity.
  - reflexivity.
  - vm_compute; reflexivity.
  - reflexivity.
  - reflexivity.
  - rewrite Hm. apply unique_login_singleton.
  - discriminate.
  - discriminate.
Defined.

(** C4, as stated, fails for the expired state: Alice's credential is
    marked expired, she logs in with her password, and the answer is a 401
    whose message is not the generic one. *)
Lemma expired_password_not_generic_401 :
  credentials Scenes.expired !! 1%Z = Some Scenes.alice_expired
  ∧ UserCredential.loginName Scenes.alice_expired = "a"
  ∧ UserCredential.authType Scenes.alice_expired = "password"
  ∧ live Scenes.alice_expired = true
  ∧ users Scenes.expired !! UserCredential.userId Scenes.alice_expired
    = Some Demo.alice_user
  ∧ live_user Demo.alice_user = true
  ∧ UserCredential.passwordExpired Scenes.alice_expired = true
  ∧ bcrypt_compare "pw12345678" "h:pw12345678" = true
  ∧ run (AuthApi.post_login Demo.cfg 200 (Some "a") (Some "pw12345678")) Scenes.expired
    = (inr (json 401 "Password has expired. Please reset your password."),
       Scenes.expired)
  ∧ json 401 "Password has expired. Please reset your password."
    ≠ json 401 "Invalid login credentials".
Proof. split_and!; [vm_compute; reflexivity..|discriminate]. Qed.



Lemma delete_credential_scoped_to_owner_witness :
  credentials (run (AuthApi.delete_credential Demo.cfg 700
                      (Demo.bearer_of Demo.alice_session_token) "3")
                   Demo.crowded).2 !! 3%Z
  = Some Demo.bob_credential_row
  ∧ match authenticated_as Demo.cfg 700 (Demo.bearer_of Demo.alice_session_token) with
    | Some _ =>
        run (AuthApi.delete_credential Demo.cfg 700
               (Demo.bearer_of Demo.alice_session_token) "3") Demo.crowded
        = (inr (json 404 "Credential not found"), Demo.crowded)
    | None =>
        (run (AuthApi.delete_credential Demo.cfg 700
                (Demo.bearer_of Demo.alice_session_token) "3") Demo.crowded).2
        = Demo.crowded
    end.
Proof.
  refine (delete_credential_scoped_to_owner Demo.cfg 700
            (Demo.bearer_of Demo.alice_session_token) "3" "3" Demo.crowded 3
            Demo.bob_credential_row _ _ _).
  - vm_compute; reflexivity.
  - vm_compute; discriminate.
  - vm_compute; reflexivity.
Defined.

Lemma change_password_without_user_check_witness :
  (∀ req0 cur0 new0 db0,
     run (AuthApi.post_change_password Demo.cfg 700 "salt2" req0 cur0 new0)
         (with_users db0 Demo.alice_deactivated)
     = let '(r, db') :=
         run (AuthApi.post_change_password Demo.cfg 700 "salt2" req0 cur0 new0) db0 in
       (r, with_users db' Demo.alice_deactivated))
  ∧ ∃ c',
      password_replaced Demo.alice_credential c'
        (bcrypt_hash "newpassword1" "salt2") "salt2" 700
      ∧ run (AuthApi.post_change_password Demo.cfg 700 "salt2"
               (Demo.bearer_of Demo.alice_session_token)
               (Some "pw12345678") (Some "newpassword1"))
            (with_users Demo.registered Demo.alice_deactivated)
        = (inr (json 200 "Password changed successfully"),
           with_users (rewritten Demo.registered 1 c') Demo.alice_deactivated).
Proof.
  assert (authenticated_as Demo.cfg 700 (Demo.bearer_of Demo.alice_session_token)
          = Some 1%Z) as Hauth by (vm_compute; reflexivity).
  assert (credentials Demo.registered = {[1%Z := Demo.alice_credential]}) as Hm
    by (vm_compute; reflexivity).
  assert (sole_password_credential (credentials Demo.registered) 1 1
            Demo.alice_credential) as Hsole
    by (rewrite Hm; exact (sole_password_credential_singleton 1
                             Demo.alice_credential eq_refl eq_refl)).
  assert (bcrypt_compare "pw12345678" "h:pw12345678" = true) as Hcmp
    by (vm_compute; reflexivity).
  assert ("pw12345678" ≠ "") as Hcur by discriminate.
  assert (8 ≤ js_length "newpassword1")%nat as Hlen by (vm_compute; lia).
  assert (bcrypt_hash "newpassword1" "salt2" ≠ "") as Hhash by discriminate.
  exact (change_password_without_user_check Demo.cfg 700 "salt2"
           (Demo.bearer_of Demo.alice_session_token) "pw12345678" "newpassword1"
           Demo.registered 1 1 Demo.alice_credential "h:pw12345678"
           Demo.alice_deactivated Hauth Hsole eq_refl Hcmp Hcur Hlen Hhash eq_refl).
Defined.

Lemma credentials_stay_mutually_exclusive_witness :
  mutual_exclusive Demo.bob_credential_row.
Proof.
  refine (credentials_stay_mutually_exclusive Demo.cfg Demo.seeded
            [CallRegister 100 "salt" Demo.alice;
             CallOpenId 500 Demo.alice_openid;
             CallOpenId 600 Demo.bob;
             CallChangePassword 700 "salt2" (Demo.bearer_of Demo.alice_session_token)
               (Some "pw12345678") (Some "newpassword1");
             CallDeleteCredential 800 (Demo.bearer_of Demo.alice_session_token) "2"]
            3 Demo.bob_credential_row _ _).
  - apply map_Forall_empty.
  - vm_compute; reflexivity.
Defined.

(** The scenario of the specification: after registering, Alice logs in
    with her password and gets 200, and with a wrong one gets the 401. *)
Example login_scenario :
  status Demo.alice_login = 200
  ∧ (run (AuthApi.post_login Demo.cfg 200 (Some "a") (Some "wrongpw")) Demo.registered).1
    = inr (json 401 "Invalid login credentials").
Proof. split; vm_compute; reflexivity. Qed.

(** A registration that fails after its user row was written inside the
    transaction: Carol's address is new, her login name is taken.  Nothing
    of Carol is in the store afterwards. *)
Example register_taken_login_rolls_back :
  UserService.find_user_by_email "c@x.com" Demo.registered = None
  ∧ ∃ resp,
      run (AuthApi.post_register Demo.cfg 900 "salt" Demo.carol) Demo.registered
      = (inr resp, Demo.registered)
      ∧ status resp = 500.
Proof. split; [vm_compute; reflexivity|]. eexists. split; vm_compute; reflexivity. Qed.

(** Alice cannot delete her only credential, and can delete one of two. *)
Example delete_only_credential_refused :
  run (AuthApi.delete_credential Demo.cfg 700
         (Demo.bearer_of Demo.alice_session_token) "1") Demo.registered
  = (inr (json 400 "Cannot delete the only credential for this user"), Demo.registered).
Proof. vm_compute; reflexivity. Qed.

Example delete_one_of_two :
  count (AuthApi.live_credentials_of (Some 1%Z)) (credentials Demo.linked) = 2%nat
  ∧ ∃ db',
      run (AuthApi.delete_credential Demo.cfg 700
             (Demo.bearer_of Demo.alice_session_token) "2") Demo.linked
      = (inr (json 200 "Credential deleted successfully"), db')
      ∧ count (AuthApi.live_credentials_of (Some 1%Z)) (credentials db') = 1%nat.
Proof. split; [vm_compute; reflexivity|]. eexists. split; vm_compute; reflexivity. Qed.

(** A token that expires at once is rejected by the Guard as expired. *)
Example zero_expiry_rejected :
  Middleware.authGuard Demo.cfg 200 Demo.registered
    (Demo.bearer_of (jwt_sign [("userId", JNum 1)] "test-secret-key" 0 200))
  = Respond 403 "Token expired".
Proof. vm_compute; reflexivity. Qed.

(** ** The further properties, on the concrete store *)

Lemma authGuard_postcondition_witness :
  ∃ tok decoded uid ur,
    bearer (Demo.bearer_of Demo.alice_session_token) = Some tok
    ∧ jwt_verify tok (jwt_secret Demo.cfg) 300 = inr decoded
    ∧ req_user Scenes.alice_guarded = Some (guard_user decoded)
    ∧ (truthy (get decoded "userId") = true
       → req_user Scenes.alice_guarded = Some decoded)
    ∧ truthy (get (guard_user decoded) "userId") = true
    ∧ where_int (get decoded "userId") = inr (Some uid)
    ∧ userRecord Scenes.alice_guarded = Some ur
    ∧ pk (instance ur) = uid
    ∧ users Demo.registered !! uid = Some (row (instance ur))
    ∧ live_user (row (instance ur)) = true
    ∧ role ur = Middleware.load_role Demo.registered (row (instance ur))
    ∧ ∃ r0, Middleware.authenticateToken Demo.cfg 300
              (Demo.bearer_of Demo.alice_session_token) = Next r0
            ∧ req_user r0 = Some decoded.
Proof.
  assert (Middleware.authGuard Demo.cfg 300 Demo.registered
            (Demo.bearer_of Demo.alice_session_token) = Next Scenes.alice_guarded)
    as Hg by (vm_compute; reflexivity).
  exact (authGuard_postcondition Demo.cfg 300 Demo.registered _ _ Hg).
Defined.


Lemma authGuard_attaches_live_codes_witness :
  "LIST_PROFILES" ∈ req_permissions Scenes.alice_guarded ↔
  ∃ ur rid pid prow,
    userRecord Scenes.alice_guarded = Some ur
    ∧ User.roleId (row (instance ur)) = Some rid
    ∧ is_Some (roles Demo.registered !! rid)
    ∧ (rid, pid) ∈ rolePermissions Demo.registered
    ∧ permissions Demo.registered !! pid = Some prow
    ∧ Permission.code prow = "LIST_PROFILES".
Proof.
  assert (Middleware.authGuard Demo.cfg 300 Demo.registered
            (Demo.bearer_of Demo.alice_session_token) = Next Scenes.alice_guarded)
    as Hg by (vm_compute; reflexivity).
  exact (authGuard_attaches_live_codes Demo.cfg 300 Demo.registered _ _
           "LIST_PROFILES" Hg).
Defined.

(** Alice is an Auditor (role 2): a gate for roles 1 and 2 lets her in. *)
Lemma authorizeRoles_after_token_witness :
  Gates.authorizeRoles [1%Z; 2%Z] Scenes.alice_authenticated
  = match get (payload Demo.alice_session_token) "roleId" with
    | JNum n =>
        if decide (n ∈ [1%Z; 2%Z]) then Next Scenes.alice_authenticated
        else Respond 403 "Insufficient permissions to access this resource"
    | _ => Respond 403 "Insufficient permissions to access this resource"
    end.
Proof.
  assert (Middleware.authenticateToken Demo.cfg 300
            (Demo.bearer_of Demo.alice_session_token)
          = Next Scenes.alice_authenticated) as Ha by (vm_compute; reflexivity).
  assert (bearer (Demo.bearer_of Demo.alice_session_token)
          = Some (Jwt Demo.alice_session_token)) as Hb by reflexivity.
  exact (authorizeRoles_after_token Demo.cfg 300 _ _ _ [1%Z; 2%Z] Ha Hb).
Defined.

(** Root, whose token says role 1, passes the owner gate of Alice's
    profile. *)
Lemma ownerGuard_admin_claim_witness :
  Gates.ownerGuard (Gates.profile_owner Scenes.with_root "a@x.com") Scenes.root_guarded
  = Next Scenes.root_guarded.
Proof.
  assert (Middleware.authGuard Demo.cfg 300 Scenes.with_root
            (Demo.bearer_of Scenes.root_session_token) = Next Scenes.root_guarded)
    as Hg by (vm_compute; reflexivity).
  assert (bearer (Demo.bearer_of Scenes.root_session_token)
          = Some (Jwt Scenes.root_session_token)) as Hb by reflexivity.
  assert (get (payload Scenes.root_session_token) "roleId" = JNum 1)
    as Hr by reflexivity.
  assert (Gates.profile_owner Scenes.with_root "a@x.com" Scenes.root_guarded
          = inr (JNum 1)) as Ho by (vm_compute; reflexivity).
  exact (ownerGuard_admin_claim Demo.cfg 300 Scenes.with_root _ _ _ _ _ Hg Hb Hr Ho).
Defined.

Lemma profile_gate_own_profile_only_witness :
  Gates.ownerGuard (Gates.profile_owner Demo.registered "a@x.com") Scenes.alice_guarded
  = match users Demo.registered !! 1%Z with
    | Some u =>
        if String.eqb (User.email u) "a@x.com" && negb (User.isDeleted u)
        then Next Scenes.alice_guarded
        else Respond 403 "You do not have permission to access this resource"
    | None => Respond 403 "You do not have permission to access this resource"
    end.
Proof.
  assert (users Demo.registered = {[1%Z := Demo.alice_user]}) as Hm
    by (vm_compute; reflexivity).
  assert (unique_email (users Demo.registered)) as Huniq
    by (rewrite Hm; apply unique_email_singleton).
  assert (req_user Scenes.alice_guarded = Some (payload Demo.alice_session_token))
    as Hreq by reflexivity.
  assert (get (payload Demo.alice_session_token) "userId" = JNum 1)
    as Hid by reflexivity.
  assert (Gates.strict_eq (get (payload Demo.alice_session_token) "roleId") (JNum 1)
          = false) as Hrole by reflexivity.
  exact (profile_gate_own_profile_only Demo.registered "a@x.com" _ _ 1
           Huniq Hreq Hid Hrole).
Defined.

(** Alice's token of time 200, presented at time 5000. *)
Lemma session_token_lifetime_witness :
  ∃ uid,
    get (payload Demo.alice_session_token) "userId" = JNum uid
    ∧ is_Some (users Demo.registered !! uid)
    ∧ Middleware.authGuard Demo.cfg 5000 Demo.registered
        (incoming (Some [Garbage "Bearer"; Jwt Demo.alice_session_token]))
      = if (5000 <? 200 + jwt_expiresIn Demo.cfg)%Z
        then guard_outcome Demo.registered [Garbage "Bearer"; Jwt Demo.alice_session_token]
               (payload Demo.alice_session_token) uid
        else Respond 403 "Token expired".
Proof.
  assert (run (authenticate Demo.cfg 200 (ViaLogin (Some "a") (Some "pw12345678")))
              Demo.registered
          = (inr Demo.alice_login, Demo.registered)) as Hrun
    by (vm_compute; reflexivity).
  assert (token (body Demo.alice_login) = Some Demo.alice_session_token) as Htok
    by (vm_compute; reflexivity).
  exact (session_token_lifetime Demo.cfg 200 _ Demo.registered _ _ _ 5000
           Demo.registered (Garbage "Bearer") Hrun Htok).
Defined.



Lemma change_password_wrong_current_witness :
  run (AuthApi.post_change_password Demo.cfg 400 "salt2"
         (Demo.bearer_of Demo.alice_session_token) (Some "wrong") (Some "newpassword"))
      Demo.registered
  = (inr (json 400 "Current password is incorrect"), Demo.registered).
Proof.
  assert (authenticated_as Demo.cfg 400 (Demo.bearer_of Demo.alice_session_token)
          = Some 1%Z) as Hauth by (vm_compute; reflexivity).
  assert (credentials Demo.registered = {[1%Z := Demo.alice_credential]}) as Hm
    by (vm_compute; reflexivity).
  assert (sole_password_credential (credentials Demo.registered) 1 1
            Demo.alice_credential) as Hsole
    by (rewrite Hm; exact (sole_password_credential_singleton 1
                             Demo.alice_credential eq_refl eq_refl)).
  assert (UserCredential.passwordHash Demo.alice_credential = Some "h:pw12345678")
    as Hh by reflexivity.
  assert (bcrypt_compare "wrong" "h:pw12345678" = false) as Hcmp
    by (vm_compute; reflexivity).
  assert ("wrong" ≠ "") as Hcur by discriminate.
  assert (8 ≤ js_length "newpassword")%nat as Hlen by (vm_compute; lia).
  exact (change_password_wrong_current Demo.cfg 400 "salt2" _ "wrong" "newpassword"
           Demo.registered 1 1 Demo.alice_credential "h:pw12345678"
           Hauth Hsole Hh Hcmp Hcur Hlen).
Defined.


(** Carol asks for Alice's login name: 500, and nothing is written. *)
Lemma register_taken_login_name_witness :
  ∃ resp,
    run (AuthApi.post_register Demo.cfg 900 "salt" Demo.carol) Demo.registered
    = (inr resp, Demo.registered)
    ∧ status resp = 500.
Proof.
  assert (UserService.find_password_login "a" Demo.registered
          = Some (1%Z, Demo.alice_credential)) as Htaken by (vm_compute; reflexivity).
  assert ("a" ≠ "") as Hl by discriminate.
  exact (register_taken_login_name Demo.cfg 900 "salt" Demo.carol Demo.registered "a"
           _ eq_refl eq_refl eq_refl eq_refl eq_refl Hl Htaken).
Defined.

(** Dan registers with Alice's address: he gets a credential of Alice's
    account and a token in her name. *)
Lemma register_existing_email_witness :
  let cred := registered_credential 800 "salt" 1 "dan" "dandandan" in
  ∃ k,
    credentials Demo.registered !! k = None
    ∧ run (AuthApi.post_register Demo.cfg 800 "salt" Scenes.dan) Demo.registered
      = (inr {| status := 201;
                body := {| message := "User registered successfully";
                           token := Some (UserService.generateToken Demo.cfg 800
                                            (1%Z, Demo.alice_user) (k, cred));
                           user := Some (1%Z, Demo.alice_user);
                           body_permissions := [] |} |},
         rewritten Demo.registered k cred).
Proof.
  assert (UserService.find_user_by_email "a@x.com" Demo.registered
          = Some (1%Z, Demo.alice_user)) as Hu by (vm_compute; reflexivity).
  assert (UserService.find_password_login "dan" Demo.registered = None) as Hfree
    by (vm_compute; reflexivity).
  assert (bcrypt_hash "dandandan" "salt" ≠ "") as Hhash by discriminate.
  assert ("a@x.com" ≠ "") as H1 by discriminate.
  assert ("D" ≠ "") as H2 by discriminate.
  assert ("N" ≠ "") as H3 by discriminate.
  assert ("dan" ≠ "") as H4 by discriminate.
  assert ("dandandan" ≠ "") as H5 by discriminate.
  exact (register_existing_email Demo.cfg 800 "salt" Scenes.dan Demo.registered
           "a@x.com" (1%Z, Demo.alice_user) "D" "N" "dan" "dandandan"
           eq_refl H1 eq_refl H2 eq_refl H3 eq_refl H4 eq_refl H5 Hu Hfree Hhash).
Defined.

(** Root registers without a role and gets role 1. *)
Lemma register_new_email_witness :
  let u := registered_user Scenes.root "r@x.com" "R" "T" in
  ∃ uid k,
    users Demo.registered !! uid = None
    ∧ credentials Demo.registered !! k = None
    ∧ let cred := registered_credential 150 "salt" uid "root" "rootrootroot" in
      run (AuthApi.post_register Demo.cfg 150 "salt" Scenes.root) Demo.registered
      = (inr {| status := 201;
                body := {| message := "User registered successfully";
                           token := Some (UserService.generateToken Demo.cfg 150
                                            (uid, u) (k, cred));
                           user := Some (uid, u); body_permissions := [] |} |},
         with_credentials
           (with_users Demo.registered (<[uid := u]> (users Demo.registered)))
           (<[k := cred]> (credentials Demo.registered))).
Proof.
  assert (isEmail "r@x.com" = true) as Hmail by (vm_compute; reflexivity).
  assert (UserService.find_user_by_email "r@x.com" Demo.registered = None) as Hnew
    by (vm_compute; reflexivity).
  assert (UserService.find_password_login "root" Demo.registered = None) as Hfree
    by (vm_compute; reflexivity).
  assert (bcrypt_hash "rootrootroot" "salt" ≠ "") as Hhash by discriminate.
  assert ("r@x.com" ≠ "") as H1 by discriminate.
  assert ("R" ≠ "") as H2 by discriminate.
  assert ("T" ≠ "") as H3 by discriminate.
  assert ("root" ≠ "") as H4 by discriminate.
  assert ("rootrootroot" ≠ "") as H5 by discriminate.
  exact (register_new_email Demo.cfg 150 "salt" Scenes.root Demo.registered
           "r@x.com" "R" "T" "root" "rootrootroot"
           eq_refl Hmail eq_refl H2 eq_refl H3 eq_refl H4 eq_refl H5 H1
           Hnew Hfree Hhash).
Defined.

Lemma register_then_login_witness :
  ∃ resp2 tok2,
    run (AuthApi.post_login Demo.cfg 200 (Some "a") (Some "pw12345678")) Demo.registered
    = (inr resp2, Demo.registered)
    ∧ status resp2 = 200
    ∧ token (body resp2) = Some tok2
    ∧ get (payload tok2) "userId" = JNum (pk (1%Z, Demo.alice_user)).
Proof.
  assert (run (AuthApi.post_register Demo.cfg 100 "salt" Demo.alice) Demo.seeded
          = (inr Demo.alice_registration, Demo.registered)) as Hrun
    by (vm_compute; reflexivity).
  assert (status Demo.alice_registration = 201) as Hst by (vm_compute; reflexivity).
  assert (user (body Demo.alice_registration) = Some (1%Z, Demo.alice_user)) as Hbu
    by (vm_compute; reflexivity).
  assert (bcrypt_compare "pw12345678" (bcrypt_hash "pw12345678" "salt") = true)
    as Hcmp by (vm_compute; reflexivity).
  exact (register_then_login Demo.cfg 100 "salt" Demo.alice Demo.seeded _ _
           (1%Z, Demo.alice_user) "a" "pw12345678" 200
           Hrun Hst Hbu eq_refl eq_refl eq_refl Hcmp).
Defined.

(** Alice, deactivated and deleted, still signs in through OpenID. *)
Lemma openid_signin_ignores_user_flags_witness :
  ∃ resp tok u' db',
    run (AuthApi.post_openid Demo.cfg 900 Demo.alice_openid) Scenes.linked_deactivated
    = (inr (resp, Some (2%Z, Demo.alice_openid_credential)), db')
    ∧ status resp = 200
    ∧ token (body resp) = Some tok
    ∧ get (payload tok) "userId"
      = JNum (UserCredential.userId (row (2%Z, Demo.alice_openid_credential)))
    ∧ credentials db' = credentials Scenes.linked_deactivated
    ∧ users db'
      = <[UserCredential.userId (row (2%Z, Demo.alice_openid_credential)) := u']>
          (users Scenes.linked_deactivated)
    ∧ User.email u' = User.email Scenes.alice_gone
    ∧ User.isActive u' = User.isActive Scenes.alice_gone
    ∧ User.isDeleted u' = User.isDeleted Scenes.alice_gone
    ∧ User.roleId u' = User.roleId Scenes.alice_gone.
Proof.
  assert (findOne (AuthApi.openid_where "google" "sub-a")
            (credentials Scenes.linked_deactivated)
          = Some (2%Z, Demo.alice_openid_credential)) as Hf by (vm_compute; reflexivity).
  assert (users Scenes.linked_deactivated
            !! UserCredential.userId (row (2%Z, Demo.alice_openid_credential))
          = Some Scenes.alice_gone) as Hu by (vm_compute; reflexivity).
  assert ("google" ≠ "") as H1 by discriminate.
  assert ("sub-a" ≠ "") as H2 by discriminate.
  assert ("a@x.com" ≠ "") as H3 by discriminate.
  assert ("alice-g" ≠ "") as H4 by discriminate.
  exact (openid_signin_ignores_user_flags Demo.cfg 900 Demo.alice_openid
           Scenes.linked_deactivated "google" "sub-a" "a@x.com" "alice-g" _ _
           eq_refl H1 eq_refl H2 eq_refl H3 eq_refl H4 Hf Hu).
Defined.

(** Eve presents a new pair with Alice's address and gets a token in
    Alice's name. *)
Lemma openid_links_existing_email_witness :
  let cred := openid_credential (pk (1%Z, Demo.alice_user)) "eve" "github" "sub-e" in
  ∃ k resp,
    credentials Demo.registered !! k = None
    ∧ run (AuthApi.post_openid Demo.cfg 900 Scenes.eve) Demo.registered
      = (inr (resp, Some (k, cred)), rewritten Demo.registered k cred)
    ∧ status resp = 200
    ∧ token (body resp)
      = Some (AuthApi.generateToken Demo.cfg 900 (1%Z, Demo.alice_user) (k, cred))
    ∧ user (body resp) = Some (1%Z, Demo.alice_user).
Proof.
  assert (findOne (AuthApi.openid_where "github" "sub-e") (credentials Demo.registered)
          = None) as Hnone by (vm_compute; reflexivity).
  assert (UserService.find_user_by_email "a@x.com" Demo.registered
          = Some (1%Z, Demo.alice_user)) as Hu by (vm_compute; reflexivity).
  assert (findOne (same_openid (openid_credential (pk (1%Z, Demo.alice_user))
                                  "eve" "github" "sub-e"))
            (credentials Demo.registered) = None) as Ho by (vm_compute; reflexivity).
  assert (findOne (same_login (openid_credential (pk (1%Z, Demo.alice_user))
                                 "eve" "github" "sub-e"))
            (credentials Demo.registered) = None) as Hl by (vm_compute; reflexivity).
  assert ("github" ≠ "") as H1 by discriminate.
  assert ("sub-e" ≠ "") as H2 by discriminate.
  assert ("a@x.com" ≠ "") as H3 by discriminate.
  assert ("eve" ≠ "") as H4 by discriminate.
  exact (openid_links_existing_email Demo.cfg 900 Scenes.eve Demo.registered
           "github" "sub-e" "a@x.com" "eve" (1%Z, Demo.alice_user)
           eq_refl H1 eq_refl H2 eq_refl H3 eq_refl H4 Hnone Hu Ho Hl).
Defined.

(** After Alice deleted her OpenID credential, the pair cannot sign in or
    be bound again. *)
Lemma openid_dead_pair_locked_out_witness :
  run (AuthApi.post_openid Demo.cfg 900 Demo.alice_openid) Scenes.unlinked
  = (inr (json 400 "Provider, subject, email, and login name are required", None),
     Scenes.unlinked)
  ∨ run (AuthApi.post_openid Demo.cfg 900 Demo.alice_openid) Scenes.unlinked
    = (inr (json 500 "Authentication failed", None), Scenes.unlinked).
Proof.
  assert (credentials Scenes.unlinked !! 2%Z
          = Some (AuthApi.soft_deleted Demo.alice_openid_credential)) as Hc
    by (vm_compute; reflexivity).
  assert (findOne (AuthApi.openid_where "google" "sub-a") (credentials Scenes.unlinked)
          = None) as Hnone by (vm_compute; reflexivity).
  exact (openid_dead_pair_locked_out Demo.cfg 900 Demo.alice_openid Scenes.unlinked
           "google" "sub-a" 2 _ eq_refl eq_refl Hc eq_refl eq_refl Hnone).
Defined.

Lemma credentials_listing_witness :
  ∃ l,
    run (AuthApiReads.get_credentials Demo.cfg 300
           (Demo.bearer_of Demo.alice_session_token)) Demo.linked
    = (inr (AuthApiReads.Listed l), Demo.linked)
    ∧ length l = count (AuthApi.live_credentials_of (Some 1%Z)) (credentials Demo.linked)
    ∧ ∀ v, v ∈ l ↔
        ∃ k c, credentials Demo.linked !! k = Some c
               ∧ UserCredential.userId c = 1%Z ∧ live c = true
               ∧ v = AuthApiReads.view (k, c).
Proof.
  assert (authenticated_as Demo.cfg 300 (Demo.bearer_of Demo.alice_session_token)
          = Some 1%Z) as Hauth by (vm_compute; reflexivity).
  exact (credentials_listing Demo.cfg 300 _ Demo.linked 1 Hauth).
Defined.

(** GET /me still shows Alice after she was deactivated and deleted. *)
Lemma me_ignores_user_flags_witness :
  run (AuthApiReads.get_me Demo.cfg 300 (Demo.bearer_of Demo.alice_session_token))
      Scenes.linked_deactivated
  = (inr match users Scenes.linked_deactivated !! 1%Z with
         | Some u => {| status := 200;
                        body := {| message := ""; token := None;
                                   user := Some (1%Z, u); body_permissions := [] |} |}
         | None => json 404 "User not found"
         end, Scenes.linked_deactivated).
Proof.
  assert (authenticated_as Demo.cfg 300 (Demo.bearer_of Demo.alice_session_token)
          = Some 1%Z) as Hauth by (vm_compute; reflexivity).
  exact (me_ignores_user_flags Demo.cfg 300 _ Scenes.linked_deactivated 1 Hauth).
Defined.

(** Alice deletes her password credential: it cannot be deleted again, and
    her password no longer logs in. *)
Lemma deleted_credential_is_dead_witness :
  ∃ db',
    run (AuthApi.delete_credential Demo.cfg 700
           (Demo.bearer_of Demo.alice_session_token) "1") Demo.linked
    = (inr (json 200 "Credential deleted successfully"), db')
    ∧ run (AuthApi.delete_credential Demo.cfg 800
             (Demo.bearer_of Demo.alice_session_token) "1") db'
      = (inr (json 404 "Credential not found"), db')
    ∧ run (AuthApi.post_login Demo.cfg 800
             (Some (UserCredential.loginName Demo.alice_credential))
             (Some "pw12345678")) db'
      = (inr (json 401 "Invalid login credentials"), db').
Proof.
  assert (pg_int4in "1" = Some 1%Z) as Hid by (vm_compute; reflexivity).
  assert (credentials Demo.linked
          = <[2%Z := Demo.alice_openid_credential]> {[1%Z := Demo.alice_credential]})
    as Hm by (vm_compute; reflexivity).
  assert (credentials Demo.linked !! 1%Z = Some Demo.alice_credential) as Hc
    by (vm_compute; reflexivity).
  assert (authenticated_as Demo.cfg 700 (Demo.bearer_of Demo.alice_session_token)
          = Some (UserCredential.userId Demo.alice_credential)) as Hauth
    by (vm_compute; reflexivity).
  assert (authenticated_as Demo.cfg 800 (Demo.bearer_of Demo.alice_session_token)
          = Some 1%Z) as Hauth2 by (vm_compute; reflexivity).
  assert (beforeValidate Demo.alice_credential = inr ()) as Hhook
    by (vm_compute; reflexivity).
  assert (2 ≤ count (AuthApi.live_credentials_of
                       (Some (UserCredential.userId Demo.alice_credential)))
                (credentials Demo.linked))%nat as Hn by (vm_compute; lia).
  assert (unique_login (credentials Demo.linked)) as Huniq.
  { rewrite Hm. apply unique_login_insert; [apply unique_login_singleton|].
    intros k' c' [<- <-]%lookup_singleton_Some _ _. discriminate. }
  assert (UserCredential.loginName Demo.alice_credential ≠ "") as Hl by discriminate.
  assert ("pw12345678" ≠ "") as Hp by discriminate.
  exact (deleted_credential_is_dead Demo.cfg 700 _ "1" Demo.linked 1
           Demo.alice_credential 800 _ 1 "pw12345678"
           Hid Hc Hauth eq_refl Hhook Hn Huniq eq_refl Hl Hp Hauth2).
Defined.

(** A wrong current password, through the service: the caller sees the
    error of the second rollback. *)
Lemma changePassword_rejections_masked_witness :
  run (UserService.changePassword 400 "salt2" (JNum 1) (Some "wrong")
         (Some "newpassword")) Demo.registered
  = (inl (Error "Transaction cannot be rolled back because it has been finished"),
     Demo.registered)
  ∧ Demo.registered = Demo.registered
  ∧ exn_message (Error "Transaction cannot be rolled back because it has been finished")
    ≠ "User not found or inactive"
  ∧ exn_message (Error "Transaction cannot be rolled back because it has been finished")
    ≠ "Current password is incorrect".
Proof.
  assert (run (UserService.changePassword 400 "salt2" (JNum 1) (Some "wrong")
                 (Some "newpassword")) Demo.registered
          = (inl (Error "Transaction cannot be rolled back because it has been finished"),
             Demo.registered)) as Hrun by (vm_compute; reflexivity).
  split; [exact Hrun|].
  exact (changePassword_rejections_masked 400 "salt2" (JNum 1) (Some "wrong")
           (Some "newpassword") Demo.registered _ _ Hrun).
Defined.

Lemma changePassword_requires_live_user_witness :
  ∃ e,
    run (UserService.changePassword 400 "salt2" (JNum 1) (Some "pw12345678")
           (Some "newpassword")) Scenes.linked_deactivated
    = (inl e, Scenes.linked_deactivated).
Proof.
  assert (where_int (JNum 1) = inr (Some 1%Z)) as Hw by reflexivity.
  assert (∀ u, users Scenes.linked_deactivated !! 1%Z = Some u → live_user u = false)
    as Hdead.
  { intros u Hu. vm_compute in Hu. injection Hu as <-. reflexivity. }
  exact (changePassword_requires_live_user 400 "salt2" (JNum 1) (Some "pw12345678")
           (Some "newpassword") Scenes.linked_deactivated 1 Hw Hdead).
Defined.

(** The length check counts code units, not bytes: a new password of five
    two-byte characters is too short. *)
Lemma short_password_in_code_units :
  String.length Scenes.five_letters = 10%nat
  ∧ js_length Scenes.five_letters = 5%nat
  ∧ run (AuthApi.post_change_password Demo.cfg 400 "salt2"
           (Demo.bearer_of Demo.alice_session_token)
           (Some "pw12345678") (Some Scenes.five_letters)) Demo.registered
    = (inr (json 400 "Password must be at least 8 characters long"), Demo.registered).
Proof. split_and!; vm_compute; reflexivity. Qed.

End Examples.
